(** * The Elasticsearch-to-OpenSearch provider shim

    A shallow embedding of [localstack/services/es/provider.py]: the
    translation helpers between the legacy (Elasticsearch) and the current
    (OpenSearch) dialect, and the operations of [EsProvider] that forward a
    legacy request to the OpenSearch client and translate the answer back.

    Python values are embedded as a small dynamically typed universe; the
    mutable objects (dicts and lists) live in a heap and are referred to by
    location, so that the in-place updates of the helpers are visible. *)

From Stdlib Require Import Ascii.
From stdpp Require Import gmap strings list fin_maps.

(** ** Python strings *)

Module PyStr.

(** [s.startswith(p)] *)
Fixpoint startswith (p s : string) : bool :=
  match p with
  | EmptyString => true
  | String a p' =>
      match s with
      | EmptyString => false
      | String b s' => if Ascii.eqb a b then startswith p' s' else false
      end
  end.

(** [s[n:]] *)
Fixpoint drop (n : nat) (s : string) : string :=
  match n with
  | O => s
  | S k => match s with EmptyString => EmptyString | String _ s' => drop k s' end
  end.

(** [s.split(sep)] for a separator of one character: the pieces between
    the occurrences of [sep], of which there is always at least one. The
    pair is (first piece, remaining pieces). *)
Fixpoint split_go (sep : ascii) (s : string) : string * list string :=
  match s with
  | EmptyString => (EmptyString, [])
  | String c s' =>
      let '(hd, tl) := split_go sep s' in
      if Ascii.eqb c sep then (EmptyString, hd :: tl) else (String c hd, tl)
  end.

Definition split (sep : ascii) (s : string) : list string :=
  let '(hd, tl) := split_go sep s in hd :: tl.

(** [s.replace(old, new)] scans [s] from the left; at an occurrence of
    [old] it emits [new] and jumps over the occurrence, elsewhere it copies
    one character. [skip] counts the characters of the occurrence still to
    jump over. *)
Fixpoint replace_go (old new : string) (skip : nat) (s : string) : string :=
  match s with
  | EmptyString => EmptyString
  | String c s' =>
      match skip with
      | S k => replace_go old new k s'
      | O =>
          if startswith old s
          then new +:+ replace_go old new (String.length old - 1) s'
          else String c (replace_go old new 0 s')
      end
  end.

(** With an empty [old], Python puts [new] before every character and at
    the end. *)
Fixpoint replace_empty (new s : string) : string :=
  match s with
  | EmptyString => new
  | String c s' => new +:+ String c (replace_empty new s')
  end.

Definition replace (old new s : string) : string :=
  match old with
  | EmptyString => replace_empty new s
  | String _ _ => replace_go old new 0 s
  end.

(** [c in s] *)
Fixpoint contains_char (c : ascii) (s : string) : bool :=
  match s with
  | EmptyString => false
  | String a s' => if Ascii.eqb a c then true else contains_char c s'
  end.

(** [old] occurs in [s] as a substring. *)
Definition occurs (old s : string) : Prop :=
  ∃ pre post, s = pre +:+ old +:+ post.

(** What "[s] with every occurrence of [old] replaced by [new]" means,
    read from the left: either [old] does not occur in [s] and nothing
    changes, or the leftmost occurrence is replaced and the same is done to
    what follows it. *)
Inductive replaced_all (old new : string) : string → string → Prop :=
| replaced_none s :
    ¬ occurs old s → replaced_all old new s s
| replaced_leftmost pre rest t :
    (∀ pre' post', pre +:+ old +:+ rest = pre' +:+ old +:+ post' →
                   String.length pre ≤ String.length pre') →
    replaced_all old new rest t →
    replaced_all old new (pre +:+ old +:+ rest) (pre +:+ new +:+ t).

End PyStr.

(** ** Python values, objects and exceptions *)

Definition loc := positive.

Inductive value :=
| VNone
| VBool (b : bool)
| VInt (n : Z)
| VStr (s : string)
| VRef (l : loc).

Arguments VRef l%_positive.

Global Instance value_eq_dec : EqDecision value.
Proof. solve_decision. Defined.

Inductive exn :=
| AttributeError
| TypeError
| IndexError
| KeyError (k : string)
| External (name : string).

Inductive result (A : Type) :=
| Ok (a : A)
| Raise (e : exn).
Arguments Ok {A} a.
Arguments Raise {A} e.

Global Instance result_bind : MBind result := λ A B f r,
  match r with
  | Ok a => f a
  | Raise e => Raise e
  end.

(** ** Version and instance-type translation *)

(** [_version_to_opensearch]: a version that is not already an OpenSearch
    version gets the prefix of the Elasticsearch engine. *)
Definition _version_to_opensearch (version : value) : result value :=
  match version with
  | VNone => Ok VNone
  | VStr s =>
      if PyStr.startswith "OpenSearch_" s then Ok (VStr s)
      else Ok (VStr ("Elasticsearch_" +:+ s))
  | _ => Raise AttributeError
  end.

(** [_version_from_opensearch]: [version.split("_")[1]] for the versions of
    the Elasticsearch engine. *)
Definition _version_from_opensearch (version : value) : result value :=
  match version with
  | VNone => Ok VNone
  | VStr s =>
      if PyStr.startswith "Elasticsearch_" s then
        match PyStr.split "_"%char s !! 1%nat with
        | Some part => Ok (VStr part)
        | None => Raise IndexError
        end
      else Ok (VStr s)
  | _ => Raise AttributeError
  end.

Definition _instancetype_to_opensearch (instance_type : value) : result value :=
  match instance_type with
  | VNone => Ok VNone
  | VStr s => Ok (VStr (PyStr.replace "elasticsearch" "search" s))
  | _ => Raise AttributeError
  end.

Definition _instancetype_from_opensearch (instance_type : value) : result value :=
  match instance_type with
  | VNone => Ok VNone
  | VStr s => Ok (VStr (PyStr.replace "search" "elasticsearch" s))
  | _ => Raise AttributeError
  end.


(** ** The heap and the provider's monad *)

(** The two kinds of mutable object the shim handles. Dict keys are the
    field names of the API shapes, hence strings; the model does not record
    the insertion order of a dict. *)
Inductive obj :=
| ODict (d : gmap string value)
| OList (xs : list value).

(** A call made on the OpenSearch client: the operation and its keyword
    arguments. *)
Record call := Call {
  call_region : string;
  call_operation : string;
  call_kwargs : gmap string value
}.

(** What a run can change: the objects, and (as a record of what was sent
    out) the client calls made and the analytics events fired so far, oldest
    first. *)
Record state := State {
  heap : gmap loc obj;
  calls : list call;
  events : list (string * gmap string value)
}.

Definition set_heap (h : gmap loc obj) (st : state) : state :=
  {| heap := h; calls := calls st; events := events st |}.

(** A computation runs on a state and returns a value or raises; the changes
    made before an exception remain. *)
Definition M (A : Type) : Type := state → result A * state.

Global Instance M_ret : MRet M := λ A a st, (Ok a, st).
Global Instance M_bind : MBind M := λ A B f m st,
  match m st with
  | (Ok a, st') => f a st'
  | (Raise e, st') => (Raise e, st')
  end.

Definition lift {A} (r : result A) : M A := λ st, (r, st).

Fixpoint mapM {A B} (f : A → M B) (xs : list A) : M (list B) :=
  match xs with
  | [] => mret []
  | x :: xs' => y ← f x; ys ← mapM f xs'; mret (y :: ys)
  end.

(** A new object, at a location that is not in use. *)
Definition alloc (o : obj) : M value := λ st,
  let l := fresh (dom (heap st)) in
  (Ok (VRef l), set_heap (<[l := o]> (heap st)) st).

(** The dict a value refers to, if it refers to one. *)
Definition as_dict (h : gmap loc obj) (v : value) : option (gmap string value) :=
  match v with
  | VRef l => match h !! l with Some (ODict d) => Some d | _ => None end
  | _ => None
  end.

Definition as_list (h : gmap loc obj) (v : value) : option (list value) :=
  match v with
  | VRef l => match h !! l with Some (OList xs) => Some xs | _ => None end
  | _ => None
  end.

(** Looking a key up in a dict whose keys are strings: a key of another
    hashable type is not found, a dict or a list is not hashable. *)
Definition lookup_key (d : gmap string value) (key : value) : result (option value) :=
  match key with
  | VStr k => Ok (d !! k)
  | VRef _ => Raise TypeError
  | _ => Ok None
  end.

(** [v.get(key)] *)
Definition dict_get (v key : value) : M value := λ st,
  match as_dict (heap st) v with
  | Some d =>
      match lookup_key d key with
      | Ok o => (Ok (default VNone o), st)
      | Raise e => (Raise e, st)
      end
  | None => (Raise AttributeError, st)
  end.

(** [v[k]] for reading *)
Definition subscript (v : value) (k : string) : M value := λ st,
  match as_dict (heap st) v with
  | Some d =>
      match d !! k with
      | Some x => (Ok x, st)
      | None => (Raise (KeyError k), st)
      end
  | None => (Raise TypeError, st)
  end.

(** [v[k] = x] *)
Definition dict_set (v : value) (k : string) (x : value) : M () := λ st,
  match v with
  | VRef l =>
      match heap st !! l with
      | Some (ODict d) => (Ok (), set_heap (<[l := ODict (<[k := x]> d)]> (heap st)) st)
      | _ => (Raise TypeError, st)
      end
  | _ => (Raise TypeError, st)
  end.

(** [v.pop(k, None)] *)
Definition dict_pop (v : value) (k : string) : M value := λ st,
  match v with
  | VRef l =>
      match heap st !! l with
      | Some (ODict d) =>
          (Ok (default VNone (d !! k)), set_heap (<[l := ODict (delete k d)]> (heap st)) st)
      | Some (OList _) => (Raise TypeError, st)
      | None => (Raise AttributeError, st)
      end
  | _ => (Raise AttributeError, st)
  end.

Fixpoint chars (s : string) : list value :=
  match s with
  | EmptyString => []
  | String c s' => VStr (String c EmptyString) :: chars s'
  end.

(** [for x in v]: the elements of a list, the keys of a dict, the
    characters of a string. Two things differ from Python off the shapes of
    the API, where the provider iterates over lists only: the keys come in
    the order of the model's map, not in the order of insertion, and a
    string is cut into the bytes of the model's string, which are Python's
    characters for ASCII text only. *)
Definition iterate (v : value) : M (list value) := λ st,
  match v with
  | VRef l =>
      match heap st !! l with
      | Some (OList xs) => (Ok xs, st)
      | Some (ODict d) => (Ok (VStr <$> (map_to_list d).*1), st)
      | None => (Raise TypeError, st)
      end
  | VStr s => (Ok (chars s), st)
  | _ => (Raise TypeError, st)
  end.

(** ** Translation of the structured shapes *)

(** [cast] only informs the type checker: [result] below is the object that
    was passed in. *)
Definition cast (v : value) : value := v.

Definition _clusterconfig_from_opensearch (cluster_config : value) : M value :=
  match cluster_config with
  | VNone => mret VNone
  | _ =>
      let result := cast cluster_config in
      it ← dict_get cluster_config (VStr "InstanceType");
      it' ← lift (_instancetype_from_opensearch it);
      _ ← dict_set result "InstanceType" it';
      dm ← dict_get cluster_config (VStr "DedicatedMasterType");
      dm' ← lift (_instancetype_from_opensearch dm);
      _ ← dict_set result "DedicatedMasterType" dm';
      wt ← dict_get cluster_config (VStr "WarmType");
      wt' ← lift (_instancetype_from_opensearch wt);
      _ ← dict_set result "WarmType" wt';
      mret result
  end.

Definition _domainstatus_from_opensearch (domain_status : value) : M value :=
  match domain_status with
  | VNone => mret VNone
  | _ =>
      let result := cast domain_status in
      ev ← dict_get domain_status (VStr "EngineVersion");
      ev' ← lift (_version_from_opensearch ev);
      _ ← dict_set result "ElasticsearchVersion" ev';
      cc ← dict_get domain_status (VStr "ClusterConfig");
      cc' ← _clusterconfig_from_opensearch cc;
      _ ← dict_set result "ElasticsearchClusterConfig" cc';
      _ ← dict_pop result "EngineVersion";
      _ ← dict_pop result "ClusterConfig";
      mret result
  end.

Definition _clusterconfig_to_opensearch (elasticsearch_cluster_config : value) : M value :=
  match elasticsearch_cluster_config with
  | VNone => mret VNone
  | _ =>
      let result := cast elasticsearch_cluster_config in
      it ← dict_get result (VStr "InstanceType");
      it' ← lift (_instancetype_to_opensearch it);
      _ ← dict_set result "InstanceType" it';
      dm ← dict_get result (VStr "DedicatedMasterType");
      dm' ← lift (_instancetype_to_opensearch dm);
      _ ← dict_set result "DedicatedMasterType" dm';
      wt ← dict_get result (VStr "WarmType");
      wt' ← lift (_instancetype_to_opensearch wt);
      _ ← dict_set result "WarmType" wt';
      mret result
  end.

Definition _domainconfig_from_opensearch (domain_config : value) : M value :=
  match domain_config with
  | VNone => mret VNone
  | _ =>
      let result := cast domain_config in
      ev ← dict_get domain_config (VStr "EngineVersion");
      ev' ← lift (_version_from_opensearch ev);
      _ ← dict_set result "ElasticsearchVersion" ev';
      cc ← dict_get domain_config (VStr "ClusterConfig");
      cc' ← _clusterconfig_from_opensearch cc;
      _ ← dict_set result "ElasticsearchClusterConfig" cc';
      _ ← dict_pop result "EngineVersion";
      _ ← dict_pop result "ClusterConfig";
      mret result
  end.

(** One entry of the compatible-versions list: a new
    [CompatibleVersionsMap] with a new list of target versions. *)
Definition compatible_versions_map (version_map : value) : M value :=
  sv ← subscript version_map "SourceVersion";
  sv' ← lift (_version_from_opensearch sv);
  tv ← subscript version_map "TargetVersions";
  tvs ← iterate tv;
  tvs' ← mapM (λ target_version, lift (_version_from_opensearch target_version)) tvs;
  tl ← alloc (OList tvs');
  alloc (ODict (<["SourceVersion" := sv']> (<["TargetVersions" := tl]> ∅))).

Definition _compatible_version_list_from_opensearch (compatible_version_list : value) : M value :=
  match compatible_version_list with
  | VNone => mret VNone
  | _ =>
      maps ← iterate compatible_version_list;
      maps' ← mapM compatible_versions_map maps;
      alloc (OList maps')
  end.

(** ** The collaborators of the provider *)

(** The OpenSearch client: an operation gets its keyword arguments and
    answers with a value or raises; it may create and change objects. *)
Record client := Client {
  invoke : string → gmap string value → gmap loc obj → result value * gmap loc obj
}.

(** What the provider imports from the rest of the code base:
    [aws_stack.connect_to_service] (by service and region), and from
    [event_publisher] the hash, the publishing function (which returns
    normally, [None], or raises) and the names of the two events. *)
Record Env := {
  connect_to_service : string → string → result client;
  get_hash : string → result string;
  fire_event : string → gmap string value → option exn;
  EVENT_ES_CREATE_DOMAIN : string;
  EVENT_ES_DELETE_DOMAIN : string
}.

Record RequestContext := { region : string }.

(** [client.operation( **kwargs )] *)
Definition call_client (c : client) (rgn operation : string)
    (kwargs : gmap string value) : M value := λ st,
  let '(r, h) := invoke c operation kwargs (heap st) in
  (r, {| heap := h;
         calls := calls st ++ [Call rgn operation kwargs];
         events := events st |}).

(** [event_publisher.fire_event(event_type, payload=payload)] *)
Definition publish (E : Env) (event_type : string) (payload : gmap string value) : M () := λ st,
  let st' := {| heap := heap st; calls := calls st;
                events := events st ++ [(event_type, payload)] |} in
  match fire_event E event_type payload with
  | None => (Ok (), st')
  | Some e => (Raise e, st')
  end.

(** [{key: value for key, value in kwargs.items() if value is not None}] *)
Definition drop_none (kwargs : gmap string value) : gmap string value :=
  filter (λ kv, kv.2 ≠ VNone) kwargs.

(** ** The operations of [EsProvider] *)

Record CreateElasticsearchDomainRequest := {
  domain_name : string;
  elasticsearch_version : value;
  elasticsearch_cluster_config : value;
  ebs_options : value;
  access_policies : value;
  snapshot_options : value;
  vpc_options : value;
  cognito_options : value;
  encryption_at_rest_options : value;
  node_to_node_encryption_options : value;
  advanced_options : value;
  log_publishing_options : value;
  domain_endpoint_options : value;
  advanced_security_options : value;
  auto_tune_options : value;
  tag_list : value
}.

(** The entries of the [kwargs] dict literal of [create_elasticsearch_domain]. *)
Definition create_domain_fields (req : CreateElasticsearchDomainRequest)
    (engine_version cluster_config : value) : list (string * value) := [
  ("DomainName", VStr (domain_name req));
  ("EngineVersion", engine_version);
  ("ClusterConfig", cluster_config);
  ("EBSOptions", ebs_options req);
  ("AccessPolicies", access_policies req);
  ("SnapshotOptions", snapshot_options req);
  ("VPCOptions", vpc_options req);
  ("CognitoOptions", cognito_options req);
  ("EncryptionAtRestOptions", encryption_at_rest_options req);
  ("NodeToNodeEncryptionOptions", node_to_node_encryption_options req);
  ("AdvancedOptions", advanced_options req);
  ("LogPublishingOptions", log_publishing_options req);
  ("DomainEndpointOptions", domain_endpoint_options req);
  ("AdvancedSecurityOptions", advanced_security_options req);
  ("AutoTuneOptions", auto_tune_options req);
  ("TagList", tag_list req)
].

(** The keyword arguments of the outgoing [create_domain] call: the dict
    built from these entries, with the ones that are [None] left out. *)
Definition create_domain_kwargs (req : CreateElasticsearchDomainRequest)
    (engine_version cluster_config : value) : gmap string value :=
  let kwargs : gmap string value :=
    list_to_map (create_domain_fields req engine_version cluster_config) in
  drop_none kwargs.

Definition create_elasticsearch_domain (E : Env) (context : RequestContext)
    (req : CreateElasticsearchDomainRequest) : M value :=
  opensearch_client ← lift (connect_to_service E "opensearch" (region context));
  engine_version ← lift (_version_to_opensearch (elasticsearch_version req));
  cluster_config ← _clusterconfig_to_opensearch (elasticsearch_cluster_config req);
  let kwargs := create_domain_kwargs req engine_version cluster_config in
  response ← call_client opensearch_client (region context) "create_domain" kwargs;
  domain_status ← subscript response "DomainStatus";
  n ← lift (get_hash E (domain_name req));
  _ ← publish E (EVENT_ES_CREATE_DOMAIN E) {["n" := VStr n]};
  status ← _domainstatus_from_opensearch domain_status;
  alloc (ODict {["DomainStatus" := status]}).

Definition delete_elasticsearch_domain (E : Env) (context : RequestContext)
    (domain_name : string) : M value :=
  opensearch_client ← lift (connect_to_service E "opensearch" (region context));
  response ← call_client opensearch_client (region context) "delete_domain"
               {["DomainName" := VStr domain_name]};
  domain_status ← subscript response "DomainStatus";
  n ← lift (get_hash E domain_name);
  _ ← publish E (EVENT_ES_DELETE_DOMAIN E) {["n" := VStr n]};
  status ← _domainstatus_from_opensearch domain_status;
  alloc (ODict {["DomainStatus" := status]}).

Definition list_elasticsearch_versions (E : Env) (context : RequestContext)
    (max_results next_token : value) : M value :=
  opensearch_client ← lift (connect_to_service E "opensearch" (region context));
  let kwargs : gmap string value :=
    drop_none (list_to_map [("MaxResults", max_results); ("NextToken", next_token)]) in
  versions ← call_client opensearch_client (region context) "list_versions" kwargs;
  version_list ← subscript versions "Versions";
  version_items ← iterate version_list;
  translated ← mapM (λ version, lift (_version_from_opensearch version)) version_items;
  elasticsearch_versions ← alloc (OList translated);
  token ← dict_get versions next_token;
  alloc (ODict (<["ElasticsearchVersions" := elasticsearch_versions]>
                  (<["NextToken" := token]> ∅))).

(** ** Shapes and frames *)

(** A field that holds a string when it is set: missing, [None] or a
    string. *)
Definition is_opt_str (o : option value) : bool :=
  match o with
  | None | Some VNone | Some (VStr _) => true
  | Some _ => false
  end.

(** The part of the [ClusterConfig] shape that the translation relies on:
    absent, or a dict whose three instance types are strings when set. *)
Definition cluster_config_ok (h : gmap loc obj) (v : value) : bool :=
  match v with
  | VNone => true
  | _ =>
      match as_dict h v with
      | Some d =>
          is_opt_str (d !! "InstanceType")
          && is_opt_str (d !! "DedicatedMasterType")
          && is_opt_str (d !! "WarmType")
      | None => false
      end
  end.

(** The part of the [DomainStatus] and [DomainConfig] shapes that the
    translation relies on. *)
Definition domain_status_ok (h : gmap loc obj) (v : value) : bool :=
  match as_dict h v with
  | Some d =>
      is_opt_str (d !! "EngineVersion")
      && cluster_config_ok h (default VNone (d !! "ClusterConfig"))
  | None => false
  end.

(** A field is absent: missing from the dict, or bound to [None]. *)
Definition absent (o : option value) : Prop := o = None ∨ o = Some VNone.

(** Field [k] of the dict at [l]. *)
Definition field (h : gmap loc obj) (l : loc) (k : string) : option value :=
  as_dict h (VRef l) ≫= (.!! k).

Arguments field h l%_positive k.

(** The run from [st] to [st'] sent nothing out and changed no object
    outside [P]. *)
Definition unchanged_outside (P : loc → Prop) (st st' : state) : Prop :=
  calls st' = calls st ∧ events st' = events st ∧
  ∀ l, ¬ P l → heap st' !! l = heap st !! l.

(** The run from [st] to [st'] sent nothing out and left every object that
    existed as it was. *)
Definition only_allocates (st st' : state) : Prop :=
  calls st' = calls st ∧ events st' = events st ∧ heap st ⊆ heap st'.

(** The run from [st] to [st'] kept dicts dicts, and in every dict the
    fields outside [K]. *)
Definition keeps_fields (K : string → Prop) (st st' : state) : Prop :=
  ∀ l, (is_Some (as_dict (heap st) (VRef l)) → is_Some (as_dict (heap st') (VRef l))) ∧
       ∀ k, ¬ K k → is_Some (as_dict (heap st) (VRef l)) →
            field (heap st') l k = field (heap st) l k.

(** The run from [st] to [st'] made no client call. *)
Definition same_calls (st st' : state) : Prop := calls st' = calls st.

(** Every run of [m] is in the relation [R]. *)
Definition respects {A} (R : state → state → Prop) (m : M A) : Prop :=
  ∀ st, R st (m st).2.

Definition instance_type_field (k : string) : Prop :=
  k = "InstanceType" ∨ k = "DedicatedMasterType" ∨ k = "WarmType".

(** The two cluster-config translators have one body, up to the
    instance-type translation they apply. *)
Definition translate_cluster_config (f : value → result value)
    (cluster_config : value) : M value :=
  match cluster_config with
  | VNone => mret VNone
  | _ =>
      it ← dict_get cluster_config (VStr "InstanceType");
      it' ← lift (f it);
      _ ← dict_set cluster_config "InstanceType" it';
      dm ← dict_get cluster_config (VStr "DedicatedMasterType");
      dm' ← lift (f dm);
      _ ← dict_set cluster_config "DedicatedMasterType" dm';
      wt ← dict_get cluster_config (VStr "WarmType");
      wt' ← lift (f wt);
      _ ← dict_set cluster_config "WarmType" wt';
      mret cluster_config
  end.

(** The cluster config after the translation. *)
Definition translated_cluster_config (it dm wt : value)
    (d : gmap string value) : gmap string value :=
  <["WarmType" := wt]> (<["DedicatedMasterType" := dm]> (<["InstanceType" := it]> d)).

(** Field [k] of the dict a run returned. *)
Definition response_field (run : result value * state) (k : string) : option value :=
  match run.1 with
  | Ok (VRef l) => field (heap run.2) l k
  | _ => None
  end.

(** The list a value refers to after a run. *)
Definition response_list (run : result value * state) (v : option value) : option (list value) :=
  v ≫= as_list (heap run.2).

(** The client answers a [create_domain] call that asks for [version] with
    a domain status of the right shape that carries this engine version. *)
Definition answers_with_version (c : client) (version : string) : Prop :=
  ∀ kwargs h,
    kwargs !! "EngineVersion" = Some (VStr version) →
    ∃ r h' resp ds d,
      invoke c "create_domain" kwargs h = (Ok (VRef r), h') ∧
      h' !! r = Some (ODict resp) ∧
      resp !! "DomainStatus" = Some (VRef ds) ∧
      h' !! ds = Some (ODict d) ∧
      d !! "EngineVersion" = Some (VStr version) ∧
      cluster_config_ok h' (default VNone (d !! "ClusterConfig")) = true.

(** ** Sample data *)

Module Sample.

(** Three objects: at 1 a cluster config in the current dialect, at 2 a
    domain status without version and cluster config, at 3 a cluster
    config in the legacy dialect. *)
Definition objects : gmap loc obj :=
  <[1%positive := ODict (<["InstanceType" := VStr "m5.large.search"]>
                           (<["InstanceCount" := VInt 1]> ∅))]>
  (<[2%positive := ODict (<["DomainName" := VStr "logs"]> ∅)]>
  (<[3%positive := ODict (<["InstanceType" := VStr "m5.large.elasticsearch"]>
                            (<["InstanceCount" := VInt 1]> ∅))]> ∅)).

Definition start : state := {| heap := objects; calls := []; events := [] |}.

Definition domain_status (kwargs : gmap string value) : gmap string value :=
  <["DomainName" := default VNone (kwargs !! "DomainName")]>
  (<["EngineVersion" := default (VStr "OpenSearch_1.0") (kwargs !! "EngineVersion")]> ∅).

(** A client that answers [list_versions] with two versions and a token
    for the next page, and every other operation with the status of a
    domain that has the name and the engine version asked for. *)
Definition backend : client := {|
  invoke operation kwargs h :=
    if decide (operation = "list_versions") then
      let lv := fresh (dom h) in
      let h1 := <[lv := OList [VStr "Elasticsearch_7.10"; VStr "OpenSearch_1.0"]]> h in
      let r := fresh (dom h1) in
      (Ok (VRef r),
       <[r := ODict (<["Versions" := VRef lv]> (<["NextToken" := VStr "page2"]> ∅))]> h1)
    else
      let ds := fresh (dom h) in
      let h1 := <[ds := ODict (domain_status kwargs)]> h in
      let r := fresh (dom h1) in
      (Ok (VRef r), <[r := ODict (<["DomainStatus" := VRef ds]> ∅)]> h1)
|}.

Definition env : Env := {|
  connect_to_service _ _ := Ok backend;
  get_hash name := Ok ("hash of " +:+ name);
  fire_event _ _ := None;
  EVENT_ES_CREATE_DOMAIN := "es.cd";
  EVENT_ES_DELETE_DOMAIN := "es.dd"
|}.

(** The same, with a publisher that raises. *)
Definition env_publisher_down : Env := {|
  connect_to_service _ _ := Ok backend;
  get_hash name := Ok ("hash of " +:+ name);
  fire_event _ _ := Some (External "fire_event");
  EVENT_ES_CREATE_DOMAIN := "es.cd";
  EVENT_ES_DELETE_DOMAIN := "es.dd"
|}.

Definition context : RequestContext := {| region := "us-east-1" |}.

Definition request (version : value) : CreateElasticsearchDomainRequest := {|
  domain_name := "logs";
  elasticsearch_version := version;
  elasticsearch_cluster_config := VRef 3;
  ebs_options := VNone;
  access_policies := VNone;
  snapshot_options := VNone;
  vpc_options := VNone;
  cognito_options := VNone;
  encryption_at_rest_options := VNone;
  node_to_node_encryption_options := VNone;
  advanced_options := VNone;
  log_publishing_options := VNone;
  domain_endpoint_options := VNone;
  advanced_security_options := VNone;
  auto_tune_options := VNone;
  tag_list := VNone
|}.

End Sample.

(** ** More on strings *)

Module PyStrMore.

(** [old in s] *)
Fixpoint occursb (old s : string) : bool :=
  PyStr.startswith old s
  || match s with
     | EmptyString => false
     | String _ s' => occursb old s'
     end.

(** The suffixes of [s] that are not empty, longest first. *)
Fixpoint suffixes (s : string) : list string :=
  match s with
  | EmptyString => []
  | String _ s' => s :: suffixes s'
  end.

(** No proper suffix of [w] is a prefix of [w]: two occurrences of [w]
    cannot overlap. *)
Definition borderless (w : string) : bool :=
  match w with
  | EmptyString => true
  | String _ w' => forallb (λ u, negb (PyStr.startswith u w)) (suffixes w')
  end.

End PyStrMore.

(** ** The other operations of [EsProvider] *)

(** [if v:] *)
Definition truthy (h : gmap loc obj) (v : value) : bool :=
  match v with
  | VNone => false
  | VBool b => b
  | VInt n => bool_decide (n ≠ 0%Z)
  | VStr s => bool_decide (s ≠ "")
  | VRef l =>
      match h !! l with
      | Some (ODict d) => bool_decide (d ≠ ∅)
      | Some (OList xs) => bool_decide (xs ≠ [])
      | None => true
      end
  end.

(** [kwargs = {}] followed by [if v: kwargs[k] = v] *)
Definition kwargs_if_set (k : string) (v : value) : M (gmap string value) := λ st,
  (Ok (if truthy (heap st) v then {[k := v]} else ∅), st).

Definition describe_elasticsearch_domain (E : Env) (context : RequestContext)
    (domain_name : string) : M value :=
  opensearch_client ← lift (connect_to_service E "opensearch" (region context));
  response ← call_client opensearch_client (region context) "describe_domain"
               {["DomainName" := VStr domain_name]};
  opensearch_status ← subscript response "DomainStatus";
  status ← _domainstatus_from_opensearch opensearch_status;
  alloc (ODict {["DomainStatus" := status]}).

Definition describe_elasticsearch_domains (E : Env) (context : RequestContext)
    (domain_names : value) : M value :=
  opensearch_client ← lift (connect_to_service E "opensearch" (region context));
  response ← call_client opensearch_client (region context) "describe_domains"
               {["DomainNames" := domain_names]};
  opensearch_status_list ← subscript response "DomainStatusList";
  statuses ← iterate opensearch_status_list;
  translated ← mapM _domainstatus_from_opensearch statuses;
  status_list ← alloc (OList translated);
  alloc (ODict {["DomainStatusList" := status_list]}).

Definition list_domain_names (E : Env) (context : RequestContext)
    (engine_type : value) : M value :=
  opensearch_client ← lift (connect_to_service E "opensearch" (region context));
  kwargs ← kwargs_if_set "EngineType" engine_type;
  response ← call_client opensearch_client (region context) "list_domain_names" kwargs;
  domain_names ← subscript response "DomainNames";
  alloc (ODict {["DomainNames" := cast domain_names]}).

Definition get_compatible_elasticsearch_versions (E : Env) (context : RequestContext)
    (domain_name : value) : M value :=
  opensearch_client ← lift (connect_to_service E "opensearch" (region context));
  kwargs ← kwargs_if_set "DomainName" domain_name;
  compatible_versions_response ←
    call_client opensearch_client (region context) "get_compatible_versions" kwargs;
  compatible_versions ← dict_get compatible_versions_response (VStr "CompatibleVersions");
  translated ← _compatible_version_list_from_opensearch compatible_versions;
  alloc (ODict {["CompatibleElasticsearchVersions" := translated]}).

Definition describe_elasticsearch_domain_config (E : Env) (context : RequestContext)
    (domain_name : string) : M value :=
  opensearch_client ← lift (connect_to_service E "opensearch" (region context));
  response ← call_client opensearch_client (region context) "describe_domain_config"
               {["DomainName" := VStr domain_name]};
  domain_config ← dict_get response (VStr "DomainConfig");
  translated ← _domainconfig_from_opensearch domain_config;
  alloc (ODict {["DomainConfig" := translated]}).

Definition add_tags (E : Env) (context : RequestContext) (arn tag_list : value) : M value :=
  opensearch_client ← lift (connect_to_service E "opensearch" (region context));
  _ ← call_client opensearch_client (region context) "add_tags"
        (<["ARN" := arn]> (<["TagList" := tag_list]> ∅));
  mret VNone.

Definition list_tags (E : Env) (context : RequestContext) (arn : value) : M value :=
  opensearch_client ← lift (connect_to_service E "opensearch" (region context));
  response ← call_client opensearch_client (region context) "list_tags" {["ARN" := arn]};
  tags ← dict_get response (VStr "TagList");
  alloc (ODict {["TagList" := tags]}).

Definition remove_tags (E : Env) (context : RequestContext) (arn tag_keys : value) : M value :=
  opensearch_client ← lift (connect_to_service E "opensearch" (region context));
  _ ← call_client opensearch_client (region context) "remove_tags"
        (<["ARN" := arn]> (<["TagKeys" := tag_keys]> ∅));
  mret VNone.

(** ** Shapes of lists *)

(** The entry [v] of a compatible-versions list: a dict with the source
    version [sv] and, under [TargetVersions], a list [tvs]. *)
Definition version_map_at (h : gmap loc obj) (v sv : value) (tvs : list value) : Prop :=
  ∃ d t, as_dict h v = Some d ∧
         d !! "SourceVersion" = Some sv ∧
         d !! "TargetVersions" = Some t ∧
         as_list h t = Some tvs.

Definition translates_version (x y : value) : Prop :=
  _version_from_opensearch x = Ok y.

(** The entry [v'] in [h'] is the translation of the entry [v] in [h]. *)
Definition translates_version_map (h h' : gmap loc obj) (v v' : value) : Prop :=
  ∃ sv tvs sv' tvs',
    version_map_at h v sv tvs ∧ version_map_at h' v' sv' tvs' ∧
    translates_version sv sv' ∧ Forall2 translates_version tvs tvs'.

(** The part of the [CompatibleVersionsMap] shape that the translation
    relies on: both keys are there, the versions are strings when set. *)
Definition version_map_ok (h : gmap loc obj) (v : value) : bool :=
  match as_dict h v with
  | Some d =>
      match d !! "SourceVersion", d !! "TargetVersions" with
      | Some sv, Some t =>
          is_opt_str (Some sv)
          && match as_list h t with
             | Some tvs => forallb (λ x, is_opt_str (Some x)) tvs
             | None => false
             end
      | _, _ => false
      end
  | None => false
  end.

Definition compatible_versions_ok (h : gmap loc obj) (v : value) : bool :=
  match as_list h v with
  | Some maps => forallb (version_map_ok h) maps
  | None => false
  end.

(** ** More frames *)

(** The run from [st] to [st'] fired no event. *)
Definition same_events (st st' : state) : Prop := events st' = events st.

(** The run from [st] to [st'] kept the shape of every domain status: dicts
    stay dicts, [EngineVersion] and [ClusterConfig] are as they were or
    gone, instance types are as they were or strings when set, and the
    legacy fields that were set are still set. *)
Definition shape_kept (st st' : state) : Prop :=
  ∀ l, is_Some (as_dict (heap st) (VRef l)) →
       is_Some (as_dict (heap st') (VRef l)) ∧
       (∀ k, k = "EngineVersion" ∨ k = "ClusterConfig" →
             field (heap st') l k = field (heap st) l k ∨ field (heap st') l k = None) ∧
       (∀ k, instance_type_field k →
             field (heap st') l k = field (heap st) l k ∨
             is_opt_str (field (heap st') l k) = true) ∧
       (∀ k, k = "ElasticsearchVersion" ∨ k = "ElasticsearchClusterConfig" →
             is_Some (field (heap st) l k) → is_Some (field (heap st') l k)).

(** A status that has been translated: the legacy fields are set, the
    current ones are gone. *)
Definition translated_status (h : gmap loc obj) (v : value) : Prop :=
  ∃ l, v = VRef l ∧
       is_Some (field h l "ElasticsearchVersion") ∧
       is_Some (field h l "ElasticsearchClusterConfig") ∧
       field h l "EngineVersion" = None ∧
       field h l "ClusterConfig" = None.

(** ** More sample data *)

Module MoreSamples.

(** At 1 a version with its status, as a domain config holds it, at 2 a
    domain config with that version, at 3 a domain status whose cluster
    config is a string; at 4 to 6 a compatible-versions list with one entry,
    at 7 an entry without source version and at 8 a list whose second entry
    it is; at 9 a cluster config and at 10 a domain status that refers to
    it. *)
Definition objects : gmap loc obj :=
  <[1%positive := ODict (<["Options" := VStr "OpenSearch_1.0"]> ∅)]>
  (<[2%positive := ODict (<["EngineVersion" := VRef 1]> ∅)]>
  (<[3%positive := ODict (<["EngineVersion" := VStr "Elasticsearch_7.10"]>
                            (<["ClusterConfig" := VStr "m5.large.search"]> ∅))]>
  (<[4%positive := OList [VStr "Elasticsearch_7.10"; VStr "OpenSearch_1.0"]]>
  (<[5%positive := ODict (<["SourceVersion" := VStr "Elasticsearch_7.9"]>
                            (<["TargetVersions" := VRef 4]> ∅))]>
  (<[6%positive := OList [VRef 5]]>
  (<[7%positive := ODict (<["TargetVersions" := VRef 4]> ∅)]>
  (<[8%positive := OList [VRef 5; VRef 7]]>
  (<[9%positive := ODict (<["InstanceType" := VStr "m5.large.search"]>
                            (<["InstanceCount" := VInt 2]> ∅))]>
  (<[10%positive := ODict (<["EngineVersion" := VStr "Elasticsearch_7.10"]>
                             (<["ClusterConfig" := VRef 9]> ∅))]> ∅))))))))).

Definition start : state := {| heap := objects; calls := []; events := [] |}.

(** A new object in a heap. *)
Definition new (o : obj) (h : gmap loc obj) : loc * gmap loc obj :=
  let l := fresh (dom h) in (l, <[l := o]> h).

Definition answer (k : string) (o : obj) (h : gmap loc obj)
    : result value * gmap loc obj :=
  let '(l, h1) := new o h in
  let '(r, h2) := new (ODict (<[k := VRef l]> ∅)) h1 in
  (Ok (VRef r), h2).

(** A client with an answer for every operation. *)
Definition backend : client := {|
  invoke operation kwargs h :=
    if decide (operation = "describe_domains") then
      let '(s1, h1) := new (ODict (<["DomainName" := VStr "a"]>
                                     (<["EngineVersion" := VStr "Elasticsearch_7.10"]> ∅))) h in
      let '(s2, h2) := new (ODict (<["DomainName" := VStr "b"]>
                                     (<["EngineVersion" := VStr "OpenSearch_1.0"]> ∅))) h1 in
      answer "DomainStatusList" (OList [VRef s1; VRef s2]) h2
    else if decide (operation = "get_compatible_versions") then
      let '(t, h1) := new (OList [VStr "Elasticsearch_7.10"; VStr "OpenSearch_1.0"]) h in
      let '(m, h2) := new (ODict (<["SourceVersion" := VStr "Elasticsearch_7.9"]>
                                    (<["TargetVersions" := VRef t]> ∅))) h1 in
      answer "CompatibleVersions" (OList [VRef m]) h2
    else if decide (operation = "describe_domain_config") then
      let '(v, h1) := new (ODict (<["Options" := VStr "OpenSearch_1.0"]> ∅)) h in
      answer "DomainConfig" (ODict (<["EngineVersion" := VRef v]> ∅)) h1
    else if decide (operation = "list_versions") then
      answer "Versions" (OList [VStr "Elasticsearch_7.10"; VStr "OpenSearch_1.0"]) h
    else if decide (operation = "list_domain_names") then
      answer "DomainNames" (OList []) h
    else if decide (operation = "list_tags") then
      answer "TagList" (OList []) h
    else
      answer "DomainStatus"
        (ODict (<["DomainName" := default VNone (kwargs !! "DomainName")]>
                  (<["EngineVersion" := VStr "Elasticsearch_7.10"]> ∅))) h
|}.

(** A client that cannot reach the service. *)
Definition backend_down : client := {|
  invoke _ _ h := (Raise (External "EndpointConnectionError"), h)
|}.

(** A value that is [None], or a dict in which some key is bound to
    [None]. *)
Definition holds_none (h : gmap loc obj) (v : value) : bool :=
  match v with
  | VNone => true
  | _ =>
      match as_dict h v with
      | Some d => existsb (λ kv, bool_decide (kv.2 = VNone)) (map_to_list d)
      | None => false
      end
  end.

(** A client that validates its parameters before it sends anything: it
    refuses a call in which a keyword argument holds [None], and answers
    like [Sample.backend] otherwise. *)
Definition validating_backend : client := {|
  invoke operation kwargs h :=
    if existsb (λ kv, holds_none h kv.2) (map_to_list kwargs)
    then (Raise (External "ParamValidationError"), h)
    else invoke Sample.backend operation kwargs h
|}.

(** A state in which the cluster config at 3 names all three instance
    types. *)
Definition start_all_types : state := {|
  heap := {[ 3%positive :=
               ODict (<["InstanceType" := VStr "m5.large.elasticsearch"]>
                     (<["DedicatedMasterType" := VStr "c5.large.elasticsearch"]>
                     (<["WarmType" := VStr "ultrawarm1.medium.elasticsearch"]>
                     (<["InstanceCount" := VInt 1]> ∅)))) ]};
  calls := [];
  events := []
|}.


Definition env_of (c : client) : Env := {|
  connect_to_service _ _ := Ok c;
  get_hash name := Ok ("hash of " +:+ name);
  fire_event _ _ := None;
  EVENT_ES_CREATE_DOMAIN := "es.cd";
  EVENT_ES_DELETE_DOMAIN := "es.dd"
|}.

End MoreSamples.

(** * Properties *)

(** ** Strings *)

Module PyStrFacts.
Import PyStr.

Lemma app_cons (c : ascii) (s t : string) : String c s +:+ t = String c (s +:+ t).
Proof. reflexivity. Qed.

Lemma app_nil_l (s : string) : "" +:+ s = s.
Proof. reflexivity. Qed.

Lemma app_length (s1 s2 : string) :
  String.length (s1 +:+ s2) = String.length s1 + String.length s2.
Proof.
  induction s1 as [|c s1 IH]; [done|]. rewrite app_cons. cbn. by rewrite IH.
Qed.

Lemma app_inj_length (p1 p2 r1 r2 : string) :
  String.length p1 = String.length p2 →
  p1 +:+ r1 = p2 +:+ r2 → p1 = p2 ∧ r1 = r2.
Proof.
  revert p2. induction p1 as [|c p1 IH]; intros [|c2 p2] Hlen Heq;
    try discriminate; [done|].
  rewrite !app_cons in Heq. injection Hlen as Hlen. injection Heq as -> Heq.
  destruct (IH _ Hlen Heq) as [-> ->]. done.
Qed.

Lemma startswith_app (p r : string) : startswith p (p +:+ r) = true.
Proof.
  induction p as [|c p IH]; [done|]. rewrite app_cons. cbn.
  by rewrite Ascii.eqb_refl.
Qed.

Lemma startswith_spec (p s : string) :
  startswith p s = true ↔ ∃ r, s = p +:+ r.
Proof.
  split.
  - revert s. induction p as [|a p IH]; intros s H.
    + by exists s.
    + destruct s as [|b s]; [done|]. cbn in H.
      destruct (Ascii.eqb a b) eqn:Hab; [|done].
      apply Ascii.eqb_eq in Hab as ->.
      destruct (IH _ H) as [r ->]. by exists r.
  - intros [r ->]. apply startswith_app.
Qed.

Lemma drop_app (p r : string) : drop (String.length p) (p +:+ r) = r.
Proof. induction p as [|c p IH]; [done|]. exact IH. Qed.

Lemma split_go_no_sep (c : ascii) (s : string) :
  contains_char c s = false → split_go c s = (s, []).
Proof.
  induction s as [|a s IH]; [done|]. cbn.
  destruct (Ascii.eqb a c); [done|]. intros H. by rewrite (IH H).
Qed.

Lemma split_go_sep_free_iff (c : ascii) (s : string) :
  (split_go c s).1 = s ↔ contains_char c s = false.
Proof.
  split; [|intros H; by rewrite split_go_no_sep].
  induction s as [|a s IH]; [done|]. cbn.
  destruct (split_go c s) as [hd tl]. destruct (Ascii.eqb a c); [done|].
  cbn. intros [= H]. by apply IH.
Qed.

(** The pieces of [p + sep + r], when [sep] is not in [p], are [p] and
    the pieces of [r]. *)
Lemma split_app_sep (c : ascii) (p r : string) :
  contains_char c p = false →
  split c (p +:+ String c r) = p :: split c r.
Proof.
  unfold split. induction p as [|a p IH]; rewrite ?app_cons, ?app_nil_l; cbn.
  - intros _. destruct (split_go c r) as [hd tl]. by rewrite Ascii.eqb_refl.
  - destruct (Ascii.eqb a c); [done|]. intros H. specialize (IH H).
    destruct (split_go c (p +:+ String c r)) as [hd tl].
    injection IH as -> ->. done.
Qed.

Lemma split_length (c : ascii) (s : string) : 1 ≤ length (split c s).
Proof. unfold split. destruct (split_go c s). cbn. lia. Qed.

Lemma replace_go_skip (old new : string) (k : nat) (s : string) :
  replace_go old new k s = replace_go old new 0 (drop k s).
Proof.
  revert k. induction s as [|c s IH]; intros [|k]; try done.
  cbn [replace_go drop]. apply IH.
Qed.

Lemma replace_go_hit (old new rest : string) :
  old ≠ "" →
  replace_go old new 0 (old +:+ rest) = new +:+ replace_go old new 0 rest.
Proof.
  destruct old as [|a old]; [done|]. intros _.
  rewrite app_cons. cbn [replace_go]. rewrite <- app_cons.
  rewrite startswith_app. f_equal.
  rewrite replace_go_skip.
  replace (String.length (String a old) - 1) with (String.length old)
    by (cbn; lia).
  by rewrite drop_app.
Qed.

Lemma replace_go_miss (old new : string) (c : ascii) (s : string) :
  startswith old (String c s) = false →
  replace_go old new 0 (String c s) = String c (replace_go old new 0 s).
Proof. intros H. cbn [replace_go]. by rewrite H. Qed.

Lemma not_occurs_empty (old : string) : old ≠ "" → ¬ occurs old "".
Proof.
  intros Hne (pre & post & H). apply (f_equal String.length) in H.
  rewrite !app_length in H. destruct old; [done|]. cbn in H. lia.
Qed.

Lemma replaced_all_cons (old new : string) (c : ascii) (s t : string) :
  startswith old (String c s) = false →
  replaced_all old new s t →
  replaced_all old new (String c s) (String c t).
Proof.
  intros Hmiss Hall. destruct Hall as [s Hnone | pre rest t Hleft Hrest].
  - apply replaced_none. intros ([|a pre] & post & H).
    + apply not_true_iff_false in Hmiss. apply Hmiss.
      apply startswith_spec. by exists post.
    + rewrite app_cons in H. injection H as _ H. apply Hnone. by exists pre, post.
  - apply (replaced_leftmost old new (String c pre) rest t); [|done].
    intros [|a pre'] post' H.
    + apply not_true_iff_false in Hmiss. exfalso. apply Hmiss.
      apply startswith_spec. by exists post'.
    + rewrite !app_cons in H. injection H as _ H. apply Hleft in H. cbn. lia.
Qed.

(** [replace] does what [replaced_all] says. *)
Lemma replace_go_replaced_all (old new : string) :
  old ≠ "" → ∀ s, replaced_all old new s (replace_go old new 0 s).
Proof.
  intros Hne s.
  remember (String.length s) as n eqn:Hn.
  revert s Hn. induction (lt_wf n) as [n _ IH]. intros s ->.
  destruct s as [|c s].
  - apply replaced_none. by apply not_occurs_empty.
  - destruct (startswith old (String c s)) eqn:Hsw.
    + apply startswith_spec in Hsw as [rest Hs]. rewrite Hs.
      rewrite replace_go_hit by done.
      apply (replaced_leftmost old new "" rest); [cbn; lia|].
      apply (IH (String.length rest)); [|done].
      rewrite Hs, app_length. destruct old; [done|]. cbn. lia.
    + rewrite replace_go_miss by done.
      apply replaced_all_cons; [done|].
      apply (IH (String.length s)); [cbn; lia|done].
Qed.

(** [replaced_all] determines its result. *)
Lemma replaced_all_functional (old new s t1 t2 : string) :
  replaced_all old new s t1 → replaced_all old new s t2 → t1 = t2.
Proof.
  intros H1. revert t2.
  induction H1 as [s Hnone | pre rest t Hleft Hrest IH]; intros t2 H2.
  - inversion H2 as [|pre2 rest2 t' Hleft2 Hrest2 Hs]; [done|].
    subst. destruct Hnone. by exists pre2, rest2.
  - inversion H2 as [s' Hnone Hs|pre2 rest2 t' Hleft2 Hrest2 Hs]; subst.
    + destruct Hnone. by exists pre, rest.
    + assert (String.length pre = String.length pre2) as Hlen.
      { apply Nat.le_antisymm;
          [eapply Hleft; by rewrite Hs | eapply Hleft2; by rewrite Hs]. }
      symmetry in Hlen.
      destruct (app_inj_length _ _ _ _ Hlen Hs) as [-> Hr].
      apply (inj (String.app old)) in Hr as ->.
      f_equal. f_equal. by apply IH.
Qed.

End PyStrFacts.

(** ** Version translation *)

Section Version.
Import PyStr PyStrFacts.

Example version_to_opensearch_legacy :
  _version_to_opensearch (VStr "7.10") = Ok (VStr "Elasticsearch_7.10").
Proof. reflexivity. Qed.

Example version_to_opensearch_current :
  _version_to_opensearch (VStr "OpenSearch_1.0") = Ok (VStr "OpenSearch_1.0").
Proof. reflexivity. Qed.

Example version_from_opensearch_legacy :
  _version_from_opensearch (VStr "Elasticsearch_7.10") = Ok (VStr "7.10").
Proof. reflexivity. Qed.

Example version_from_opensearch_current :
  _version_from_opensearch (VStr "OpenSearch_1.0") = Ok (VStr "OpenSearch_1.0").
Proof. reflexivity. Qed.

(** An Elasticsearch engine version comes back as the piece between the
    prefix and the next underscore. *)
Lemma version_from_elasticsearch (r : string) :
  _version_from_opensearch (VStr ("Elasticsearch_" +:+ r))
  = Ok (VStr (split_go "_" r).1).
Proof.
  unfold _version_from_opensearch. rewrite startswith_app.
  change ("Elasticsearch_" +:+ r) with ("Elasticsearch" +:+ String "_" r).
  rewrite split_app_sep by reflexivity.
  unfold split. by destruct (split_go "_" r).
Qed.

Lemma version_from_other (s : string) :
  startswith "Elasticsearch_" s = false →
  _version_from_opensearch (VStr s) = Ok (VStr s).
Proof. intros H. unfold _version_from_opensearch. by rewrite H. Qed.

Lemma version_from_none : _version_from_opensearch VNone = Ok VNone.
Proof. reflexivity. Qed.

(** Where the remainder has no underscore, it is returned whole. *)
Lemma version_from_elasticsearch_plain (r : string) :
  contains_char "_" r = false →
  _version_from_opensearch (VStr ("Elasticsearch_" +:+ r)) = Ok (VStr r).
Proof.
  intros H. rewrite version_from_elasticsearch.
  by rewrite split_go_no_sep.
Qed.

Lemma version_there_and_back (v : string) :
  startswith "OpenSearch_" v = false →
  _version_to_opensearch (VStr v) ≫= _version_from_opensearch
  = Ok (VStr (split_go "_" v).1).
Proof.
  intros H. unfold _version_to_opensearch. rewrite H.
  apply version_from_elasticsearch.
Qed.

(** The round trip gives the version back exactly when it has no
    underscore. *)
Lemma version_roundtrip_iff (v : string) :
  startswith "OpenSearch_" v = false →
  _version_to_opensearch (VStr v) ≫= _version_from_opensearch = Ok (VStr v)
  ↔ contains_char "_" v = false.
Proof.
  intros H. rewrite version_there_and_back by done.
  rewrite <- split_go_sep_free_iff. split; [by intros [= ->]|by intros ->].
Qed.

(** C1: the round trip through the current dialect, on a version string
    that starts with neither prefix but contains an underscore: the code
    returns only the piece before the underscore, not the version. *)
Theorem version_roundtrip_loses_underscore :
  startswith "OpenSearch_" "7_10" = false ∧
  startswith "Elasticsearch_" "7_10" = false ∧
  _version_to_opensearch (VStr "7_10") ≫= _version_from_opensearch
  = Ok (VStr "7").
Proof. repeat split. Qed.

(** C2: on an Elasticsearch engine version whose remainder contains an
    underscore, the legacy-direction translator returns the remainder only
    up to that underscore. *)
Theorem version_from_opensearch_cuts_remainder :
  _version_from_opensearch (VStr "Elasticsearch_7_10") = Ok (VStr "7").
Proof. reflexivity. Qed.

(** C10: for an input that starts with "Elasticsearch_", the split on "_"
    has at least two pieces, so the piece at index 1 exists and the
    translator returns it; it raises no IndexError. *)
Theorem version_from_opensearch_index_in_range (s : string) :
  startswith "Elasticsearch_" s = true →
  2 ≤ length (split "_" s) ∧
  ∃ part, split "_" s !! 1%nat = Some part ∧
          _version_from_opensearch (VStr s) = Ok (VStr part).
Proof.
  intros H. apply startswith_spec in H as [r ->].
  change ("Elasticsearch_" +:+ r) with ("Elasticsearch" +:+ String "_" r).
  rewrite split_app_sep by reflexivity.
  split; [cbn; pose proof (split_length "_" r); lia|].
  exists (split_go "_" r).1. split.
  - unfold split. by destruct (split_go "_" r).
  - apply version_from_elasticsearch.
Qed.

Lemma version_from_opensearch_index_in_range_witness :
  2 ≤ length (split "_" "Elasticsearch_7.10") ∧
  ∃ part, split "_" "Elasticsearch_7.10" !! 1%nat = Some part ∧
          _version_from_opensearch (VStr "Elasticsearch_7.10") = Ok (VStr part).
Proof.
  apply (version_from_opensearch_index_in_range "Elasticsearch_7.10").
  reflexivity.
Defined.

(** On strings and on [None] the translator always returns. *)
Lemma version_from_opensearch_total (s : string) :
  ∃ t, _version_from_opensearch (VStr s) = Ok (VStr t).
Proof.
  destruct (startswith "Elasticsearch_" s) eqn:H.
  - apply startswith_spec in H as [r ->]. eexists.
    apply version_from_elasticsearch.
  - exists s. by apply version_from_other.
Qed.

End Version.

(** ** Instance-type translation *)

Section InstanceType.
Import PyStr PyStrFacts.

(** C8: on a string [s], the current-direction translator returns [s] with
    every occurrence of "elasticsearch" replaced by "search", the
    legacy-direction translator returns [s] with every occurrence of
    "search" replaced by "elasticsearch"; on [None] both return [None]. *)
Theorem instancetype_replaces_every_occurrence (s : string) :
  (∀ t, _instancetype_to_opensearch (VStr s) = Ok (VStr t)
        ↔ replaced_all "elasticsearch" "search" s t) ∧
  (∀ t, _instancetype_from_opensearch (VStr s) = Ok (VStr t)
        ↔ replaced_all "search" "elasticsearch" s t) ∧
  _instancetype_to_opensearch VNone = Ok VNone ∧
  _instancetype_from_opensearch VNone = Ok VNone.
Proof.
  split; [|split; [|done]].
  - intros t. unfold _instancetype_to_opensearch, replace. split.
    + intros [= <-]. by apply replace_go_replaced_all.
    + intros H. do 2 f_equal.
      eapply replaced_all_functional; [|exact H].
      by apply replace_go_replaced_all.
  - intros t. unfold _instancetype_from_opensearch, replace. split.
    + intros [= <-]. by apply replace_go_replaced_all.
    + intros H. do 2 f_equal.
      eapply replaced_all_functional; [|exact H].
      by apply replace_go_replaced_all.
Qed.

Example instancetype_to_opensearch_m5 :
  _instancetype_to_opensearch (VStr "m5.large.elasticsearch") = Ok (VStr "m5.large.search").
Proof. reflexivity. Qed.

Example instancetype_from_opensearch_m5 :
  _instancetype_from_opensearch (VStr "m5.large.search")
  = Ok (VStr "m5.large.elasticsearch").
Proof. reflexivity. Qed.

(** The two directions do not undo each other on every string. *)
Example instancetype_from_opensearch_research :
  _instancetype_from_opensearch (VStr "research") = Ok (VStr "reelasticsearch").
Proof. reflexivity. Qed.

End InstanceType.

(** ** Running the monad *)

Section Run.

Lemma bind_run {A B} (m : M A) (f : A → M B) (st : state) :
  (m ≫= f) st
  = match m st with
    | (Ok a, st') => f a st'
    | (Raise e, st') => (Raise e, st')
    end.
Proof. reflexivity. Qed.

Lemma bind_ok {A B} (m : M A) (f : A → M B) (st st' : state) (a : A) :
  m st = (Ok a, st') → (m ≫= f) st = f a st'.
Proof. intros H. by rewrite bind_run, H. Qed.

Lemma bind_raise {A B} (m : M A) (f : A → M B) (st st' : state) (e : exn) :
  m st = (Raise e, st') → (m ≫= f) st = (Raise e, st').
Proof. intros H. by rewrite bind_run, H. Qed.

Lemma as_dict_ref (h : gmap loc obj) (l : loc) (d : gmap string value) :
  as_dict h (VRef l) = Some d ↔ h !! l = Some (ODict d).
Proof.
  cbn. destruct (h !! l) as [[]|]; split; intros; simplify_eq; done.
Qed.

Lemma as_dict_inv (h : gmap loc obj) (v : value) (d : gmap string value) :
  as_dict h v = Some d → ∃ l, v = VRef l ∧ h !! l = Some (ODict d).
Proof.
  destruct v; try done. intros H. eexists. split; [done|]. by apply as_dict_ref.
Qed.

Lemma dict_get_run (st : state) (v : value) (d : gmap string value) (k : string) :
  as_dict (heap st) v = Some d →
  dict_get v (VStr k) st = (Ok (default VNone (d !! k)), st).
Proof. intros H. unfold dict_get. by rewrite H. Qed.

Lemma dict_set_run (st : state) (l : loc) (d : gmap string value)
    (k : string) (x : value) :
  heap st !! l = Some (ODict d) →
  dict_set (VRef l) k x st
  = (Ok (), set_heap (<[l := ODict (<[k := x]> d)]> (heap st)) st).
Proof. intros H. unfold dict_set. by rewrite H. Qed.

Lemma dict_pop_run (st : state) (l : loc) (d : gmap string value) (k : string) :
  heap st !! l = Some (ODict d) →
  dict_pop (VRef l) k st
  = (Ok (default VNone (d !! k)),
     set_heap (<[l := ODict (delete k d)]> (heap st)) st).
Proof. intros H. unfold dict_pop. by rewrite H. Qed.

Lemma subscript_run (st : state) (v : value) (d : gmap string value)
    (k : string) (x : value) :
  as_dict (heap st) v = Some d → d !! k = Some x →
  subscript v k st = (Ok x, st).
Proof. intros H Hk. unfold subscript. by rewrite H, Hk. Qed.

(** Reading leaves the state as it is. *)
Lemma dict_get_state (v key : value) (st : state) : (dict_get v key st).2 = st.
Proof.
  unfold dict_get. destruct (as_dict (heap st) v); [|done].
  by destruct (lookup_key _ key).
Qed.

Lemma subscript_state (v : value) (k : string) (st : state) :
  (subscript v k st).2 = st.
Proof.
  unfold subscript. destruct (as_dict (heap st) v) as [d|]; [|done].
  by destruct (d !! k).
Qed.

Lemma iterate_state (v : value) (st : state) : (iterate v st).2 = st.
Proof.
  unfold iterate. destruct v; try done. by destruct (heap st !! l) as [[]|].
Qed.

Global Instance unchanged_outside_refl P : Reflexive (unchanged_outside P).
Proof. by intros st. Qed.

Global Instance unchanged_outside_trans P : Transitive (unchanged_outside P).
Proof.
  intros s1 s2 s3 (Hc & He & Hh) (Hc' & He' & Hh'). repeat split.
  - by rewrite Hc'. - by rewrite He'.
  - intros l Hl. by rewrite Hh', Hh.
Qed.

Lemma unchanged_outside_mono (P Q : loc → Prop) (st st' : state) :
  (∀ l, P l → Q l) → unchanged_outside P st st' → unchanged_outside Q st st'.
Proof. intros HPQ (Hc & He & Hh). repeat split; [done..|]. naive_solver. Qed.

Global Instance only_allocates_refl : Reflexive only_allocates.
Proof. by intros st. Qed.

Global Instance only_allocates_trans : Transitive only_allocates.
Proof.
  intros s1 s2 s3 (Hc & He & Hh) (Hc' & He' & Hh'). repeat split.
  - by rewrite Hc'. - by rewrite He'.
  - by etrans.
Qed.

Global Instance keeps_fields_refl K : Reflexive (keeps_fields K).
Proof. by intros st l. Qed.

Global Instance keeps_fields_trans K : Transitive (keeps_fields K).
Proof.
  intros s1 s2 s3 H12 H23 l.
  destruct (H12 l) as [Hd Hf], (H23 l) as [Hd' Hf']. split; [auto|].
  intros k Hk His. rewrite Hf', Hf; auto.
Qed.

Lemma keeps_fields_mono (K K' : string → Prop) (st st' : state) :
  (∀ k, K k → K' k) → keeps_fields K st st' → keeps_fields K' st st'.
Proof. intros HK H l. destruct (H l) as [Hd Hf]. split; [done|]. naive_solver. Qed.

Context {R : state → state → Prop} `{!Reflexive R, !Transitive R}.

Lemma respects_ret {A} (a : A) : respects R (mret a).
Proof. by intros st. Qed.

Lemma respects_lift {A} (r : result A) : respects R (lift r).
Proof. by intros st. Qed.

Lemma respects_bind {A B} (m : M A) (f : A → M B) :
  respects R m → (∀ a, respects R (f a)) → respects R (m ≫= f).
Proof.
  intros Hm Hf st. rewrite bind_run. specialize (Hm st).
  destruct (m st) as [[a|e] st']; [|done].
  etrans; [exact Hm|apply Hf].
Qed.

Lemma respects_dict_get (v key : value) : respects R (dict_get v key).
Proof. intros st. by rewrite dict_get_state. Qed.

Lemma respects_subscript (v : value) (k : string) : respects R (subscript v k).
Proof. intros st. by rewrite subscript_state. Qed.

Lemma respects_iterate (v : value) : respects R (iterate v).
Proof. intros st. by rewrite iterate_state. Qed.

Lemma respects_mapM {A B} (f : A → M B) (xs : list A) :
  (∀ x, respects R (f x)) → respects R (mapM f xs).
Proof.
  intros Hf. induction xs as [|x xs IH]; [apply respects_ret|].
  cbn [mapM]. apply respects_bind; [done|]. intros y.
  apply respects_bind; [done|]. intros ys. apply respects_ret.
Qed.

End Run.

(** ** Which objects an update touches *)

Lemma dict_set_unchanged_outside (v : value) (k : string) (x : value) :
  respects (unchanged_outside (λ l, VRef l = v)) (dict_set v k x).
Proof.
  intros st. unfold dict_set. destruct v as [| | | |l]; try done.
  destruct (heap st !! l) as [[d|]|]; try done.
  repeat split. intros l' Hl'. cbn. rewrite lookup_insert_ne; [done|congruence].
Qed.

Lemma dict_pop_unchanged_outside (v : value) (k : string) :
  respects (unchanged_outside (λ l, VRef l = v)) (dict_pop v k).
Proof.
  intros st. unfold dict_pop. destruct v as [| | | |l]; try done.
  destruct (heap st !! l) as [[d|]|]; try done.
  repeat split. intros l' Hl'. cbn. rewrite lookup_insert_ne; [done|congruence].
Qed.

Lemma as_dict_insert (h : gmap loc obj) (l l' : loc) (d : gmap string value) :
  as_dict (<[l := ODict d]> h) (VRef l')
  = if decide (l = l') then Some d else as_dict h (VRef l').
Proof.
  cbn. rewrite lookup_insert. by case_decide.
Qed.

Lemma dict_set_keeps_fields (v : value) (k : string) (x : value) :
  respects (keeps_fields (λ k', k' = k)) (dict_set v k x).
Proof.
  intros st. unfold dict_set. destruct v as [| | | |l]; try done.
  destruct (heap st !! l) as [[d|]|] eqn:Hl; try done.
  intros l'. cbn [snd heap set_heap]. unfold field. rewrite as_dict_insert.
  case_decide as Hll; [subst l'|done].
  split; [by eauto|]. intros k' Hk' _.
  apply as_dict_ref in Hl. rewrite Hl. cbn.
  rewrite lookup_insert_ne; [done|congruence].
Qed.

Lemma dict_pop_keeps_fields (v : value) (k : string) :
  respects (keeps_fields (λ k', k' = k)) (dict_pop v k).
Proof.
  intros st. unfold dict_pop. destruct v as [| | | |l]; try done.
  destruct (heap st !! l) as [[d|]|] eqn:Hl; try done.
  intros l'. cbn [snd heap set_heap]. unfold field. rewrite as_dict_insert.
  case_decide as Hll; [subst l'|done].
  split; [by eauto|]. intros k' Hk' _.
  apply as_dict_ref in Hl. rewrite Hl. cbn.
  rewrite lookup_delete_ne; [done|congruence].
Qed.

Lemma alloc_only_allocates (o : obj) : respects only_allocates (alloc o).
Proof.
  intros st. repeat split. cbn.
  apply insert_subseteq, not_elem_of_dom, is_fresh.
Qed.

Lemma alloc_fresh (o : obj) (st : state) :
  ∃ l, alloc o st = (Ok (VRef l), set_heap (<[l := o]> (heap st)) st) ∧
       heap st !! l = None.
Proof.
  eexists. split; [reflexivity|]. apply not_elem_of_dom, is_fresh.
Qed.


(** ** Cluster-config translation *)

Section ClusterConfig.

Lemma clusterconfig_from_opensearch_unfold :
  _clusterconfig_from_opensearch
  = translate_cluster_config _instancetype_from_opensearch.
Proof. reflexivity. Qed.

Lemma clusterconfig_to_opensearch_unfold :
  _clusterconfig_to_opensearch
  = translate_cluster_config _instancetype_to_opensearch.
Proof. reflexivity. Qed.

Variable f : value → result value.

Lemma lift_run {A} (r : result A) (st : state) : lift r st = (r, st).
Proof. reflexivity. Qed.

(** On a dict whose instance types can be translated, the translation
    returns the dict it was given, with the three fields overwritten. *)
Lemma translate_cluster_config_run (st : state) (l : loc)
    (d : gmap string value) (it dm wt : value) :
  heap st !! l = Some (ODict d) →
  f (default VNone (d !! "InstanceType")) = Ok it →
  f (default VNone (d !! "DedicatedMasterType")) = Ok dm →
  f (default VNone (d !! "WarmType")) = Ok wt →
  translate_cluster_config f (VRef l) st
  = (Ok (VRef l),
     set_heap (<[l := ODict (translated_cluster_config it dm wt d)]> (heap st)) st).
Proof.
  intros Hl Hit Hdm Hwt. unfold translate_cluster_config.
  erewrite bind_ok; [|by apply dict_get_run, as_dict_ref].
  rewrite Hit. erewrite bind_ok; [|apply lift_run].
  erewrite bind_ok; [|by apply dict_set_run].
  erewrite bind_ok;
    [|apply dict_get_run, as_dict_ref; cbn [heap set_heap]; apply lookup_insert_eq].
  rewrite lookup_insert_ne by done.
  rewrite Hdm. erewrite bind_ok; [|apply lift_run].
  erewrite bind_ok;
    [|apply dict_set_run; cbn [heap set_heap]; apply lookup_insert_eq].
  erewrite bind_ok;
    [|apply dict_get_run, as_dict_ref; cbn [heap set_heap]; apply lookup_insert_eq].
  rewrite !lookup_insert_ne by done.
  rewrite Hwt. erewrite bind_ok; [|apply lift_run].
  erewrite bind_ok;
    [|apply dict_set_run; cbn [heap set_heap]; apply lookup_insert_eq].
  cbn [heap set_heap]. rewrite !insert_insert_eq. reflexivity.
Qed.

Lemma translate_cluster_config_result (v : value) (st : state) (x : value) :
  (translate_cluster_config f v st).1 = Ok x → x = v.
Proof.
  unfold translate_cluster_config. destruct v; [by intros [= <-]|..].
  all: rewrite !bind_run.
  all: repeat (match goal with
               | |- context [match ?m with _ => _ end] =>
                   destruct m as [[?|?] ?]; try done
               end; rewrite ?bind_run).
  all: by intros [= <-].
Qed.

Lemma translate_cluster_config_unchanged_outside (v : value) :
  respects (unchanged_outside (λ l, VRef l = v)) (translate_cluster_config f v).
Proof.
  unfold translate_cluster_config. destruct v; [apply respects_ret|..].
  all: repeat (apply respects_bind; [|intros ?]);
    first [ apply respects_dict_get | apply respects_lift
          | apply dict_set_unchanged_outside | apply respects_ret ].
Qed.

Lemma respects_mono {A} (R R' : state → state → Prop) (m : M A) :
  (∀ st st', R st st' → R' st st') → respects R m → respects R' m.
Proof. intros HR Hm st. apply HR, Hm. Qed.

Lemma translate_cluster_config_keeps_fields (v : value) :
  respects (keeps_fields instance_type_field) (translate_cluster_config f v).
Proof.
  unfold translate_cluster_config. destruct v; [apply respects_ret|..].
  all: repeat (apply respects_bind; [|intros ?]);
    first [ apply respects_dict_get | apply respects_lift | apply respects_ret
          | eapply respects_mono; [|apply dict_set_keeps_fields];
            intros ??; apply keeps_fields_mono; intros ? ->;
            unfold instance_type_field; auto ].
Qed.

End ClusterConfig.

(** ** Domain-status and domain-config translation *)

(** In the model the two translators are the same function. *)
Lemma domainconfig_from_opensearch_unfold :
  _domainconfig_from_opensearch = _domainstatus_from_opensearch.
Proof. reflexivity. Qed.

Lemma version_from_opt_str (o : option value) :
  is_opt_str o = true → ∃ ev, _version_from_opensearch (default VNone o) = Ok ev.
Proof.
  destruct o as [[]|]; try done; try by eexists.
  intros _. destruct (version_from_opensearch_total s) as [t Ht]. eauto.
Qed.

Lemma instancetype_from_opt_str (o : option value) :
  is_opt_str o = true → ∃ w, _instancetype_from_opensearch (default VNone o) = Ok w.
Proof. destruct o as [[]|]; try done; by eexists. Qed.

Lemma instancetype_to_opt_str (o : option value) :
  is_opt_str o = true → ∃ w, _instancetype_to_opensearch (default VNone o) = Ok w.
Proof. destruct o as [[]|]; try done; by eexists. Qed.

(** A cluster config of the right shape is translated, in either
    direction, and the translation returns it. *)
Lemma translate_cluster_config_returns (f : value → result value)
    (v : value) (st : state) :
  (∀ o, is_opt_str o = true → ∃ w, f (default VNone o) = Ok w) →
  cluster_config_ok (heap st) v = true →
  ∃ st', translate_cluster_config f v st = (Ok v, st').
Proof.
  intros Hf Hok. destruct v as [| | | |l]; try done; [by eexists|].
  unfold cluster_config_ok in Hok.
  destruct (as_dict (heap st) (VRef l)) as [d|] eqn:Hd; [|done].
  apply as_dict_ref in Hd.
  apply andb_true_iff in Hok as [Hok Hwt].
  apply andb_true_iff in Hok as [Hit Hdm].
  destruct (Hf _ Hit) as [it Hit'], (Hf _ Hdm) as [dm Hdm'],
    (Hf _ Hwt) as [wt Hwt'].
  eexists. by eapply translate_cluster_config_run.
Qed.

(** The shape of a cluster config survives updates of other fields. *)
Lemma cluster_config_ok_keeps (K : string → Prop) (st st' : state) (v : value) :
  (∀ k, instance_type_field k → ¬ K k) →
  keeps_fields K st st' →
  cluster_config_ok (heap st) v = true →
  cluster_config_ok (heap st') v = true.
Proof.
  intros HK Hkeep. destruct v as [| | | |l]; try done.
  unfold cluster_config_ok.
  destruct (as_dict (heap st) (VRef l)) as [d|] eqn:Hd; [|done].
  destruct (Hkeep l) as [Hdict Hfield].
  destruct Hdict as [d' Hd']; [by rewrite Hd|]. rewrite Hd'.
  assert (∀ k, instance_type_field k → d' !! k = d !! k) as Heq.
  { intros k Hk.
    specialize (Hfield k (HK k Hk)). unfold field in Hfield.
    rewrite Hd, Hd' in Hfield. apply Hfield. by eexists. }
  rewrite !Heq; unfold instance_type_field; auto.
Qed.

(** On a domain status of the right shape, the translation returns the
    dict it was given: the legacy fields are set, the current ones gone,
    the fields that are neither version, cluster config nor instance type
    as they were. *)
Lemma domainstatus_from_opensearch_run (st : state) (l : loc)
    (d : gmap string value) :
  heap st !! l = Some (ODict d) →
  domain_status_ok (heap st) (VRef l) = true →
  ∃ st' d' ev,
    _domainstatus_from_opensearch (VRef l) st = (Ok (VRef l), st') ∧
    calls st' = calls st ∧ events st' = events st ∧
    heap st' !! l = Some (ODict d') ∧
    _version_from_opensearch (default VNone (d !! "EngineVersion")) = Ok ev ∧
    d' !! "ElasticsearchVersion" = Some ev ∧
    d' !! "ElasticsearchClusterConfig"
      = Some (default VNone (d !! "ClusterConfig")) ∧
    d' !! "EngineVersion" = None ∧
    d' !! "ClusterConfig" = None.
Proof.
  intros Hl Hok. unfold domain_status_ok in Hok.
  rewrite (proj2 (as_dict_ref _ _ _) Hl) in Hok.
  apply andb_true_iff in Hok as [Hev Hcc].
  destruct (version_from_opt_str _ Hev) as [ev Hev'].
  set (cc := default VNone (d !! "ClusterConfig")) in *.
  set (d1 := <["ElasticsearchVersion" := ev]> d).
  set (st1 := set_heap (<[l := ODict d1]> (heap st)) st).
  assert (dict_set (VRef l) "ElasticsearchVersion" ev st = (Ok (), st1)) as Hset
    by by apply dict_set_run.
  assert (keeps_fields (λ k, k = "ElasticsearchVersion") st st1) as Hkeep1.
  { pose proof (dict_set_keeps_fields (VRef l) "ElasticsearchVersion" ev st) as H.
    by rewrite Hset in H. }
  assert (cluster_config_ok (heap st1) cc = true) as Hcc1.
  { eapply cluster_config_ok_keeps; [|exact Hkeep1|exact Hcc].
    intros k [->|[->| ->]]; done. }
  destruct (translate_cluster_config_returns _instancetype_from_opensearch
              cc st1 instancetype_from_opt_str Hcc1) as [st2 Hrun].
  pose proof (translate_cluster_config_keeps_fields
                _instancetype_from_opensearch cc st1) as Hkeep2.
  pose proof (translate_cluster_config_unchanged_outside
                _instancetype_from_opensearch cc st1) as (Hc2 & He2 & _).
  rewrite Hrun in Hkeep2, Hc2, He2. cbn [snd] in Hkeep2, Hc2, He2.
  destruct (Hkeep2 l) as [Hdict2 Hfield2].
  assert (as_dict (heap st1) (VRef l) = Some d1) as Hd1
    by (apply as_dict_ref; cbn; apply lookup_insert_eq).
  destruct Hdict2 as [d2 Hd2]; [by rewrite Hd1|].
  assert (∀ k, ¬ instance_type_field k → d2 !! k = d1 !! k) as Hd2k.
  { intros k Hk. specialize (Hfield2 k Hk). unfold field in Hfield2.
    rewrite Hd1, Hd2 in Hfield2. apply Hfield2. by eexists. }
  apply as_dict_ref in Hd2.
  eexists _, _, ev. split.
  { unfold _domainstatus_from_opensearch, cast.
    erewrite bind_ok; [|by apply dict_get_run, as_dict_ref].
    rewrite Hev'. erewrite bind_ok; [|apply lift_run].
    erewrite bind_ok; [|exact Hset].
    erewrite bind_ok; [|by apply dict_get_run].
    unfold d1 at 1. rewrite lookup_insert_ne by done. fold cc.
    rewrite clusterconfig_from_opensearch_unfold.
    erewrite bind_ok; [|exact Hrun].
    erewrite bind_ok; [|by apply dict_set_run].
    erewrite bind_ok;
      [|apply dict_pop_run; cbn [heap set_heap]; apply lookup_insert_eq].
    erewrite bind_ok;
      [|apply dict_pop_run; cbn [heap set_heap]; apply lookup_insert_eq].
    reflexivity. }
  cbn [heap set_heap calls events]. rewrite lookup_insert_eq.
  split; [done|]. split; [done|]. split; [done|]. split; [done|].
  assert (¬ instance_type_field "ElasticsearchVersion") as Hnot
    by (intros [?|[?|?]]; done).
  repeat split.
  - rewrite !lookup_delete_ne, lookup_insert_ne by done.
    rewrite (Hd2k _ Hnot). apply lookup_insert_eq.
  - rewrite !lookup_delete_ne by done. apply lookup_insert_eq.
  - rewrite lookup_delete_ne by done. apply lookup_delete_eq.
  - apply lookup_delete_eq.
Qed.

Lemma domainstatus_from_opensearch_result (v : value) (st : state) (x : value) :
  (_domainstatus_from_opensearch v st).1 = Ok x → x = v.
Proof.
  unfold _domainstatus_from_opensearch, cast. destruct v; [by intros [= <-]|..].
  all: rewrite !bind_run.
  all: repeat (match goal with
               | |- context [match ?m with _ => _ end] =>
                   destruct m as [[?|?] ?]; try done
               end; rewrite ?bind_run).
  all: by intros [= <-].
Qed.

(** The translation of a domain status changes the status itself and the
    cluster config it refers to, nothing else. *)
Lemma domainstatus_from_opensearch_unchanged_outside (v : value) (st : state) :
  unchanged_outside
    (λ l, VRef l = v ∨
          ∃ d, as_dict (heap st) v = Some d ∧ d !! "ClusterConfig" = Some (VRef l))
    st (_domainstatus_from_opensearch v st).2.
Proof.
  unfold _domainstatus_from_opensearch, cast.
  destruct (as_dict (heap st) v) as [d|] eqn:Hd.
  - destruct (as_dict_inv _ _ _ Hd) as (l & -> & Hl).
    erewrite bind_ok; [|by apply dict_get_run].
    rewrite bind_run, lift_run.
    destruct (_version_from_opensearch _) as [ev|e]; [|done].
    erewrite bind_ok; [|by apply dict_set_run].
    erewrite bind_ok;
      [|apply dict_get_run, as_dict_ref; cbn [heap set_heap]; apply lookup_insert_eq].
    rewrite lookup_insert_ne by done.
    set (cc := default VNone (d !! "ClusterConfig")).
    set (P := λ l', VRef l' = VRef l ∨ VRef l' = cc).
    set (st1 := set_heap _ st).
    assert (unchanged_outside P st st1) as H1.
    { repeat split. intros l' Hl'. cbn. rewrite lookup_insert_ne; [done|].
      intros ->. apply Hl'. by left. }
    eapply unchanged_outside_mono; [|etrans; [exact H1|]].
    { intros l' [?|Hcc]; [by left|right]. exists d. split; [done|].
      unfold cc in Hcc. destruct (d !! "ClusterConfig"); by simplify_eq/=. }
    match goal with |- unchanged_outside _ _ (?m st1).2 =>
      cut (respects (unchanged_outside P) m); [intros Hm; apply Hm|] end.
    apply respects_bind.
    { eapply respects_mono;
        [|apply (translate_cluster_config_unchanged_outside
                   _instancetype_from_opensearch cc)].
      intros ??. apply unchanged_outside_mono. intros ??. by right. }
    intros cc'.
    repeat (apply respects_bind; [|intros ?]); try apply respects_ret.
    all: eapply respects_mono;
      [|first [apply dict_set_unchanged_outside|apply dict_pop_unchanged_outside]].
    all: intros ??; apply unchanged_outside_mono; intros ??; by left.
  - destruct v; [done|..].
    all: rewrite bind_run; unfold dict_get; by rewrite Hd.
Qed.


(** ** Compatible-versions translation *)

Lemma compatible_versions_map_only_allocates (version_map : value) :
  respects only_allocates (compatible_versions_map version_map).
Proof.
  unfold compatible_versions_map.
  repeat (apply respects_bind; [|intros ?]);
    first [ apply respects_subscript | apply respects_lift | apply respects_iterate
          | apply alloc_only_allocates
          | apply respects_mapM; intros ?; apply respects_lift ].
Qed.

(** The translation of a compatible-versions list creates objects and
    leaves the existing ones as they are. *)
Lemma compatible_version_list_only_allocates (v : value) :
  respects only_allocates (_compatible_version_list_from_opensearch v).
Proof.
  unfold _compatible_version_list_from_opensearch.
  destruct v; [apply respects_ret|..].
  all: repeat (apply respects_bind; [|intros ?]);
    first [ apply respects_iterate | apply alloc_only_allocates
          | apply respects_mapM; intros ?; apply compatible_versions_map_only_allocates ].
Qed.

(** Its result, unless absent, is an object that did not exist before. *)
Lemma compatible_version_list_result_new (v : value) (st : state) (x : value) :
  v ≠ VNone →
  (_compatible_version_list_from_opensearch v st).1 = Ok x →
  ∃ l, x = VRef l ∧ heap st !! l = None.
Proof.
  intros Hv. unfold _compatible_version_list_from_opensearch.
  destruct v; [done|..].
  all: rewrite bind_run; rewrite (surjective_pairing (iterate _ st));
    rewrite iterate_state.
  all: destruct (iterate _ st).1 as [maps|]; [|done].
  all: rewrite bind_run.
  all: pose proof (respects_mapM (R:=only_allocates) compatible_versions_map maps
                     compatible_versions_map_only_allocates st) as (_ & _ & Hsub).
  all: destruct (mapM compatible_versions_map maps st) as [[maps'|] st1]; [|done].
  all: destruct (alloc_fresh (OList maps') st1) as (new & -> & Hfresh).
  all: intros [= <-]; exists new; split; [done|].
  all: cbn [snd] in Hsub.
  all: destruct (heap st !! new) as [o|] eqn:Hl; [|done].
  all: eapply lookup_weaken in Hl; [|exact Hsub]; congruence.
Qed.


(** ** Absent fields and in-place updates *)

Lemma translated_cluster_config_absent (f : value → result value)
    (d : gmap string value) (it dm wt : value) (k : string) :
  f VNone = Ok VNone →
  f (default VNone (d !! "InstanceType")) = Ok it →
  f (default VNone (d !! "DedicatedMasterType")) = Ok dm →
  f (default VNone (d !! "WarmType")) = Ok wt →
  instance_type_field k → absent (d !! k) →
  translated_cluster_config it dm wt d !! k = Some VNone.
Proof.
  intros Hnone Hit Hdm Hwt Hk Habs.
  assert (default VNone (d !! k) = VNone) as Hdef
    by (destruct Habs as [-> | ->]; done).
  unfold translated_cluster_config.
  destruct Hk as [->|[->| ->]].
  - rewrite Hdef in Hit. assert (it = VNone) as -> by congruence.
    rewrite !lookup_insert_ne by done. apply lookup_insert_eq.
  - rewrite Hdef in Hdm. assert (dm = VNone) as -> by congruence.
    rewrite lookup_insert_ne by done. apply lookup_insert_eq.
  - rewrite Hdef in Hwt. assert (wt = VNone) as -> by congruence.
    apply lookup_insert_eq.
Qed.

Lemma translate_cluster_config_absent (f : value → result value)
    (st : state) (l : loc) (d : gmap string value) (k : string) :
  f VNone = Ok VNone →
  (∀ o, is_opt_str o = true → ∃ w, f (default VNone o) = Ok w) →
  heap st !! l = Some (ODict d) →
  cluster_config_ok (heap st) (VRef l) = true →
  instance_type_field k → absent (d !! k) →
  ∃ st', translate_cluster_config f (VRef l) st = (Ok (VRef l), st') ∧
         field (heap st') l k = Some VNone.
Proof.
  intros Hnone Hf Hl Hok Hk Habs. unfold cluster_config_ok in Hok.
  rewrite (proj2 (as_dict_ref _ _ _) Hl) in Hok.
  apply andb_true_iff in Hok as [Hok Hwt].
  apply andb_true_iff in Hok as [Hit Hdm].
  destruct (Hf _ Hit) as [it Hit'], (Hf _ Hdm) as [dm Hdm'],
    (Hf _ Hwt) as [wt Hwt'].
  eexists. split; [by eapply translate_cluster_config_run|].
  unfold field. cbn [heap set_heap].
  rewrite as_dict_insert, decide_True by done. cbn.
  by eapply translated_cluster_config_absent.
Qed.





(** C3, as the code has it: the cluster-config, domain-status and
    domain-config translators return the object they were given, and what
    they change is this object (for a status or config, also the cluster
    config it refers to) and nothing else; the compatible-versions
    translator changes no object and returns a new one; the version and
    instance-type translators work on values and change nothing. *)
Theorem translators_update_their_argument (v : value) (st : state) :
  (unchanged_outside (λ l, VRef l = v) st (_clusterconfig_from_opensearch v st).2 ∧
   ∀ x, (_clusterconfig_from_opensearch v st).1 = Ok x → x = v) ∧
  (unchanged_outside (λ l, VRef l = v) st (_clusterconfig_to_opensearch v st).2 ∧
   ∀ x, (_clusterconfig_to_opensearch v st).1 = Ok x → x = v) ∧
  (unchanged_outside
     (λ l, VRef l = v ∨
           ∃ d, as_dict (heap st) v = Some d ∧ d !! "ClusterConfig" = Some (VRef l))
     st (_domainstatus_from_opensearch v st).2 ∧
   ∀ x, (_domainstatus_from_opensearch v st).1 = Ok x → x = v) ∧
  (unchanged_outside
     (λ l, VRef l = v ∨
           ∃ d, as_dict (heap st) v = Some d ∧ d !! "ClusterConfig" = Some (VRef l))
     st (_domainconfig_from_opensearch v st).2 ∧
   ∀ x, (_domainconfig_from_opensearch v st).1 = Ok x → x = v) ∧
  (only_allocates st (_compatible_version_list_from_opensearch v st).2 ∧
   ∀ x, v ≠ VNone → (_compatible_version_list_from_opensearch v st).1 = Ok x →
        ∃ l, x = VRef l ∧ heap st !! l = None) ∧
  (lift (_version_to_opensearch v) st).2 = st ∧
  (lift (_version_from_opensearch v) st).2 = st ∧
  (lift (_instancetype_to_opensearch v) st).2 = st ∧
  (lift (_instancetype_from_opensearch v) st).2 = st.
Proof.
  repeat split.
  - apply translate_cluster_config_unchanged_outside.
  - apply translate_cluster_config_unchanged_outside.
  - apply translate_cluster_config_unchanged_outside.
  - apply translate_cluster_config_result.
  - apply translate_cluster_config_unchanged_outside.
  - apply translate_cluster_config_unchanged_outside.
  - apply translate_cluster_config_unchanged_outside.
  - apply translate_cluster_config_result.
  - apply domainstatus_from_opensearch_unchanged_outside.
  - apply domainstatus_from_opensearch_unchanged_outside.
  - apply domainstatus_from_opensearch_unchanged_outside.
  - apply domainstatus_from_opensearch_result.
  - apply domainstatus_from_opensearch_unchanged_outside.
  - apply domainstatus_from_opensearch_unchanged_outside.
  - apply domainstatus_from_opensearch_unchanged_outside.
  - apply domainstatus_from_opensearch_result.
  - apply compatible_version_list_only_allocates.
  - apply compatible_version_list_only_allocates.
  - apply compatible_version_list_only_allocates.
  - intros x Hv. by apply compatible_version_list_result_new.
Qed.

Lemma translators_update_their_argument_witness :
  heap (_clusterconfig_from_opensearch (VRef 1) Sample.start).2 !! 3%positive
  = heap Sample.start !! 3%positive.
Proof.
  destruct (translators_update_their_argument (VRef 1) Sample.start)
    as [[(_ & _ & H) _] _].
  apply H. discriminate.
Defined.

(** C3, as the spec has it, fails: the cluster config handed to the
    translator is not the same afterwards. *)
Lemma clusterconfig_from_opensearch_changes_input :
  field (heap Sample.start) 1 "InstanceType" = Some (VStr "m5.large.search") ∧
  field (heap (_clusterconfig_from_opensearch (VRef 1) Sample.start).2) 1 "InstanceType"
  = Some (VStr "m5.large.elasticsearch") ∧
  heap (_clusterconfig_from_opensearch (VRef 1) Sample.start).2 !! 1%positive
  ≠ heap Sample.start !! 1%positive.
Proof.
  split; [reflexivity|]. split; [reflexivity|].
  intros H.
  apply (f_equal (λ o : option obj,
           match o with Some (ODict d) => d !! "InstanceType" | _ => None end)) in H.
  vm_compute in H. discriminate.
Qed.


(** ** The outgoing create-domain call *)

Global Instance same_calls_refl : Reflexive same_calls.
Proof. by intros st. Qed.

Global Instance same_calls_trans : Transitive same_calls.
Proof. unfold same_calls. intros s1 s2 s3 H1 H2. by rewrite H2. Qed.

Lemma drop_none_lookup_Some (m : gmap string value) (k : string) (v : value) :
  drop_none m !! k = Some v ↔ m !! k = Some v ∧ v ≠ VNone.
Proof. unfold drop_none. by rewrite map_lookup_filter_Some. Qed.

Lemma drop_none_no_none (m : gmap string value) (k : string) :
  drop_none m !! k ≠ Some VNone.
Proof. intros H. apply drop_none_lookup_Some in H as [_ H]. done. Qed.

Lemma drop_none_lookup (m : gmap string value) (k : string) (v : value) :
  m !! k = Some v →
  drop_none m !! k = if decide (v = VNone) then None else Some v.
Proof.
  intros Hk. case_decide as Hv.
  - destruct (drop_none m !! k) as [w|] eqn:Hw; [|done].
    apply drop_none_lookup_Some in Hw as [Hw Hne]. congruence.
  - by apply drop_none_lookup_Some.
Qed.

Lemma create_domain_fields_NoDup (req : CreateElasticsearchDomainRequest)
    (ev cc : value) :
  NoDup (create_domain_fields req ev cc).*1.
Proof. apply (bool_decide_unpack _). by vm_compute. Qed.

(** What the call carries: every entry of the dict literal that is not
    [None], and nothing else. *)
Lemma create_domain_kwargs_lookup (req : CreateElasticsearchDomainRequest)
    (ev cc : value) (k : string) (v : value) :
  (k, v) ∈ create_domain_fields req ev cc →
  create_domain_kwargs req ev cc !! k = if decide (v = VNone) then None else Some v.
Proof.
  intros Hin. apply drop_none_lookup.
  apply elem_of_list_to_map_1; [apply create_domain_fields_NoDup|done].
Qed.

Lemma create_domain_kwargs_engine_version (req : CreateElasticsearchDomainRequest)
    (ev cc : value) :
  create_domain_kwargs req ev cc !! "EngineVersion"
  = if decide (ev = VNone) then None else Some ev.
Proof.
  apply create_domain_kwargs_lookup. unfold create_domain_fields.
  apply list_elem_of_In. cbn. auto.
Qed.

Lemma publish_same_calls (E : Env) (event_type : string)
    (payload : gmap string value) :
  respects same_calls (publish E event_type payload).
Proof. intros st. unfold publish. by destruct (fire_event E _ _). Qed.

Lemma domainstatus_same_calls (v : value) :
  respects same_calls (_domainstatus_from_opensearch v).
Proof. intros st. apply domainstatus_from_opensearch_unchanged_outside. Qed.

Lemma alloc_same_calls (o : obj) : respects same_calls (alloc o).
Proof. by intros st. Qed.

(** A call is added to the record of calls, whatever the client answers. *)
Lemma call_client_then {A} (c : client) (rgn operation : string)
    (kwargs : gmap string value) (k : value → M A) (st : state) :
  (∀ response, respects same_calls (k response)) →
  calls ((call_client c rgn operation kwargs ≫= k) st).2
  = calls st ++ [Call rgn operation kwargs].
Proof.
  intros Hk. rewrite bind_run. unfold call_client.
  destruct (invoke c operation kwargs (heap st)) as [[response|e] h]; [|done].
  by rewrite (Hk response _).
Qed.

(** Up to the client call, [create_elasticsearch_domain] connects and
    translates the version and the cluster config. *)
Lemma create_elasticsearch_domain_sends (E : Env) (context : RequestContext)
    (req : CreateElasticsearchDomainRequest) (st st1 : state)
    (c : client) (ev cc : value) :
  connect_to_service E "opensearch" (region context) = Ok c →
  _version_to_opensearch (elasticsearch_version req) = Ok ev →
  _clusterconfig_to_opensearch (elasticsearch_cluster_config req) st = (Ok cc, st1) →
  create_elasticsearch_domain E context req st
  = (response ← call_client c (region context) "create_domain"
                   (create_domain_kwargs req ev cc);
     domain_status ← subscript response "DomainStatus";
     n ← lift (get_hash E (domain_name req));
     _ ← publish E (EVENT_ES_CREATE_DOMAIN E) {["n" := VStr n]};
     status ← _domainstatus_from_opensearch domain_status;
     alloc (ODict {["DomainStatus" := status]})) st1.
Proof.
  intros Hc Hev Hcc. unfold create_elasticsearch_domain.
  rewrite Hc, Hev. erewrite bind_ok; [|apply lift_run].
  erewrite bind_ok; [|apply lift_run].
  erewrite bind_ok; [|exact Hcc]. reflexivity.
Qed.

Lemma create_tail_same_calls (E : Env) (name : string) (event : string)
    (response : value) :
  respects same_calls
    (domain_status ← subscript response "DomainStatus";
     n ← lift (get_hash E name);
     _ ← publish E event {["n" := VStr n]};
     status ← _domainstatus_from_opensearch domain_status;
     alloc (ODict {["DomainStatus" := status]})).
Proof.
  repeat (apply respects_bind; [|intros ?]);
    first [ apply respects_subscript | apply respects_lift
          | apply publish_same_calls | apply domainstatus_same_calls
          | apply alloc_same_calls ].
Qed.

(** The keyword arguments themselves: a run of create-domain makes no
    client call or one [create_domain] call; the call carries every entry of
    the request that is not [None] and no entry that is [None], so that
    without [elasticsearch_version] it has no [EngineVersion]; and the call
    is made whenever the connection is there and the request has the right
    shape. This says nothing of what is inside the dicts the call refers
    to. *)
Lemma create_domain_omits_absent_fields (E : Env) (context : RequestContext)
    (req : CreateElasticsearchDomainRequest) (st : state) :
  let st' := (create_elasticsearch_domain E context req st).2 in
  (calls st' = calls st ∨
   ∃ ev cc kwargs,
     _version_to_opensearch (elasticsearch_version req) = Ok ev ∧
     kwargs = create_domain_kwargs req ev cc ∧
     calls st' = calls st ++ [Call (region context) "create_domain" kwargs] ∧
     (∀ k, kwargs !! k ≠ Some VNone) ∧
     (∀ k v, (k, v) ∈ create_domain_fields req ev cc →
             kwargs !! k = if decide (v = VNone) then None else Some v) ∧
     (elasticsearch_version req = VNone → kwargs !! "EngineVersion" = None)) ∧
  (∀ c, connect_to_service E "opensearch" (region context) = Ok c →
        is_opt_str (Some (elasticsearch_version req)) = true →
        cluster_config_ok (heap st) (elasticsearch_cluster_config req) = true →
        calls st' ≠ calls st).
Proof.
  intros st'.
  assert (∀ c ev cc st1,
    connect_to_service E "opensearch" (region context) = Ok c →
    _version_to_opensearch (elasticsearch_version req) = Ok ev →
    _clusterconfig_to_opensearch (elasticsearch_cluster_config req) st = (Ok cc, st1) →
    calls st' = calls st
                ++ [Call (region context) "create_domain" (create_domain_kwargs req ev cc)])
    as Hsent.
  { intros c ev cc st1 Hc Hev Hcc. unfold st'.
    rewrite (create_elasticsearch_domain_sends E context req st st1 c ev cc) by done.
    rewrite call_client_then by (intros ?; apply create_tail_same_calls).
    pose proof (translate_cluster_config_unchanged_outside
                  _instancetype_to_opensearch (elasticsearch_cluster_config req) st)
      as (Hcalls & _).
    rewrite <- clusterconfig_to_opensearch_unfold, Hcc in Hcalls.
    cbn [snd] in Hcalls. by rewrite Hcalls. }
  split.
  - destruct (connect_to_service E "opensearch" (region context)) as [c|e] eqn:Hc;
      [|left; unfold st', create_elasticsearch_domain; by rewrite Hc].
    destruct (_version_to_opensearch (elasticsearch_version req)) as [ev|e] eqn:Hev;
      [|left; unfold st', create_elasticsearch_domain; by rewrite Hc, Hev].
    destruct (_clusterconfig_to_opensearch (elasticsearch_cluster_config req) st)
      as [[cc|e] st1] eqn:Hcc.
    + right. exists ev, cc, (create_domain_kwargs req ev cc).
      split; [done|]. split; [done|]. split; [by eapply Hsent|].
      split; [intros k; apply drop_none_no_none|].
      split; [intros k v; apply create_domain_kwargs_lookup|].
      intros Hv. rewrite Hv in Hev. injection Hev as <-.
      by rewrite create_domain_kwargs_engine_version.
    + left. unfold st', create_elasticsearch_domain. rewrite Hc, Hev.
      erewrite bind_ok; [|apply lift_run].
      erewrite bind_ok; [|apply lift_run].
      erewrite bind_raise; [|exact Hcc].
      pose proof (translate_cluster_config_unchanged_outside
                    _instancetype_to_opensearch (elasticsearch_cluster_config req) st)
        as (Hcalls & _).
      rewrite <- clusterconfig_to_opensearch_unfold, Hcc in Hcalls. exact Hcalls.
  - intros c Hc Hv Hok.
    destruct (elasticsearch_version req) as [| | |s|] eqn:Hreq; try done.
    + destruct (translate_cluster_config_returns _instancetype_to_opensearch
                  _ st instancetype_to_opt_str Hok) as [st1 Hcc].
      rewrite (Hsent c VNone _ st1 Hc) by done.
      intros Heq. apply (f_equal length) in Heq. rewrite length_app in Heq.
      cbn in Heq. lia.
    + destruct (translate_cluster_config_returns _instancetype_to_opensearch
                  _ st instancetype_to_opt_str Hok) as [st1 Hcc].
      assert (∃ ev, _version_to_opensearch (VStr s) = Ok ev) as [ev Hev].
      { unfold _version_to_opensearch. destruct (PyStr.startswith _ s); eauto. }
      rewrite (Hsent c ev _ st1 Hc) by done.
      intros Heq. apply (f_equal length) in Heq. rewrite length_app in Heq.
      cbn in Heq. lia.
Qed.

Lemma create_domain_omits_absent_fields_witness :
  let st' := (create_elasticsearch_domain Sample.env Sample.context
                (Sample.request VNone) Sample.start).2 in
  calls st' ≠ calls Sample.start.
Proof.
  intros st'.
  destruct (create_domain_omits_absent_fields Sample.env Sample.context
              (Sample.request VNone) Sample.start) as [_ H].
  apply (H Sample.backend); reflexivity.
Defined.

Example create_domain_without_version :
  (λ c, (call_operation c, call_kwargs c !! "DomainName",
         call_kwargs c !! "EngineVersion", call_kwargs c !! "EBSOptions"))
    <$> calls (create_elasticsearch_domain Sample.env Sample.context
                 (Sample.request VNone) Sample.start).2
  = [("create_domain", Some (VStr "logs"), None, None)].
Proof. by vm_compute. Qed.

(** Inside the cluster config of the call. The filter of the keyword
    arguments looks at the value under [ClusterConfig], which is a dict and
    not [None], and not into it: the client is called in a state in which
    an instance type that the request left out is bound to [None] in the
    dict the call refers to. *)
Lemma create_domain_sends_none_inside (E : Env) (context : RequestContext)
    (req : CreateElasticsearchDomainRequest) (st : state) (c : client)
    (l : loc) (d : gmap string value) (k : string) :
  connect_to_service E "opensearch" (region context) = Ok c →
  is_opt_str (Some (elasticsearch_version req)) = true →
  elasticsearch_cluster_config req = VRef l →
  heap st !! l = Some (ODict d) →
  cluster_config_ok (heap st) (VRef l) = true →
  instance_type_field k → absent (d !! k) →
  ∃ ev st1,
    create_elasticsearch_domain E context req st
    = (response ← call_client c (region context) "create_domain"
                     (create_domain_kwargs req ev (VRef l));
       domain_status ← subscript response "DomainStatus";
       n ← lift (get_hash E (domain_name req));
       _ ← publish E (EVENT_ES_CREATE_DOMAIN E) {["n" := VStr n]};
       status ← _domainstatus_from_opensearch domain_status;
       alloc (ODict {["DomainStatus" := status]})) st1 ∧
    create_domain_kwargs req ev (VRef l) !! "ClusterConfig" = Some (VRef l) ∧
    field (heap st1) l k = Some VNone.
Proof.
  intros Hc Hv Hcc Hl Hok Hk Habs.
  assert (∃ ev, _version_to_opensearch (elasticsearch_version req) = Ok ev)
    as [ev Hev].
  { destruct (elasticsearch_version req) as [| | |s|]; try done; [by eexists|].
    unfold _version_to_opensearch. destruct (PyStr.startswith _ s); eauto. }
  destruct (translate_cluster_config_absent _instancetype_to_opensearch
              st l d k eq_refl instancetype_to_opt_str Hl Hok Hk Habs)
    as (st1 & Hrun & Hfield).
  exists ev, st1. split; [|split; [|exact Hfield]].
  - apply (create_elasticsearch_domain_sends E context req st st1 c ev (VRef l));
      [exact Hc|exact Hev|].
    by rewrite Hcc, clusterconfig_to_opensearch_unfold.
  - rewrite (create_domain_kwargs_lookup req ev (VRef l) "ClusterConfig" (VRef l));
      [done|].
    unfold create_domain_fields. apply list_elem_of_In. cbn. auto.
Qed.

(** C5: create-domain does not keep every [None] out of the call. For a
    request without version whose cluster config names [InstanceType]
    only, the keyword arguments have no [EngineVersion], but the dict they
    pass as [ClusterConfig] binds [DedicatedMasterType] and [WarmType] to
    [None], fields that the request did not have. A client that refuses
    [None] in its parameters refuses this call; it accepts the same request
    when the cluster config names all three instance types. *)
Theorem create_domain_sends_none_in_cluster_config :
  let request := Sample.request VNone in
  let run := create_elasticsearch_domain Sample.env Sample.context request
               Sample.start in
  let validated :=
    create_elasticsearch_domain (MoreSamples.env_of MoreSamples.validating_backend)
      Sample.context request in
  field (heap Sample.start) 3 "DedicatedMasterType" = None ∧
  field (heap Sample.start) 3 "WarmType" = None ∧
  (λ c, (call_operation c, call_kwargs c !! "EngineVersion",
         call_kwargs c !! "ClusterConfig")) <$> calls run.2
  = [("create_domain", None, Some (VRef 3))] ∧
  field (heap run.2) 3 "DedicatedMasterType" = Some VNone ∧
  field (heap run.2) 3 "WarmType" = Some VNone ∧
  (validated Sample.start).1 = Raise (External "ParamValidationError") ∧
  (∃ r, (validated MoreSamples.start_all_types).1 = Ok (VRef r)).
Proof.
  cbv zeta. repeat split; try by vm_compute.
  eexists. by vm_compute.
Qed.


(** ** Create and delete, end to end *)

Lemma call_client_run (c : client) (rgn operation : string)
    (kwargs : gmap string value) (st : state) (r : result value)
    (h : gmap loc obj) :
  invoke c operation kwargs (heap st) = (r, h) →
  call_client c rgn operation kwargs st
  = (r, {| heap := h;
           calls := calls st ++ [Call rgn operation kwargs];
           events := events st |}).
Proof. intros H. unfold call_client. by rewrite H. Qed.

(** After a client call that answered with a response holding a domain
    status, create and delete go on in the same way: the event is fired,
    then the status is translated and wrapped. If firing the event raises,
    that is the outcome. *)
Lemma publish_then_translate (E : Env) (name event : string)
    (response domain_status : value) (resp : gmap string value)
    (n : string) (st : state) :
  as_dict (heap st) response = Some resp →
  resp !! "DomainStatus" = Some domain_status →
  get_hash E name = Ok n →
  (domain_status ← subscript response "DomainStatus";
   n ← lift (get_hash E name);
   _ ← publish E event {["n" := VStr n]};
   status ← _domainstatus_from_opensearch domain_status;
   alloc (ODict {["DomainStatus" := status]})) st
  = let st' := {| heap := heap st; calls := calls st;
                  events := events st ++ [(event, {["n" := VStr n]})] |} in
    match fire_event E event {["n" := VStr n]} with
    | None =>
        (status ← _domainstatus_from_opensearch domain_status;
         alloc (ODict {["DomainStatus" := status]})) st'
    | Some e => (Raise e, st')
    end.
Proof.
  intros Hresp Hds Hn.
  erewrite bind_ok; [|by eapply subscript_run].
  rewrite Hn. erewrite bind_ok; [|apply lift_run].
  rewrite bind_run. unfold publish.
  by destruct (fire_event E event _).
Qed.

Lemma create_elasticsearch_domain_after_call (E : Env) (context : RequestContext)
    (req : CreateElasticsearchDomainRequest) (st st1 : state) (c : client)
    (ev cc response domain_status : value) (h : gmap loc obj)
    (resp : gmap string value) (n : string) :
  connect_to_service E "opensearch" (region context) = Ok c →
  _version_to_opensearch (elasticsearch_version req) = Ok ev →
  _clusterconfig_to_opensearch (elasticsearch_cluster_config req) st = (Ok cc, st1) →
  invoke c "create_domain" (create_domain_kwargs req ev cc) (heap st1)
  = (Ok response, h) →
  as_dict h response = Some resp →
  resp !! "DomainStatus" = Some domain_status →
  get_hash E (domain_name req) = Ok n →
  let payload : gmap string value := {["n" := VStr n]} in
  let st' := {| heap := h;
                calls := calls st1 ++ [Call (region context) "create_domain"
                                         (create_domain_kwargs req ev cc)];
                events := events st1 ++ [(EVENT_ES_CREATE_DOMAIN E, payload)] |} in
  create_elasticsearch_domain E context req st
  = match fire_event E (EVENT_ES_CREATE_DOMAIN E) payload with
    | None =>
        (status ← _domainstatus_from_opensearch domain_status;
         alloc (ODict {["DomainStatus" := status]})) st'
    | Some e => (Raise e, st')
    end.
Proof.
  intros Hc Hev Hcc Hcall Hresp Hds Hn payload st'.
  rewrite (create_elasticsearch_domain_sends E context req st st1 c ev cc) by done.
  erewrite bind_ok; [|by apply call_client_run].
  by erewrite publish_then_translate.
Qed.

Lemma delete_elasticsearch_domain_after_call (E : Env) (context : RequestContext)
    (domain_name : string) (st : state) (c : client)
    (response domain_status : value) (h : gmap loc obj)
    (resp : gmap string value) (n : string) :
  connect_to_service E "opensearch" (region context) = Ok c →
  invoke c "delete_domain" {["DomainName" := VStr domain_name]} (heap st)
  = (Ok response, h) →
  as_dict h response = Some resp →
  resp !! "DomainStatus" = Some domain_status →
  get_hash E domain_name = Ok n →
  let payload : gmap string value := {["n" := VStr n]} in
  let st' := {| heap := h;
                calls := calls st ++ [Call (region context) "delete_domain"
                                        {["DomainName" := VStr domain_name]}];
                events := events st ++ [(EVENT_ES_DELETE_DOMAIN E, payload)] |} in
  delete_elasticsearch_domain E context domain_name st
  = match fire_event E (EVENT_ES_DELETE_DOMAIN E) payload with
    | None =>
        (status ← _domainstatus_from_opensearch domain_status;
         alloc (ODict {["DomainStatus" := status]})) st'
    | Some e => (Raise e, st')
    end.
Proof.
  intros Hc Hcall Hresp Hds Hn payload st'.
  unfold delete_elasticsearch_domain. rewrite Hc.
  erewrite bind_ok; [|apply lift_run].
  erewrite bind_ok; [|by apply call_client_run].
  by erewrite publish_then_translate.
Qed.

(** C4, as the code has it: once the client call has answered, create and
    delete fire the event; if that returns normally they return the
    translated status, and if it raises they raise the same exception. *)
Theorem analytics_outcome_decides (E : Env) (context : RequestContext) :
  (∀ (req : CreateElasticsearchDomainRequest) (st st1 : state) (c : client)
     (ev cc response domain_status : value) (h : gmap loc obj)
     (resp : gmap string value) (n : string),
     connect_to_service E "opensearch" (region context) = Ok c →
     _version_to_opensearch (elasticsearch_version req) = Ok ev →
     _clusterconfig_to_opensearch (elasticsearch_cluster_config req) st = (Ok cc, st1) →
     invoke c "create_domain" (create_domain_kwargs req ev cc) (heap st1)
     = (Ok response, h) →
     as_dict h response = Some resp →
     resp !! "DomainStatus" = Some domain_status →
     get_hash E (domain_name req) = Ok n →
     let payload : gmap string value := {["n" := VStr n]} in
     let st' := {| heap := h;
                   calls := calls st1 ++ [Call (region context) "create_domain"
                                            (create_domain_kwargs req ev cc)];
                   events := events st1 ++ [(EVENT_ES_CREATE_DOMAIN E, payload)] |} in
     create_elasticsearch_domain E context req st
     = match fire_event E (EVENT_ES_CREATE_DOMAIN E) payload with
       | None =>
           (status ← _domainstatus_from_opensearch domain_status;
            alloc (ODict {["DomainStatus" := status]})) st'
       | Some e => (Raise e, st')
       end) ∧
  (∀ (domain_name : string) (st : state) (c : client)
     (response domain_status : value) (h : gmap loc obj)
     (resp : gmap string value) (n : string),
     connect_to_service E "opensearch" (region context) = Ok c →
     invoke c "delete_domain" {["DomainName" := VStr domain_name]} (heap st)
     = (Ok response, h) →
     as_dict h response = Some resp →
     resp !! "DomainStatus" = Some domain_status →
     get_hash E domain_name = Ok n →
     let payload : gmap string value := {["n" := VStr n]} in
     let st' := {| heap := h;
                   calls := calls st ++ [Call (region context) "delete_domain"
                                           {["DomainName" := VStr domain_name]}];
                   events := events st ++ [(EVENT_ES_DELETE_DOMAIN E, payload)] |} in
     delete_elasticsearch_domain E context domain_name st
     = match fire_event E (EVENT_ES_DELETE_DOMAIN E) payload with
       | None =>
           (status ← _domainstatus_from_opensearch domain_status;
            alloc (ODict {["DomainStatus" := status]})) st'
       | Some e => (Raise e, st')
       end).
Proof.
  split.
  - intros. by eapply create_elasticsearch_domain_after_call.
  - intros. by eapply delete_elasticsearch_domain_after_call.
Qed.

Lemma analytics_outcome_decides_witness :
  (∃ st', create_elasticsearch_domain Sample.env Sample.context
            (Sample.request (VStr "7.10")) Sample.start
          = (status ← _domainstatus_from_opensearch (VRef 4);
             alloc (ODict {["DomainStatus" := status]})) st') ∧
  (∃ st', delete_elasticsearch_domain Sample.env Sample.context "logs" Sample.start
          = (status ← _domainstatus_from_opensearch (VRef 4);
             alloc (ODict {["DomainStatus" := status]})) st').
Proof.
  destruct (analytics_outcome_decides Sample.env Sample.context) as [Hcreate Hdelete].
  split; eexists.
  - set (req := Sample.request (VStr "7.10")).
    set (st1 := (_clusterconfig_to_opensearch (VRef 3) Sample.start).2).
    set (kwargs := create_domain_kwargs req (VStr "Elasticsearch_7.10") (VRef 3)).
    apply (Hcreate req Sample.start st1 Sample.backend
             (VStr "Elasticsearch_7.10") (VRef 3) (VRef 5) (VRef 4)
             (invoke Sample.backend "create_domain" kwargs (heap st1)).2
             (<["DomainStatus" := VRef 4]> ∅) "hash of logs");
      reflexivity.
  - apply (Hdelete "logs" Sample.start Sample.backend (VRef 5) (VRef 4)
             (invoke Sample.backend "delete_domain"
                {["DomainName" := VStr "logs"]} Sample.objects).2
             (<["DomainStatus" := VRef 4]> ∅) "hash of logs");
      reflexivity.
Defined.

(** C4, as the spec has it, fails: the client call answers, the publisher
    raises, and both operations raise instead of returning the status. *)
Lemma publisher_failure_fails_the_operation :
  (∃ response h,
     invoke Sample.backend "delete_domain" {["DomainName" := VStr "logs"]}
       (heap Sample.start) = (Ok response, h)) ∧
  (delete_elasticsearch_domain Sample.env_publisher_down Sample.context
     "logs" Sample.start).1 = Raise (External "fire_event") ∧
  (create_elasticsearch_domain Sample.env_publisher_down Sample.context
     (Sample.request (VStr "7.10")) Sample.start).1 = Raise (External "fire_event") ∧
  call_operation <$> calls (create_elasticsearch_domain Sample.env_publisher_down
                              Sample.context (Sample.request (VStr "7.10"))
                              Sample.start).2 = ["create_domain"].
Proof.
  split; [by eexists _, _|]. split; [by vm_compute|]. split; by vm_compute.
Qed.

(** C6: a create-domain request for version "7.10" sends a [create_domain]
    call with [EngineVersion] "Elasticsearch_7.10"; when the client answers
    with a status that carries this engine version and the event is
    published, the status returned has [ElasticsearchVersion] "7.10" and no
    [EngineVersion]. *)
Theorem create_domain_version_end_to_end (E : Env) (context : RequestContext)
    (req : CreateElasticsearchDomainRequest) (st : state) (c : client)
    (n : string) :
  elasticsearch_version req = VStr "7.10" →
  cluster_config_ok (heap st) (elasticsearch_cluster_config req) = true →
  connect_to_service E "opensearch" (region context) = Ok c →
  answers_with_version c "Elasticsearch_7.10" →
  get_hash E (domain_name req) = Ok n →
  fire_event E (EVENT_ES_CREATE_DOMAIN E) {["n" := VStr n]} = None →
  ∃ kwargs st' r ds d,
    create_elasticsearch_domain E context req st = (Ok (VRef r), st') ∧
    calls st' = calls st ++ [Call (region context) "create_domain" kwargs] ∧
    kwargs !! "EngineVersion" = Some (VStr "Elasticsearch_7.10") ∧
    heap st' !! r = Some (ODict {["DomainStatus" := VRef ds]}) ∧
    heap st' !! ds = Some (ODict d) ∧
    d !! "ElasticsearchVersion" = Some (VStr "7.10") ∧
    d !! "EngineVersion" = None.
Proof.
  intros Hv Hok Hc Hanswer Hn Hfire.
  assert (_version_to_opensearch (elasticsearch_version req)
          = Ok (VStr "Elasticsearch_7.10")) as Hev by by rewrite Hv.
  destruct (translate_cluster_config_returns _instancetype_to_opensearch
              _ st instancetype_to_opt_str Hok) as [st1 Hcc].
  rewrite <- clusterconfig_to_opensearch_unfold in Hcc.
  pose proof (translate_cluster_config_unchanged_outside
                _instancetype_to_opensearch (elasticsearch_cluster_config req) st)
    as (Hcalls & Hevents & _).
  rewrite <- clusterconfig_to_opensearch_unfold, Hcc in Hcalls, Hevents.
  cbn [snd] in Hcalls, Hevents.
  set (kwargs := create_domain_kwargs req (VStr "Elasticsearch_7.10")
                   (elasticsearch_cluster_config req)) in *.
  assert (kwargs !! "EngineVersion" = Some (VStr "Elasticsearch_7.10")) as Hkw
    by apply create_domain_kwargs_engine_version.
  destruct (Hanswer kwargs (heap st1) Hkw)
    as (r & h & resp & ds & d & Hcall & Hr & Hds & Hd & Hdv & Hdcc).
  pose proof (create_elasticsearch_domain_after_call E context req st st1 c _ _ _ _ _ _ n
                Hc Hev Hcc Hcall (proj2 (as_dict_ref _ _ _) Hr) Hds Hn) as Hrun.
  cbv zeta in Hrun. rewrite Hfire in Hrun.
  set (st2 := {| heap := h; calls := _; events := _ |}) in Hrun.
  assert (domain_status_ok (heap st2) (VRef ds) = true) as Hshape.
  { unfold domain_status_ok. cbn [heap st2].
    rewrite (proj2 (as_dict_ref _ _ _) Hd), Hdv. exact Hdcc. }
  destruct (domainstatus_from_opensearch_run st2 ds d Hd Hshape)
    as (st3 & d' & v & Hstatus & Hcalls3 & _ & Hd' & Hv' & Hesv & _ & Hgone & _).
  rewrite Hdv in Hv'. injection Hv' as <-.
  destruct (alloc_fresh (ODict {["DomainStatus" := VRef ds]}) st3)
    as (r' & Halloc & Hfresh).
  erewrite bind_ok in Hrun; [|exact Hstatus]. rewrite Halloc in Hrun.
  exists kwargs, (set_heap (<[r' := ODict {["DomainStatus" := VRef ds]}]> (heap st3)) st3),
    r', ds, d'.
  split; [exact Hrun|]. cbn [heap calls set_heap].
  split; [by rewrite Hcalls3, <- Hcalls|]. split; [done|].
  split; [apply lookup_insert_eq|].
  split; [|split; [exact Hesv|exact Hgone]].
  rewrite lookup_insert_ne; [exact Hd'|].
  intros ->. rewrite Hfresh in Hd'. discriminate.
Qed.

Lemma sample_backend_answers (version : string) :
  answers_with_version Sample.backend version.
Proof.
  intros kwargs h Hkw. cbn [invoke Sample.backend].
  rewrite decide_False by done.
  set (ds := fresh (dom h)).
  set (h1 := <[ds := ODict (Sample.domain_status kwargs)]> h).
  set (r := fresh (dom h1)).
  assert (r ≠ ds) as Hne.
  { intros Heq. apply (is_fresh (dom h1)). fold r. rewrite Heq.
    unfold h1. rewrite dom_insert_L. set_solver. }
  exists r, (<[r := ODict (<["DomainStatus" := VRef ds]> ∅)]> h1),
    (<["DomainStatus" := VRef ds]> ∅), ds, (Sample.domain_status kwargs).
  split; [done|]. split; [apply lookup_insert_eq|].
  split; [apply lookup_insert_eq|].
  split; [rewrite lookup_insert_ne by done; apply lookup_insert_eq|].
  unfold Sample.domain_status. split.
  - rewrite lookup_insert_ne by done. rewrite lookup_insert_eq. by rewrite Hkw.
  - rewrite !lookup_insert_ne by done. by rewrite lookup_empty.
Qed.

Lemma create_domain_version_end_to_end_witness :
  ∃ kwargs st' r ds d,
    create_elasticsearch_domain Sample.env Sample.context
      (Sample.request (VStr "7.10")) Sample.start = (Ok (VRef r), st') ∧
    calls st' = calls Sample.start
                ++ [Call (region Sample.context) "create_domain" kwargs] ∧
    kwargs !! "EngineVersion" = Some (VStr "Elasticsearch_7.10") ∧
    heap st' !! r = Some (ODict {["DomainStatus" := VRef ds]}) ∧
    heap st' !! ds = Some (ODict d) ∧
    d !! "ElasticsearchVersion" = Some (VStr "7.10") ∧
    d !! "EngineVersion" = None.
Proof.
  apply (create_domain_version_end_to_end Sample.env Sample.context
           (Sample.request (VStr "7.10")) Sample.start Sample.backend
           "hash of logs").
  - reflexivity.
  - vm_compute. reflexivity.
  - reflexivity.
  - apply sample_backend_answers.
  - reflexivity.
  - reflexivity.
Defined.


(** ** Listing the versions *)

Lemma mapM_lift_run (f : value → result value) (xs ys : list value) (st : state) :
  Forall2 (λ x y, f x = Ok y) xs ys →
  mapM (λ x, lift (f x)) xs st = (Ok ys, st).
Proof.
  induction 1 as [|x y xs ys Hxy _ IH]; [done|].
  cbn [mapM]. rewrite bind_run, lift_run, Hxy.
  erewrite bind_ok; [|exact IH]. reflexivity.
Qed.

Lemma iterate_run (v : value) (xs : list value) (st : state) :
  as_list (heap st) v = Some xs → iterate v st = (Ok xs, st).
Proof.
  destruct v as [| | | |l]; try done. cbn.
  destruct (heap st !! l) as [[d|ys]|]; try done. by intros [= ->].
Qed.

(** What [list_elasticsearch_versions] returns: the versions of the answer,
    each translated, and under [NextToken] what the answer holds under the
    key that is the [next_token] of the request. *)
Lemma list_elasticsearch_versions_run (E : Env) (context : RequestContext)
    (max_results next_token : value) (st : state) (c : client)
    (response vl : value) (h : gmap loc obj) (resp : gmap string value)
    (xs ys : list value) (o : option value) :
  connect_to_service E "opensearch" (region context) = Ok c →
  invoke c "list_versions"
    (drop_none (list_to_map [("MaxResults", max_results); ("NextToken", next_token)]))
    (heap st) = (Ok response, h) →
  as_dict h response = Some resp →
  resp !! "Versions" = Some vl →
  as_list h vl = Some xs →
  Forall2 (λ x y, _version_from_opensearch x = Ok y) xs ys →
  lookup_key resp next_token = Ok o →
  ∃ lv r st',
    list_elasticsearch_versions E context max_results next_token st
    = (Ok (VRef r), st') ∧
    heap st' !! r
    = Some (ODict (<["ElasticsearchVersions" := VRef lv]>
                     (<["NextToken" := default VNone o]> ∅))) ∧
    heap st' !! lv = Some (OList ys).
Proof.
  intros Hc Hcall Hresp Hvl Hxs Hys Ho.
  unfold list_elasticsearch_versions. rewrite Hc.
  erewrite bind_ok; [|apply lift_run].
  erewrite bind_ok; [|by apply call_client_run].
  erewrite bind_ok; [|by eapply subscript_run].
  erewrite bind_ok; [|by apply iterate_run].
  erewrite bind_ok; [|by apply mapM_lift_run].
  set (st1 := {| heap := h; calls := _; events := _ |}).
  destruct (alloc_fresh (OList ys) st1) as (lv & Hlv & Hlv_new).
  erewrite bind_ok; [|exact Hlv].
  set (st2 := set_heap _ st1).
  assert (as_dict (heap st2) response = Some resp) as Hresp2.
  { destruct (as_dict_inv _ _ _ Hresp) as (l & -> & Hl).
    apply as_dict_ref. cbn. rewrite lookup_insert_ne; [done|].
    intros ->. cbn in Hlv_new. congruence. }
  assert (dict_get response next_token st2 = (Ok (default VNone o), st2)) as Hget.
  { unfold dict_get. by rewrite Hresp2, Ho. }
  erewrite bind_ok; [|exact Hget].
  destruct (alloc_fresh (ODict (<["ElasticsearchVersions" := VRef lv]>
                                  (<["NextToken" := default VNone o]> ∅))) st2)
    as (r & Hr & Hr_new).
  rewrite Hr. eexists lv, r, _. split; [done|]. cbn [heap set_heap].
  split; [apply lookup_insert_eq|].
  rewrite lookup_insert_ne; [apply lookup_insert_eq|].
  intros ->. cbn in Hr_new. by rewrite lookup_insert_eq in Hr_new.
Qed.

(** C7: the client answers [list_versions] with two versions and the token
    "page2" for the next page. The versions come back translated; the
    [NextToken] that is returned is [None], with or without a [next_token] in
    the request, because the answer is looked up under the value of
    [next_token] and not under "NextToken". *)
Theorem list_versions_loses_next_token :
  let answer := call_client Sample.backend "us-east-1" "list_versions" ∅ Sample.start in
  let first := list_elasticsearch_versions Sample.env Sample.context
                 VNone VNone Sample.start in
  let second := list_elasticsearch_versions Sample.env Sample.context
                  VNone (VStr "page1") Sample.start in
  response_field answer "NextToken" = Some (VStr "page2") ∧
  response_field first "NextToken" = Some VNone ∧
  response_list first (response_field first "ElasticsearchVersions")
  = Some [VStr "7.10"; VStr "OpenSearch_1.0"] ∧
  response_field second "NextToken" = Some VNone.
Proof. repeat split; by vm_compute. Qed.


(** * Further properties *)

(** ** Versions in both directions *)

Section VersionDialects.
Import PyStr PyStrFacts.

Lemma string_app_nil_r (s : string) : s +:+ "" = s.
Proof. induction s as [|c s IH]; [done|]. by rewrite app_cons, IH. Qed.

Lemma string_app_assoc (s1 s2 s3 : string) : (s1 +:+ s2) +:+ s3 = s1 +:+ s2 +:+ s3.
Proof. induction s1 as [|c s1 IH]; [done|]. by rewrite !app_cons, IH. Qed.

Lemma startswith_contains (c : ascii) (p q s : string) :
  startswith (p +:+ String c q) s = true → contains_char c s = true.
Proof.
  intros H. apply startswith_spec in H as [r ->]. rewrite string_app_assoc, app_cons.
  induction p as [|a p IH]; rewrite ?app_cons, ?app_nil_l; cbn.
  - by rewrite Ascii.eqb_refl.
  - by destruct (Ascii.eqb a c).
Qed.

Lemma opensearch_not_elasticsearch (s : string) :
  startswith "OpenSearch_" s = true → startswith "Elasticsearch_" s = false.
Proof.
  destruct s as [|a s]; [done|]. cbn [startswith].
  destruct (Ascii.eqb "O" a) eqn:H; [|done].
  apply Ascii.eqb_eq in H as <-. done.
Qed.

(** X1: for a version that does not start with "OpenSearch_", translating to
    the current dialect and back gives the version again exactly when the
    version contains no underscore. *)
Theorem version_roundtrip_exactly_without_underscore (v : string) :
  startswith "OpenSearch_" v = false →
  _version_to_opensearch (VStr v) ≫= _version_from_opensearch = Ok (VStr v)
  ↔ contains_char "_" v = false.
Proof. apply version_roundtrip_iff. Qed.

Lemma version_roundtrip_exactly_without_underscore_witness :
  _version_to_opensearch (VStr "7.10") ≫= _version_from_opensearch = Ok (VStr "7.10")
  ↔ contains_char "_" "7.10" = false.
Proof.
  apply (version_roundtrip_exactly_without_underscore "7.10"). reflexivity.
Defined.

(** X2: the current-direction translator always returns a string that
    starts with "OpenSearch_" or "Elasticsearch_". An OpenSearch version is
    left as it is by both translators, and an Elasticsearch engine version
    whose remainder has no underscore comes back from the legacy dialect
    unchanged. *)
Theorem version_current_dialect :
  (∀ s, ∃ t, _version_to_opensearch (VStr s) = Ok (VStr t) ∧
             (startswith "OpenSearch_" t || startswith "Elasticsearch_" t) = true) ∧
  (∀ s, startswith "OpenSearch_" s = true →
        _version_to_opensearch (VStr s) = Ok (VStr s) ∧
        _version_from_opensearch (VStr s) = Ok (VStr s)) ∧
  (∀ r, contains_char "_" r = false →
        _version_from_opensearch (VStr ("Elasticsearch_" +:+ r)) ≫= _version_to_opensearch
        = Ok (VStr ("Elasticsearch_" +:+ r))).
Proof.
  split; [|split].
  - intros s. unfold _version_to_opensearch.
    destruct (startswith "OpenSearch_" s) eqn:H.
    + exists s. by rewrite H.
    + eexists. split; [done|]. by rewrite startswith_app, orb_true_r.
  - intros s H. unfold _version_to_opensearch, _version_from_opensearch.
    by rewrite H, (opensearch_not_elasticsearch s H).
  - intros r Hr. rewrite version_from_elasticsearch_plain by done.
    change (_version_to_opensearch (VStr r) = Ok (VStr ("Elasticsearch_" +:+ r))).
    unfold _version_to_opensearch.
    destruct (startswith "OpenSearch_" r) eqn:H; [|done].
    apply (startswith_contains "_" "OpenSearch" "") in H. congruence.
Qed.

Lemma version_current_dialect_witness :
  (_version_to_opensearch (VStr "OpenSearch_1.0") = Ok (VStr "OpenSearch_1.0") ∧
   _version_from_opensearch (VStr "OpenSearch_1.0") = Ok (VStr "OpenSearch_1.0")) ∧
  _version_from_opensearch (VStr ("Elasticsearch_" +:+ "7.10")) ≫= _version_to_opensearch
  = Ok (VStr ("Elasticsearch_" +:+ "7.10")).
Proof.
  destruct version_current_dialect as (_ & H1 & H2). split.
  - apply H1. reflexivity.
  - apply H2. reflexivity.
Defined.

End VersionDialects.

(** ** Instance types in both directions *)

Section InstanceTypeRoundTrip.
Import PyStr PyStrFacts PyStrMore.

Lemma occursb_spec (old s : string) : occursb old s = true ↔ occurs old s.
Proof.
  induction s as [|c s IH]; cbn [occursb].
  - rewrite orb_false_r, startswith_spec. split.
    + intros [r Hr]. by exists "", r.
    + intros ([|a pre] & post & H); [by exists post|done].
  - rewrite orb_true_iff, IH, startswith_spec. split.
    + intros [[r Hr]|(pre & post & ->)]; [by exists "", r|].
      by exists (String c pre), post.
    + intros ([|a pre] & post & H); [left; by exists post|right].
      rewrite app_cons in H. injection H as _ ->. by exists pre, post.
Qed.

(** If two concatenations are equal, one of the first parts is a prefix of
    the other. *)
Lemma app_eq_app (a b c d : string) :
  a +:+ b = c +:+ d →
  (∃ q, a = c +:+ q ∧ d = q +:+ b) ∨ (∃ q, c = a +:+ q ∧ b = q +:+ d).
Proof.
  revert c. induction a as [|x a IH]; intros c H.
  - right. by exists c.
  - destruct c as [|y c].
    + left. by exists (String x a).
    + rewrite !app_cons in H. injection H as -> H.
      destruct (IH c H) as [(q & -> & ->)|(q & -> & ->)]; [left|right]; by exists q.
Qed.

Lemma suffixes_elem (y u : string) :
  u ≠ "" → u ∈ suffixes (y +:+ u).
Proof.
  intros Hu. induction y as [|c y IH].
  - destruct u; [done|]. cbn. left.
  - rewrite app_cons. cbn. by right.
Qed.

(** A word without border does not overlap with itself. *)
Lemma borderless_no_border (w q u x : string) :
  borderless w = true → q ≠ "" → u ≠ "" → w = q +:+ u → w = u +:+ x → False.
Proof.
  intros Hw Hq Hu Hqu Hux. destruct q as [|c q]; [done|].
  rewrite app_cons in Hqu. unfold borderless in Hw. rewrite Hqu in Hw at 1.
  rewrite forallb_forall in Hw.
  specialize (Hw u). rewrite negb_true_iff in Hw.
  assert (startswith u w = true) as Hsw by (apply startswith_spec; by exists x).
  rewrite Hw in Hsw; [done|].
  apply list_elem_of_In. by apply suffixes_elem.
Qed.

(** After a prefix in which a borderless [old] does not occur, the first
    occurrence of [old] in [p + old + rest] is the one written. *)
Lemma leftmost_after_prefix (old p rest pre' post' : string) :
  borderless old = true → old ≠ "" → occursb old p = false →
  p +:+ old +:+ rest = pre' +:+ old +:+ post' →
  String.length p ≤ String.length pre'.
Proof.
  intros Hb Hne Hp H.
  destruct (app_eq_app _ _ _ _ H) as [(q & -> & Hq)|(q & -> & _)];
    [|rewrite app_length; lia].
  destruct q as [|c q]; [rewrite app_length; cbn; lia|]. exfalso.
  destruct (app_eq_app _ _ _ _ Hq) as [(u & Hu & Hrest)|(z & Hz & _)].
  - (* the occurrence at [pre'] ends inside the written one *)
    destruct u as [|d u].
    { rewrite string_app_nil_r in Hu. apply not_true_iff_false in Hp. apply Hp.
      apply occursb_spec. exists pre', "". by rewrite Hu, string_app_nil_r. }
    symmetry in Hrest.
    destruct (app_eq_app _ _ _ _ Hrest) as [(x & Hx & _)|(x & Hx & _)].
    + apply (f_equal String.length) in Hu, Hx. rewrite !app_length in Hu, Hx.
      cbn in Hu, Hx. lia.
    + by eapply (borderless_no_border old (String c q) (String d u) x).
  - (* it lies within [p] *)
    apply not_true_iff_false in Hp. apply Hp. apply occursb_spec.
    exists pre', z. by rewrite Hz.
Qed.

Lemma replace_after_prefix (old new p rest : string) :
  borderless old = true → old ≠ "" → occursb old p = false →
  replace_go old new 0 (p +:+ old +:+ rest)
  = p +:+ new +:+ replace_go old new 0 rest.
Proof.
  intros Hb Hne Hp.
  eapply replaced_all_functional; [by apply replace_go_replaced_all|].
  apply replaced_leftmost; [|by apply replace_go_replaced_all].
  intros pre' post' H. by eapply leftmost_after_prefix.
Qed.

Lemma occursb_app_r (a b s : string) :
  occursb b s = false → occursb (a +:+ b) s = false.
Proof.
  intros H. apply not_true_iff_false. intros Hab.
  apply not_true_iff_false in H. apply H.
  apply occursb_spec. apply occursb_spec in Hab as (pre & post & ->).
  exists (pre +:+ a), post. by rewrite !string_app_assoc.
Qed.

Lemma instancetype_roundtrip_parts (p : string) :
  occursb "search" p = false →
  _instancetype_to_opensearch (VStr (p +:+ "elasticsearch")) = Ok (VStr (p +:+ "search")) ∧
  _instancetype_from_opensearch (VStr (p +:+ "search")) = Ok (VStr (p +:+ "elasticsearch")).
Proof.
  intros Hp. split.
  - pose proof (replace_after_prefix "elasticsearch" "search" p "" eq_refl
                  ltac:(done) (occursb_app_r "elastic" "search" p Hp)) as H.
    rewrite !string_app_nil_r in H. unfold _instancetype_to_opensearch.
    change (replace "elasticsearch" "search" (p +:+ "elasticsearch"))
      with (replace_go "elasticsearch" "search" 0 (p +:+ "elasticsearch")).
    by rewrite H.
  - pose proof (replace_after_prefix "search" "elasticsearch" p "" eq_refl
                  ltac:(done) Hp) as H.
    rewrite !string_app_nil_r in H. unfold _instancetype_from_opensearch.
    change (replace "search" "elasticsearch" (p +:+ "search"))
      with (replace_go "search" "elasticsearch" 0 (p +:+ "search")).
    by rewrite H.
Qed.

(** X3: for an instance type [p + "elasticsearch"] where "search" does not
    occur in [p], the current-direction translator returns [p + "search"],
    the legacy-direction translator returns the original from that, and so
    the two undo each other in both orders. *)
Theorem instancetype_roundtrip (p : string) :
  occursb "search" p = false →
  _instancetype_to_opensearch (VStr (p +:+ "elasticsearch")) = Ok (VStr (p +:+ "search")) ∧
  _instancetype_from_opensearch (VStr (p +:+ "search")) = Ok (VStr (p +:+ "elasticsearch")) ∧
  _instancetype_to_opensearch (VStr (p +:+ "elasticsearch")) ≫= _instancetype_from_opensearch
  = Ok (VStr (p +:+ "elasticsearch")) ∧
  _instancetype_from_opensearch (VStr (p +:+ "search")) ≫= _instancetype_to_opensearch
  = Ok (VStr (p +:+ "search")).
Proof.
  intros Hp. destruct (instancetype_roundtrip_parts p Hp) as [Hto Hfrom].
  split; [done|]. split; [done|]. split.
  - by rewrite Hto.
  - by rewrite Hfrom.
Qed.

Lemma instancetype_roundtrip_witness :
  _instancetype_to_opensearch (VStr ("t3.small." +:+ "elasticsearch"))
  = Ok (VStr ("t3.small." +:+ "search")) ∧
  _instancetype_from_opensearch (VStr ("t3.small." +:+ "search"))
  = Ok (VStr ("t3.small." +:+ "elasticsearch")) ∧
  _instancetype_to_opensearch (VStr ("t3.small." +:+ "elasticsearch"))
    ≫= _instancetype_from_opensearch
  = Ok (VStr ("t3.small." +:+ "elasticsearch")) ∧
  _instancetype_from_opensearch (VStr ("t3.small." +:+ "search"))
    ≫= _instancetype_to_opensearch
  = Ok (VStr ("t3.small." +:+ "search")).
Proof. apply (instancetype_roundtrip "t3.small."). reflexivity. Defined.

End InstanceTypeRoundTrip.

(** ** The structured translators, field by field *)

Lemma translated_cluster_config_lookup (it dm wt : value)
    (d : gmap string value) (k : string) :
  translated_cluster_config it dm wt d !! k
  = if decide (k = "WarmType") then Some wt
    else if decide (k = "DedicatedMasterType") then Some dm
    else if decide (k = "InstanceType") then Some it
    else d !! k.
Proof.
  unfold translated_cluster_config.
  repeat case_decide; subst; simplify_map_eq; done.
Qed.

(** What the translation of a well-shaped cluster config leaves behind. *)
Lemma translate_cluster_config_parts (f : value → result value) (st : state)
    (l : loc) (d : gmap string value) :
  (∀ o, is_opt_str o = true → ∃ w, f (default VNone o) = Ok w) →
  heap st !! l = Some (ODict d) →
  cluster_config_ok (heap st) (VRef l) = true →
  ∃ st' d',
    translate_cluster_config f (VRef l) st = (Ok (VRef l), st') ∧
    st' = set_heap (<[l := ODict d']> (heap st)) st ∧
    (∀ k, instance_type_field k →
          ∃ y, f (default VNone (d !! k)) = Ok y ∧ d' !! k = Some y) ∧
    (∀ k, ¬ instance_type_field k → d' !! k = d !! k).
Proof.
  intros Hf Hl Hok. unfold cluster_config_ok in Hok.
  rewrite (proj2 (as_dict_ref _ _ _) Hl) in Hok.
  apply andb_true_iff in Hok as [Hok Hwt].
  apply andb_true_iff in Hok as [Hit Hdm].
  destruct (Hf _ Hit) as [it Hit'], (Hf _ Hdm) as [dm Hdm'],
    (Hf _ Hwt) as [wt Hwt'].
  eexists _, _. split; [by eapply translate_cluster_config_run|].
  split; [reflexivity|]. split.
  - intros k [->|[->| ->]]; eexists; (split; [eassumption|]);
      rewrite translated_cluster_config_lookup; by repeat case_decide.
  - intros k Hk. rewrite translated_cluster_config_lookup.
    repeat case_decide; subst; try done; destruct Hk;
      unfold instance_type_field; auto.
Qed.

(** X4: on a cluster config whose instance types are strings when set, each
    of the two translators returns the dict it was given; afterwards each of
    the three instance-type fields holds the translation of what it held
    (of [None] if it was missing), every other field is as it was, and no
    other object has changed. *)
Theorem clusterconfig_translation_spec (st : state) (l : loc)
    (d : gmap string value) :
  heap st !! l = Some (ODict d) →
  cluster_config_ok (heap st) (VRef l) = true →
  (∃ st' d',
     _clusterconfig_from_opensearch (VRef l) st = (Ok (VRef l), st') ∧
     heap st' !! l = Some (ODict d') ∧
     (∀ k, instance_type_field k →
           ∃ y, _instancetype_from_opensearch (default VNone (d !! k)) = Ok y ∧
                d' !! k = Some y) ∧
     (∀ k, ¬ instance_type_field k → d' !! k = d !! k) ∧
     (∀ l', l' ≠ l → heap st' !! l' = heap st !! l')) ∧
  (∃ st' d',
     _clusterconfig_to_opensearch (VRef l) st = (Ok (VRef l), st') ∧
     heap st' !! l = Some (ODict d') ∧
     (∀ k, instance_type_field k →
           ∃ y, _instancetype_to_opensearch (default VNone (d !! k)) = Ok y ∧
                d' !! k = Some y) ∧
     (∀ k, ¬ instance_type_field k → d' !! k = d !! k) ∧
     (∀ l', l' ≠ l → heap st' !! l' = heap st !! l')).
Proof.
  intros Hl Hok. split.
  - destruct (translate_cluster_config_parts _instancetype_from_opensearch st l d
                instancetype_from_opt_str Hl Hok) as (st' & d' & Hrun & -> & H1 & H2).
    eexists. exists d'. split; [exact Hrun|]. cbn [heap set_heap].
    split; [apply lookup_insert_eq|]. split; [done|]. split; [done|].
    intros l' Hl'. by rewrite lookup_insert_ne.
  - destruct (translate_cluster_config_parts _instancetype_to_opensearch st l d
                instancetype_to_opt_str Hl Hok) as (st' & d' & Hrun & -> & H1 & H2).
    eexists. exists d'. split; [exact Hrun|]. cbn [heap set_heap].
    split; [apply lookup_insert_eq|]. split; [done|]. split; [done|].
    intros l' Hl'. by rewrite lookup_insert_ne.
Qed.

Lemma clusterconfig_translation_spec_witness :
  ∃ st' d',
    _clusterconfig_from_opensearch (VRef 1) Sample.start = (Ok (VRef 1), st') ∧
    heap st' !! 1%positive = Some (ODict d') ∧
    d' !! "InstanceCount" = Some (VInt 1) ∧
    heap st' !! 3%positive = heap Sample.start !! 3%positive.
Proof.
  destruct (clusterconfig_translation_spec Sample.start 1%positive
              (<["InstanceType" := VStr "m5.large.search"]>
                 (<["InstanceCount" := VInt 1]> ∅)))
    as [(st' & d' & Hrun & Hd' & _ & Hother & Hframe) _].
  - reflexivity.
  - reflexivity.
  - exists st', d'. split; [exact Hrun|]. split; [exact Hd'|]. split.
    + rewrite Hother; [reflexivity|]. intros [?|[?|?]]; discriminate.
    + apply Hframe. discriminate.
Defined.

(** The fields of a status or config that the translation may change. *)
Lemma domainstatus_from_opensearch_keeps_fields (v : value) :
  respects
    (keeps_fields (λ k, k = "ElasticsearchVersion" ∨ k = "ElasticsearchClusterConfig" ∨
                        k = "EngineVersion" ∨ k = "ClusterConfig" ∨
                        instance_type_field k))
    (_domainstatus_from_opensearch v).
Proof.
  unfold _domainstatus_from_opensearch, cast. destruct v; [apply respects_ret|..].
  all: repeat (apply respects_bind; [|intros ?]);
    first [ apply respects_dict_get | apply respects_lift | apply respects_ret
          | eapply respects_mono; [|apply dict_set_keeps_fields];
            intros ??; apply keeps_fields_mono; intros ? ->; auto
          | eapply respects_mono; [|apply dict_pop_keeps_fields];
            intros ??; apply keeps_fields_mono; intros ? ->; auto
          | eapply respects_mono;
            [|apply (translate_cluster_config_keeps_fields _instancetype_from_opensearch)];
            intros ??; apply keeps_fields_mono; intros ??; auto ].
Qed.

(** What the translation of a well-shaped status leaves behind. *)
Lemma domainstatus_translation_parts (st : state) (l : loc)
    (d : gmap string value) :
  heap st !! l = Some (ODict d) →
  domain_status_ok (heap st) (VRef l) = true →
  ∃ st' d' ev,
    _domainstatus_from_opensearch (VRef l) st = (Ok (VRef l), st') ∧
    heap st' !! l = Some (ODict d') ∧
    _version_from_opensearch (default VNone (d !! "EngineVersion")) = Ok ev ∧
    d' !! "ElasticsearchVersion" = Some ev ∧
    d' !! "ElasticsearchClusterConfig" = Some (default VNone (d !! "ClusterConfig")) ∧
    d' !! "EngineVersion" = None ∧
    d' !! "ClusterConfig" = None ∧
    (∀ k, k ≠ "ElasticsearchVersion" → k ≠ "ElasticsearchClusterConfig" →
          k ≠ "EngineVersion" → k ≠ "ClusterConfig" → ¬ instance_type_field k →
          d' !! k = d !! k) ∧
    (∀ l', is_Some (heap st !! l') → is_Some (heap st' !! l')).
Proof.
  intros Hl Hok.
  destruct (domainstatus_from_opensearch_run st l d Hl Hok)
    as (st' & d' & ev & Hrun & _ & _ & Hd' & Hev & Hesv & Hecc & Hgone & Hgone').
  exists st', d', ev. repeat (split; [done|]). split.
  - intros k H1 H2 H3 H4 H5.
    pose proof (domainstatus_from_opensearch_keeps_fields (VRef l) st l) as [_ Hkeep].
    rewrite Hrun in Hkeep. cbn [snd] in Hkeep.
    specialize (Hkeep k). unfold field in Hkeep.
    rewrite (proj2 (as_dict_ref _ _ _) Hl), (proj2 (as_dict_ref _ _ _) Hd') in Hkeep.
    apply Hkeep; [|by eexists]. intros [?|[?|[?|[?|?]]]]; done.
  - intros l' [o Ho].
    pose proof (domainstatus_from_opensearch_unchanged_outside (VRef l) st)
      as (_ & _ & Hframe).
    rewrite Hrun in Hframe. cbn [snd] in Hframe.
    destruct o as [d0|xs].
    + pose proof (domainstatus_from_opensearch_keeps_fields (VRef l) st l') as [Hdict _].
      rewrite Hrun in Hdict. cbn [snd] in Hdict.
      destruct Hdict as [d1 Hd1]; [by rewrite (proj2 (as_dict_ref _ _ _) Ho)|].
      apply as_dict_ref in Hd1. by eexists.
    + rewrite Hframe; [by eexists|].
      intros [[= ->]|(d0 & Hd0 & Hcc)]; [congruence|].
      apply as_dict_ref in Hd0. rewrite Hl in Hd0. injection Hd0 as <-.
      unfold domain_status_ok in Hok. rewrite (proj2 (as_dict_ref _ _ _) Hl) in Hok.
      apply andb_true_iff in Hok as [_ Hok]. rewrite Hcc in Hok. cbn in Hok.
      by rewrite Ho in Hok.
Qed.

(** X5: on a domain status (or domain config) of the right shape, the
    translator returns the dict it was given; afterwards
    [ElasticsearchVersion] holds the translated [EngineVersion],
    [ElasticsearchClusterConfig] holds what [ClusterConfig] held,
    [EngineVersion] and [ClusterConfig] are gone, and the fields that are
    none of these nor instance types are as they were. *)
Theorem domainstatus_translation_spec (st : state) (l : loc)
    (d : gmap string value) :
  heap st !! l = Some (ODict d) →
  domain_status_ok (heap st) (VRef l) = true →
  ∃ st' d' ev,
    _domainstatus_from_opensearch (VRef l) st = (Ok (VRef l), st') ∧
    _domainconfig_from_opensearch (VRef l) st = (Ok (VRef l), st') ∧
    heap st' !! l = Some (ODict d') ∧
    _version_from_opensearch (default VNone (d !! "EngineVersion")) = Ok ev ∧
    d' !! "ElasticsearchVersion" = Some ev ∧
    d' !! "ElasticsearchClusterConfig" = Some (default VNone (d !! "ClusterConfig")) ∧
    d' !! "EngineVersion" = None ∧
    d' !! "ClusterConfig" = None ∧
    (∀ k, k ≠ "ElasticsearchVersion" → k ≠ "ElasticsearchClusterConfig" →
          k ≠ "EngineVersion" → k ≠ "ClusterConfig" → ¬ instance_type_field k →
          d' !! k = d !! k).
Proof.
  intros Hl Hok.
  destruct (domainstatus_translation_parts st l d Hl Hok)
    as (st' & d' & ev & H1 & H2 & H3 & H4 & H5 & H6 & H7 & H8 & _).
  exists st', d', ev. repeat (split; [done|]). done.
Qed.

Lemma domainstatus_translation_spec_witness :
  ∃ st' d' ev,
    _domainstatus_from_opensearch (VRef 2) Sample.start = (Ok (VRef 2), st') ∧
    _domainconfig_from_opensearch (VRef 2) Sample.start = (Ok (VRef 2), st') ∧
    heap st' !! 2%positive = Some (ODict d') ∧
    _version_from_opensearch (default VNone
      ((<["DomainName" := VStr "logs"]> ∅ : gmap string value) !! "EngineVersion")) = Ok ev ∧
    d' !! "ElasticsearchVersion" = Some ev ∧
    d' !! "DomainName" = Some (VStr "logs").
Proof.
  destruct (domainstatus_translation_spec Sample.start 2%positive
              (<["DomainName" := VStr "logs"]> ∅))
    as (st' & d' & ev & H1 & H2 & H3 & H4 & H5 & _ & _ & _ & H9).
  - reflexivity.
  - reflexivity.
  - exists st', d', ev. repeat (split; [assumption|]).
    rewrite H9; [reflexivity|discriminate..|]. intros [?|[?|?]]; discriminate.
Defined.

(** X6: the translation of a domain status is not idempotent. On a status
    of the right shape the first run binds [ElasticsearchVersion] to the
    translated version and [ElasticsearchClusterConfig] to the cluster
    config. A second run on the same dict succeeds again and binds both to
    [None], since the first run removed the fields they are computed from.
    So whenever the status had a version or a cluster config, the second run
    loses it: the dict after two runs is not the dict after one. *)
Theorem domainstatus_translated_twice (st : state) (l : loc)
    (d : gmap string value) :
  heap st !! l = Some (ODict d) →
  domain_status_ok (heap st) (VRef l) = true →
  ∃ st1 st2 ev,
    _domainstatus_from_opensearch (VRef l) st = (Ok (VRef l), st1) ∧
    _domainstatus_from_opensearch (VRef l) st1 = (Ok (VRef l), st2) ∧
    (_ ← _domainstatus_from_opensearch (VRef l);
     _domainstatus_from_opensearch (VRef l)) st = (Ok (VRef l), st2) ∧
    _version_from_opensearch (default VNone (d !! "EngineVersion")) = Ok ev ∧
    field (heap st1) l "ElasticsearchVersion" = Some ev ∧
    field (heap st1) l "ElasticsearchClusterConfig"
    = Some (default VNone (d !! "ClusterConfig")) ∧
    field (heap st2) l "ElasticsearchVersion" = Some VNone ∧
    field (heap st2) l "ElasticsearchClusterConfig" = Some VNone ∧
    (∀ s, d !! "EngineVersion" = Some (VStr s) →
          (∃ t, ev = VStr t) ∧ heap st2 !! l ≠ heap st1 !! l) ∧
    (¬ absent (d !! "ClusterConfig") → heap st2 !! l ≠ heap st1 !! l).
Proof.
  intros Hl Hok.
  destruct (domainstatus_from_opensearch_run st l d Hl Hok)
    as (st1 & d1 & ev & Hrun1 & _ & _ & Hd1 & Hev & Hesv1 & Hecc1 & Hev1 & Hcc1).
  assert (domain_status_ok (heap st1) (VRef l) = true) as Hok1.
  { unfold domain_status_ok.
    by rewrite (proj2 (as_dict_ref _ _ _) Hd1), Hev1, Hcc1. }
  destruct (domainstatus_from_opensearch_run st1 l d1 Hd1 Hok1)
    as (st2 & d2 & ev2 & Hrun2 & _ & _ & Hd2 & Hev2 & Hesv2 & Hecc2 & _).
  rewrite Hev1 in Hev2. injection Hev2 as <-. rewrite Hcc1 in Hecc2.
  exists st1, st2, ev.
  split; [exact Hrun1|]. split; [exact Hrun2|].
  split; [erewrite bind_ok; [exact Hrun2|exact Hrun1]|].
  split; [exact Hev|].
  unfold field.
  rewrite (proj2 (as_dict_ref _ _ _) Hd1), (proj2 (as_dict_ref _ _ _) Hd2). cbn.
  split; [exact Hesv1|]. split; [exact Hecc1|].
  split; [exact Hesv2|]. split; [exact Hecc2|]. split.
  - intros s Hs. rewrite Hs in Hev.
    change (_version_from_opensearch (VStr s) = Ok ev) in Hev.
    destruct (version_from_opensearch_total s) as [t Ht].
    assert (ev = VStr t) as -> by congruence.
    split; [by exists t|].
    rewrite Hd1, Hd2. intros [= Heq]. rewrite Heq in Hesv2. congruence.
  - intros Hset. rewrite Hd1, Hd2. intros [= Heq]. rewrite Heq in Hecc2.
    rewrite Hecc2 in Hecc1. apply Hset. unfold absent.
    destruct (d !! "ClusterConfig") as [cc|]; [right|by left].
    f_equal. injection Hecc1 as Hcc. symmetry. exact Hcc.
Qed.

Lemma domainstatus_translated_twice_witness :
  ∃ st1 st2,
    _domainstatus_from_opensearch (VRef 10) MoreSamples.start = (Ok (VRef 10), st1) ∧
    (_ ← _domainstatus_from_opensearch (VRef 10);
     _domainstatus_from_opensearch (VRef 10)) MoreSamples.start = (Ok (VRef 10), st2) ∧
    field (heap st1) 10 "ElasticsearchVersion" = Some (VStr "7.10") ∧
    field (heap st1) 10 "ElasticsearchClusterConfig" = Some (VRef 9) ∧
    field (heap st2) 10 "ElasticsearchVersion" = Some VNone ∧
    field (heap st2) 10 "ElasticsearchClusterConfig" = Some VNone ∧
    heap st2 !! 10%positive ≠ heap st1 !! 10%positive.
Proof.
  destruct (domainstatus_translated_twice MoreSamples.start 10%positive
              (<["EngineVersion" := VStr "Elasticsearch_7.10"]>
                 (<["ClusterConfig" := VRef 9]> ∅)))
    as (st1 & st2 & ev & H1 & _ & H2 & Hev & H3 & H4 & H5 & H6 & _ & H7);
    [reflexivity|reflexivity|].
  exists st1, st2. split; [exact H1|]. split; [exact H2|].
  injection Hev as <-.
  split; [exact H3|]. split; [exact H4|]. split; [exact H5|]. split; [exact H6|].
  apply H7. intros [?|?]; discriminate.
Defined.

Lemma domainstatus_bad_version (st : state) (l : loc) (d : gmap string value) :
  heap st !! l = Some (ODict d) →
  is_opt_str (d !! "EngineVersion") = false →
  _domainstatus_from_opensearch (VRef l) st = (Raise AttributeError, st).
Proof.
  intros Hl Hev. unfold _domainstatus_from_opensearch, cast.
  erewrite bind_ok; [|by apply dict_get_run, as_dict_ref].
  destruct (d !! "EngineVersion") as [[]|]; done.
Qed.

Lemma domainstatus_bad_cluster_config (st : state) (l : loc)
    (d : gmap string value) (cc : value) :
  heap st !! l = Some (ODict d) →
  is_opt_str (d !! "EngineVersion") = true →
  d !! "ClusterConfig" = Some cc → cc ≠ VNone →
  as_dict (heap st) cc = None →
  ∃ ev, _version_from_opensearch (default VNone (d !! "EngineVersion")) = Ok ev ∧
        _domainstatus_from_opensearch (VRef l) st
        = (Raise AttributeError,
           set_heap (<[l := ODict (<["ElasticsearchVersion" := ev]> d)]> (heap st)) st).
Proof.
  intros Hl Hev Hcc Hne Hnot.
  destruct (version_from_opt_str _ Hev) as [ev Hev'].
  exists ev. split; [done|].
  unfold _domainstatus_from_opensearch, cast.
  erewrite bind_ok; [|by apply dict_get_run, as_dict_ref].
  rewrite Hev'. erewrite bind_ok; [|apply lift_run].
  erewrite bind_ok; [|by apply dict_set_run].
  erewrite bind_ok;
    [|apply dict_get_run, as_dict_ref; cbn [heap set_heap]; apply lookup_insert_eq].
  rewrite lookup_insert_ne, Hcc by done. cbn [default].
  set (st1 := set_heap _ st).
  assert (as_dict (heap st1) cc = None) as Hnot'.
  { destruct cc as [| | | |c]; try done. unfold st1. cbn [heap set_heap].
    rewrite as_dict_insert.
    case_decide as Hc; [|done]. subst c. cbn in Hnot. by rewrite Hl in Hnot. }
  assert (_clusterconfig_from_opensearch cc st1 = (Raise AttributeError, st1)) as Hcc'.
  { unfold _clusterconfig_from_opensearch, cast.
    destruct cc; [done|..]; rewrite bind_run; unfold dict_get; by rewrite Hnot'. }
  by erewrite bind_raise.
Qed.

(** X7: a domain status or config whose [EngineVersion] is set to anything
    but a string makes the translator raise [AttributeError] before it has
    changed anything; one whose version is fine but whose [ClusterConfig] is
    set to something that is not a dict makes it raise [AttributeError]
    after [ElasticsearchVersion] has been written into the dict, which still
    has its [EngineVersion]. *)
Theorem domainstatus_translation_failures (st : state) (l : loc)
    (d : gmap string value) :
  heap st !! l = Some (ODict d) →
  (is_opt_str (d !! "EngineVersion") = false →
   _domainstatus_from_opensearch (VRef l) st = (Raise AttributeError, st) ∧
   _domainconfig_from_opensearch (VRef l) st = (Raise AttributeError, st)) ∧
  (∀ cc, is_opt_str (d !! "EngineVersion") = true →
         d !! "ClusterConfig" = Some cc → cc ≠ VNone →
         as_dict (heap st) cc = None →
         ∃ ev, _version_from_opensearch (default VNone (d !! "EngineVersion")) = Ok ev ∧
               _domainstatus_from_opensearch (VRef l) st
               = (Raise AttributeError,
                  set_heap (<[l := ODict (<["ElasticsearchVersion" := ev]> d)]> (heap st)) st)).
Proof.
  intros Hl. split.
  - intros Hev. split; by apply (domainstatus_bad_version st l d).
  - intros cc. by apply domainstatus_bad_cluster_config.
Qed.


(** ** The compatible-versions list *)

Lemma as_dict_mono (h h' : gmap loc obj) (v : value) (d : gmap string value) :
  h ⊆ h' → as_dict h v = Some d → as_dict h' v = Some d.
Proof.
  intros Hsub H. destruct (as_dict_inv _ _ _ H) as (l & -> & Hl).
  apply as_dict_ref. by eapply lookup_weaken.
Qed.

Lemma as_list_mono (h h' : gmap loc obj) (v : value) (xs : list value) :
  h ⊆ h' → as_list h v = Some xs → as_list h' v = Some xs.
Proof.
  intros Hsub H. destruct v as [| | | |l]; try done. cbn in *.
  destruct (h !! l) as [[|ys]|] eqn:Hl; try done.
  by rewrite (lookup_weaken _ _ _ _ Hl Hsub).
Qed.

Lemma version_map_at_mono (h h' : gmap loc obj) (v sv : value) (tvs : list value) :
  h ⊆ h' → version_map_at h v sv tvs → version_map_at h' v sv tvs.
Proof.
  intros Hsub (d & t & Hd & Hsv & Htv & Ht). exists d, t.
  split; [by eapply as_dict_mono|]. split; [done|]. split; [done|].
  by eapply as_list_mono.
Qed.

Lemma versions_translate (xs : list value) :
  forallb (λ x, is_opt_str (Some x)) xs = true →
  ∃ ys, Forall2 translates_version xs ys.
Proof.
  induction xs as [|x xs IH]; cbn [forallb]; [by exists []|].
  intros [Hx Hxs]%andb_true_iff.
  destruct (IH Hxs) as [ys Hys], (version_from_opt_str (Some x) Hx) as [y Hy].
  exists (y :: ys). by constructor.
Qed.

Lemma version_map_ok_at (h : gmap loc obj) (v : value) :
  version_map_ok h v = true →
  ∃ sv tvs sv' tvs',
    version_map_at h v sv tvs ∧ translates_version sv sv' ∧
    Forall2 translates_version tvs tvs'.
Proof.
  unfold version_map_ok. destruct (as_dict h v) as [d|] eqn:Hd; [|done].
  destruct (d !! "SourceVersion") as [sv|] eqn:Hsv; [|done].
  destruct (d !! "TargetVersions") as [t|] eqn:Ht; [|done].
  intros [Hsvok Htvs]%andb_true_iff.
  destruct (as_list h t) as [tvs|] eqn:Htl; [|done].
  destruct (version_from_opt_str (Some sv) Hsvok) as [sv' Hsv'].
  destruct (versions_translate _ Htvs) as [tvs' Htvs'].
  exists sv, tvs, sv', tvs'. split; [by exists d, t|done].
Qed.

(** One entry: a new dict with a new list of targets. *)
Lemma compatible_versions_map_run (st : state) (v sv sv' : value)
    (tvs tvs' : list value) :
  version_map_at (heap st) v sv tvs →
  translates_version sv sv' →
  Forall2 translates_version tvs tvs' →
  ∃ st' o,
    compatible_versions_map v st = (Ok (VRef o), st') ∧
    heap st !! o = None ∧
    only_allocates st st' ∧
    version_map_at (heap st') (VRef o) sv' tvs'.
Proof.
  intros (d & t & Hd & Hsv & Htv & Ht) Hsv' Htvs'.
  unfold compatible_versions_map.
  erewrite bind_ok; [|by eapply subscript_run].
  rewrite Hsv'. erewrite bind_ok; [|apply lift_run].
  erewrite bind_ok; [|by eapply subscript_run].
  erewrite bind_ok; [|by apply iterate_run].
  erewrite bind_ok; [|by apply mapM_lift_run].
  destruct (alloc_fresh (OList tvs') st) as (tl & Htl & Htl_new).
  erewrite bind_ok; [|exact Htl].
  set (st1 := set_heap _ st).
  destruct (alloc_fresh (ODict (<["SourceVersion" := sv']>
                                  (<["TargetVersions" := VRef tl]> ∅))) st1)
    as (o & Ho & Ho_new).
  rewrite Ho. eexists _, o.
  assert (o ≠ tl) as Hne.
  { intros ->. unfold st1 in Ho_new. cbn in Ho_new.
    by rewrite lookup_insert_eq in Ho_new. }
  split; [done|]. split.
  { unfold st1 in Ho_new. cbn in Ho_new. by rewrite lookup_insert_ne in Ho_new. }
  split.
  { repeat split. cbn. etrans; [by apply insert_subseteq|].
    by apply insert_subseteq. }
  eexists _, (VRef tl). cbn [heap set_heap st1].
  split; [apply as_dict_ref, lookup_insert_eq|].
  split; [apply lookup_insert_eq|].
  split; [rewrite lookup_insert_ne by done; apply lookup_insert_eq|].
  cbn. rewrite lookup_insert_ne by done. by rewrite lookup_insert_eq.
Qed.

Lemma mapM_compatible_versions_map (h0 : gmap loc obj) (maps : list value) (st : state) :
  h0 ⊆ heap st →
  forallb (version_map_ok h0) maps = true →
  ∃ st' outs,
    mapM compatible_versions_map maps st = (Ok outs, st') ∧
    only_allocates st st' ∧
    Forall2 (translates_version_map h0 (heap st')) maps outs.
Proof.
  revert st. induction maps as [|m maps IH]; intros st Hsub Hok.
  - exists st, []. split; [done|]. split; [done|constructor].
  - cbn [forallb] in Hok. apply andb_true_iff in Hok as [Hm Hmaps].
    destruct (version_map_ok_at _ _ Hm) as (sv & tvs & sv' & tvs' & Hat & Hsv & Htvs).
    destruct (compatible_versions_map_run st m sv sv' tvs tvs'
                (version_map_at_mono _ _ _ _ _ Hsub Hat) Hsv Htvs)
      as (st1 & o & Hrun & _ & Hgrow1 & Hout).
    destruct (IH st1) as (st2 & outs & Hrest & Hgrow2 & Hall); [|done|].
    { etrans; [exact Hsub|apply Hgrow1]. }
    exists st2, (VRef o :: outs). split.
    { cbn [mapM]. erewrite bind_ok; [|exact Hrun].
      erewrite bind_ok; [|exact Hrest]. done. }
    split; [by etrans|].
    constructor; [|done]. exists sv, tvs, sv', tvs'.
    split; [done|]. split; [|done].
    eapply version_map_at_mono; [|exact Hout]. apply Hgrow2.
Qed.

(** The translation of a well-shaped compatible-versions list. *)
Lemma compatible_version_list_run (st : state) (v : value)
    (maps : list value) :
  as_list (heap st) v = Some maps →
  compatible_versions_ok (heap st) v = true →
  ∃ st' r outs,
    _compatible_version_list_from_opensearch v st = (Ok (VRef r), st') ∧
    heap st !! r = None ∧
    heap st' !! r = Some (OList outs) ∧
    Forall2 (translates_version_map (heap st) (heap st')) maps outs ∧
    length outs = length maps ∧
    only_allocates st st'.
Proof.
  intros Hmaps Hok. unfold compatible_versions_ok in Hok. rewrite Hmaps in Hok.
  destruct (mapM_compatible_versions_map (heap st) maps st) as
    (st1 & outs & Hrun & Hgrow & Hall); [done..|].
  destruct (alloc_fresh (OList outs) st1) as (r & Hr & Hr_new).
  exists (set_heap (<[r := OList outs]> (heap st1)) st1), r, outs.
  assert (heap st1 ⊆ <[r := OList outs]> (heap st1)) as Hsub
    by by apply insert_subseteq.
  split.
  { unfold _compatible_version_list_from_opensearch.
    destruct v as [| | | |l]; try done.
    erewrite bind_ok; [|by apply iterate_run].
    erewrite bind_ok; [|exact Hrun]. exact Hr. }
  split.
  { destruct (heap st !! r) as [x|] eqn:Hx; [|done].
    destruct Hgrow as (_ & _ & Hg). eapply lookup_weaken in Hx; [|exact Hg].
    congruence. }
  cbn [heap set_heap]. split; [apply lookup_insert_eq|].
  split.
  { eapply Forall2_impl; [exact Hall|].
    intros m o (sv & tvs & sv' & tvs' & H1 & H2 & H3 & H4).
    exists sv, tvs, sv', tvs'. repeat split; try done.
    by eapply version_map_at_mono. }
  split; [symmetry; by eapply Forall2_length|].
  destruct Hgrow as (Hc & He & Hg). repeat split; [done..|]. cbn. by etrans.
Qed.

(** X8: on a compatible-versions list of the right shape the translator
    returns a new list with one new entry per entry of the input, in the
    same order: the source version translated, and the target versions
    translated one by one, in their order. No object that existed is
    changed. *)
Theorem compatible_versions_translated_in_order (st : state) (v : value)
    (maps : list value) :
  as_list (heap st) v = Some maps →
  compatible_versions_ok (heap st) v = true →
  ∃ st' r outs,
    _compatible_version_list_from_opensearch v st = (Ok (VRef r), st') ∧
    heap st !! r = None ∧
    heap st' !! r = Some (OList outs) ∧
    Forall2 (translates_version_map (heap st) (heap st')) maps outs ∧
    length outs = length maps ∧
    only_allocates st st'.
Proof. apply compatible_version_list_run. Qed.

(** X9: an entry without [SourceVersion], or without [TargetVersions] when
    its source version is fine, makes the translator raise [KeyError] for
    that key; the entries before it have been translated into new objects,
    and no object that existed is changed. *)
Theorem compatible_versions_missing_key (st : state) (v m : value)
    (good rest : list value) (d : gmap string value) :
  as_list (heap st) v = Some (good ++ m :: rest) →
  forallb (version_map_ok (heap st)) good = true →
  as_dict (heap st) m = Some d →
  (d !! "SourceVersion" = None →
   ∃ st', _compatible_version_list_from_opensearch v st
          = (Raise (KeyError "SourceVersion"), st') ∧ only_allocates st st') ∧
  (is_opt_str (d !! "SourceVersion") = true → d !! "SourceVersion" ≠ None →
   d !! "TargetVersions" = None →
   ∃ st', _compatible_version_list_from_opensearch v st
          = (Raise (KeyError "TargetVersions"), st') ∧ only_allocates st st').
Proof.
  intros Hv Hgood Hd.
  assert (∀ e,
    (∀ st1, heap st ⊆ heap st1 → compatible_versions_map m st1 = (Raise e, st1)) →
    ∃ st', _compatible_version_list_from_opensearch v st = (Raise e, st') ∧
           only_allocates st st') as Hstop.
  { intros e Hm.
    assert (∀ xs st0, heap st ⊆ heap st0 →
              forallb (version_map_ok (heap st)) xs = true →
              ∃ st', mapM compatible_versions_map (xs ++ m :: rest) st0 = (Raise e, st') ∧
                     only_allocates st0 st') as Hmap.
    { induction xs as [|x xs IH]; intros st0 Hsub Hxs.
      - exists st0. split; [|done]. cbn [app mapM].
        by erewrite bind_raise; [|apply Hm].
      - cbn [forallb] in Hxs. apply andb_true_iff in Hxs as [Hx Hxs].
        destruct (version_map_ok_at _ _ Hx) as (sv & tvs & sv' & tvs' & Hat & Hsv & Htvs).
        destruct (compatible_versions_map_run st0 x sv sv' tvs tvs'
                    (version_map_at_mono _ _ _ _ _ Hsub Hat) Hsv Htvs)
          as (st1 & o & Hrun & _ & Hgrow1 & _).
        destruct (IH st1) as (st2 & Hrest & Hgrow2); [|done|].
        { etrans; [exact Hsub|apply Hgrow1]. }
        exists st2. split; [|by etrans]. cbn [app mapM].
        erewrite bind_ok; [|exact Hrun]. by erewrite bind_raise. }
    destruct (Hmap good st) as (st' & Hrun & Hgrow); [done..|].
    exists st'. split; [|done].
    unfold _compatible_version_list_from_opensearch.
    destruct v as [| | | |l]; try done.
    erewrite bind_ok; [|by apply iterate_run].
    by erewrite bind_raise. }
  split.
  - intros Hsv. apply Hstop. intros st1 Hsub.
    unfold compatible_versions_map, subscript.
    rewrite bind_run. by rewrite (as_dict_mono _ _ _ _ Hsub Hd), Hsv.
  - intros Hok Hsv Htv. apply Hstop. intros st1 Hsub.
    destruct (d !! "SourceVersion") as [sv|] eqn:Hsv'; [|done].
    destruct (version_from_opt_str _ Hok) as [sv' Hsv''].
    unfold compatible_versions_map.
    erewrite bind_ok; [|eapply subscript_run; [by eapply as_dict_mono|done]].
    change (default VNone (Some sv)) with sv in Hsv''.
    rewrite Hsv''. erewrite bind_ok; [|apply lift_run].
    rewrite bind_run. unfold subscript.
    by rewrite (as_dict_mono _ _ _ _ Hsub Hd), Htv.
Qed.


(** ** Calls and events of the operations *)

Global Instance same_events_refl : Reflexive same_events.
Proof. by intros st. Qed.

Global Instance same_events_trans : Transitive same_events.
Proof. unfold same_events. intros s1 s2 s3 H1 H2. by rewrite H2. Qed.

Lemma kwargs_if_set_run (k : string) (v : value) (st : state) :
  kwargs_if_set k v st = (Ok (if truthy (heap st) v then {[k := v]} else ∅), st).
Proof. reflexivity. Qed.

Lemma respects_kwargs_if_set {R : state → state → Prop} `{!Reflexive R}
    (k : string) (v : value) :
  respects R (kwargs_if_set k v).
Proof. by intros st. Qed.

Lemma compatible_version_list_same_calls (v : value) :
  respects same_calls (_compatible_version_list_from_opensearch v).
Proof. intros st. apply compatible_version_list_only_allocates. Qed.

Lemma domainstatus_same_events (v : value) :
  respects same_events (_domainstatus_from_opensearch v).
Proof. intros st. apply domainstatus_from_opensearch_unchanged_outside. Qed.

Lemma compatible_version_list_same_events (v : value) :
  respects same_events (_compatible_version_list_from_opensearch v).
Proof. intros st. apply compatible_version_list_only_allocates. Qed.

Lemma alloc_same_events (o : obj) : respects same_events (alloc o).
Proof. by intros st. Qed.

Lemma call_client_same_events (c : client) (rgn operation : string)
    (kwargs : gmap string value) :
  respects same_events (call_client c rgn operation kwargs).
Proof.
  intros st. unfold call_client. by destruct (invoke c operation kwargs (heap st)).
Qed.

(** The steps after the client call of the operations that fire no event. *)
Ltac quiet_step :=
  first [ apply respects_ret | apply respects_lift | apply respects_dict_get
        | apply respects_subscript | apply respects_iterate
        | apply respects_kwargs_if_set
        | apply alloc_same_calls | apply alloc_same_events
        | apply domainstatus_same_calls | apply domainstatus_same_events
        | apply compatible_version_list_same_calls
        | apply compatible_version_list_same_events
        | apply call_client_same_events
        | apply respects_mapM; intros ?; first
            [ apply domainstatus_same_calls | apply domainstatus_same_events
            | apply respects_lift ] ].

Ltac quiet := repeat (apply respects_bind; [|intros ?]); quiet_step.

Ltac one_call Hc :=
  rewrite Hc; erewrite bind_ok; [|apply lift_run];
  try (erewrite bind_ok; [|apply kwargs_if_set_run]);
  apply call_client_then; intros ?; quiet.

(** X10: with a connection, every operation other than create-domain makes
    exactly one call on the client, with the keyword arguments built from
    its own: the tag and describe operations pass them as they are,
    [list_domain_names] and [get_compatible_elasticsearch_versions] pass
    theirs only if it is truthy, [list_elasticsearch_versions] passes the
    ones that are not [None]. Without a connection every operation raises
    the connection's exception and nothing else happens. *)
Theorem every_operation_makes_one_call (E : Env) (context : RequestContext)
    (st : state) :
  let rgn := region context in
  (∀ c, connect_to_service E "opensearch" rgn = Ok c →
     (∀ name, calls (delete_elasticsearch_domain E context name st).2
              = calls st ++ [Call rgn "delete_domain" {["DomainName" := VStr name]}]) ∧
     (∀ name, calls (describe_elasticsearch_domain E context name st).2
              = calls st ++ [Call rgn "describe_domain" {["DomainName" := VStr name]}]) ∧
     (∀ names, calls (describe_elasticsearch_domains E context names st).2
               = calls st ++ [Call rgn "describe_domains" {["DomainNames" := names]}]) ∧
     (∀ name, calls (describe_elasticsearch_domain_config E context name st).2
              = calls st ++ [Call rgn "describe_domain_config"
                               {["DomainName" := VStr name]}]) ∧
     (∀ engine_type,
        calls (list_domain_names E context engine_type st).2
        = calls st ++ [Call rgn "list_domain_names"
                         (if truthy (heap st) engine_type
                          then {["EngineType" := engine_type]} else ∅)]) ∧
     (∀ name,
        calls (get_compatible_elasticsearch_versions E context name st).2
        = calls st ++ [Call rgn "get_compatible_versions"
                         (if truthy (heap st) name
                          then {["DomainName" := name]} else ∅)]) ∧
     (∀ max_results next_token,
        calls (list_elasticsearch_versions E context max_results next_token st).2
        = calls st ++ [Call rgn "list_versions"
                         (drop_none (list_to_map [("MaxResults", max_results);
                                                  ("NextToken", next_token)]))]) ∧
     (∀ arn tags, calls (add_tags E context arn tags st).2
                  = calls st ++ [Call rgn "add_tags"
                                   (<["ARN" := arn]> (<["TagList" := tags]> ∅))]) ∧
     (∀ arn, calls (list_tags E context arn st).2
             = calls st ++ [Call rgn "list_tags" {["ARN" := arn]}]) ∧
     (∀ arn keys, calls (remove_tags E context arn keys st).2
                  = calls st ++ [Call rgn "remove_tags"
                                   (<["ARN" := arn]> (<["TagKeys" := keys]> ∅))])) ∧
  (∀ e, connect_to_service E "opensearch" rgn = Raise e →
     (∀ req, create_elasticsearch_domain E context req st = (Raise e, st)) ∧
     (∀ name, delete_elasticsearch_domain E context name st = (Raise e, st)) ∧
     (∀ name, describe_elasticsearch_domain E context name st = (Raise e, st)) ∧
     (∀ names, describe_elasticsearch_domains E context names st = (Raise e, st)) ∧
     (∀ name, describe_elasticsearch_domain_config E context name st = (Raise e, st)) ∧
     (∀ engine_type, list_domain_names E context engine_type st = (Raise e, st)) ∧
     (∀ name, get_compatible_elasticsearch_versions E context name st = (Raise e, st)) ∧
     (∀ max_results next_token,
        list_elasticsearch_versions E context max_results next_token st = (Raise e, st)) ∧
     (∀ arn tags, add_tags E context arn tags st = (Raise e, st)) ∧
     (∀ arn, list_tags E context arn st = (Raise e, st)) ∧
     (∀ arn keys, remove_tags E context arn keys st = (Raise e, st))).
Proof.
  intros rgn. split.
  - intros c Hc. unfold rgn in *. repeat split; intros.
    + unfold delete_elasticsearch_domain. rewrite Hc.
      erewrite bind_ok; [|apply lift_run].
      apply call_client_then; intros ?. apply create_tail_same_calls.
    + unfold describe_elasticsearch_domain. one_call Hc.
    + unfold describe_elasticsearch_domains. one_call Hc.
    + unfold describe_elasticsearch_domain_config.
      rewrite domainconfig_from_opensearch_unfold. one_call Hc.
    + unfold list_domain_names. one_call Hc.
    + unfold get_compatible_elasticsearch_versions. one_call Hc.
    + unfold list_elasticsearch_versions. one_call Hc.
    + unfold add_tags. one_call Hc.
    + unfold list_tags. one_call Hc.
    + unfold remove_tags. one_call Hc.
  - intros e He. unfold rgn in *. repeat split; intros.
    + unfold create_elasticsearch_domain. by rewrite He.
    + unfold delete_elasticsearch_domain. by rewrite He.
    + unfold describe_elasticsearch_domain. by rewrite He.
    + unfold describe_elasticsearch_domains. by rewrite He.
    + unfold describe_elasticsearch_domain_config. by rewrite He.
    + unfold list_domain_names. by rewrite He.
    + unfold get_compatible_elasticsearch_versions. by rewrite He.
    + unfold list_elasticsearch_versions. by rewrite He.
    + unfold add_tags. by rewrite He.
    + unfold list_tags. by rewrite He.
    + unfold remove_tags. by rewrite He.
Qed.

Lemma publish_events (E : Env) (event : string) (payload : gmap string value)
    (st : state) :
  events (publish E event payload st).2 = events st ++ [(event, payload)].
Proof. unfold publish. by destruct (fire_event E event payload). Qed.

(** After the client call, create and delete fire no event or the one
    event. *)
Lemma publish_tail_events (E : Env) (name event : string) (response : value)
    (st : state) :
  let st' := (domain_status ← subscript response "DomainStatus";
              n ← lift (get_hash E name);
              _ ← publish E event {["n" := VStr n]};
              status ← _domainstatus_from_opensearch domain_status;
              alloc (ODict {["DomainStatus" := status]})) st in
  events st'.2 = events st ∨
  ∃ n, get_hash E name = Ok n ∧
       events st'.2 = events st ++ [(event, {["n" := VStr n]})].
Proof.
  cbv zeta. rewrite bind_run.
  pose proof (subscript_state response "DomainStatus" st) as Hs.
  destruct (subscript response "DomainStatus" st) as [[ds|e] st0];
    cbn [snd] in Hs; subst st0; [|by left].
  rewrite bind_run, lift_run. destruct (get_hash E name) as [n|e]; [|by left].
  right. exists n. split; [done|]. rewrite bind_run.
  pose proof (publish_events E event {["n" := VStr n]} st) as Hp.
  destruct (publish E event _ st) as [[[]|e] st1]; cbn [snd] in Hp; [|done].
  rewrite <- Hp.
  match goal with |- events (?m st1).2 = _ =>
    cut (respects same_events m); [intros Hm; apply Hm|] end.
  quiet.
Qed.

(** X11: only create-domain and delete-domain fire analytics events, and
    each fires at most one, named after the operation and carrying the hash
    of the domain name; no other operation fires an event. *)
Theorem only_create_and_delete_fire_events (E : Env) (context : RequestContext)
    (st : state) :
  (∀ req,
     let st' := (create_elasticsearch_domain E context req st).2 in
     events st' = events st ∨
     ∃ n, get_hash E (domain_name req) = Ok n ∧
          events st' = events st ++ [(EVENT_ES_CREATE_DOMAIN E, {["n" := VStr n]})]) ∧
  (∀ name,
     let st' := (delete_elasticsearch_domain E context name st).2 in
     events st' = events st ∨
     ∃ n, get_hash E name = Ok n ∧
          events st' = events st ++ [(EVENT_ES_DELETE_DOMAIN E, {["n" := VStr n]})]) ∧
  (∀ name, events (describe_elasticsearch_domain E context name st).2 = events st) ∧
  (∀ names, events (describe_elasticsearch_domains E context names st).2 = events st) ∧
  (∀ name, events (describe_elasticsearch_domain_config E context name st).2
           = events st) ∧
  (∀ engine_type, events (list_domain_names E context engine_type st).2 = events st) ∧
  (∀ name, events (get_compatible_elasticsearch_versions E context name st).2
           = events st) ∧
  (∀ max_results next_token,
     events (list_elasticsearch_versions E context max_results next_token st).2
     = events st) ∧
  (∀ arn tags, events (add_tags E context arn tags st).2 = events st) ∧
  (∀ arn, events (list_tags E context arn st).2 = events st) ∧
  (∀ arn keys, events (remove_tags E context arn keys st).2 = events st).
Proof.
  split; [|split].
  - intros req st'. unfold st', create_elasticsearch_domain.
    rewrite bind_run, lift_run.
    destruct (connect_to_service E _ _) as [c|e]; [|by left].
    rewrite bind_run, lift_run.
    destruct (_version_to_opensearch _) as [ev|e]; [|by left].
    rewrite bind_run.
    pose proof (translate_cluster_config_unchanged_outside
                  _instancetype_to_opensearch (elasticsearch_cluster_config req) st)
      as (_ & Hev1 & _).
    rewrite <- clusterconfig_to_opensearch_unfold in Hev1.
    destruct (_clusterconfig_to_opensearch _ st) as [[cc|e] st1];
      cbn [snd] in Hev1; [|by left].
    rewrite bind_run.
    pose proof (call_client_same_events c (region context) "create_domain"
                  (create_domain_kwargs req ev cc) st1) as Hev2.
    destruct (call_client c _ _ _ st1) as [[response|e] st2];
      cbn [snd] in Hev2; unfold same_events in Hev2;
      [|left; cbn; congruence].
    rewrite <- Hev1, <- Hev2.
    apply (publish_tail_events E (domain_name req) (EVENT_ES_CREATE_DOMAIN E)).
  - intros name st'. unfold st', delete_elasticsearch_domain.
    rewrite bind_run, lift_run.
    destruct (connect_to_service E _ _) as [c|e]; [|by left].
    rewrite bind_run.
    pose proof (call_client_same_events c (region context) "delete_domain"
                  {["DomainName" := VStr name]} st) as Hev2.
    destruct (call_client c _ _ _ st) as [[response|e] st2];
      cbn [snd] in Hev2; unfold same_events in Hev2;
      [|left; cbn; congruence].
    rewrite <- Hev2.
    apply (publish_tail_events E name (EVENT_ES_DELETE_DOMAIN E)).
  - repeat split; intros;
      match goal with |- events (?m st).2 = _ =>
        cut (respects same_events m); [intros Hm; apply Hm|] end.
    + unfold describe_elasticsearch_domain. quiet.
    + unfold describe_elasticsearch_domains. quiet.
    + unfold describe_elasticsearch_domain_config.
      rewrite domainconfig_from_opensearch_unfold. quiet.
    + unfold list_domain_names. quiet.
    + unfold get_compatible_elasticsearch_versions. quiet.
    + unfold list_elasticsearch_versions. quiet.
    + unfold add_tags. quiet.
    + unfold list_tags. quiet.
    + unfold remove_tags. quiet.
Qed.

(** X12: in create-domain and delete-domain an exception of the client
    call is raised unchanged, and an answer without [DomainStatus] raises
    [KeyError]; in both cases no event is fired. *)
Theorem backend_failure_fires_no_event (E : Env) (context : RequestContext)
    (c : client) :
  connect_to_service E "opensearch" (region context) = Ok c →
  (∀ name st h r,
     invoke c "delete_domain" {["DomainName" := VStr name]} (heap st) = (r, h) →
     let st' := {| heap := h;
                   calls := calls st ++ [Call (region context) "delete_domain"
                                           {["DomainName" := VStr name]}];
                   events := events st |} in
     (∀ e, r = Raise e →
           delete_elasticsearch_domain E context name st = (Raise e, st')) ∧
     (∀ response resp, r = Ok response → as_dict h response = Some resp →
           resp !! "DomainStatus" = None →
           delete_elasticsearch_domain E context name st
           = (Raise (KeyError "DomainStatus"), st'))) ∧
  (∀ req st st1 ev cc h r,
     _version_to_opensearch (elasticsearch_version req) = Ok ev →
     _clusterconfig_to_opensearch (elasticsearch_cluster_config req) st = (Ok cc, st1) →
     invoke c "create_domain" (create_domain_kwargs req ev cc) (heap st1) = (r, h) →
     let st' := {| heap := h;
                   calls := calls st1 ++ [Call (region context) "create_domain"
                                            (create_domain_kwargs req ev cc)];
                   events := events st |} in
     (∀ e, r = Raise e →
           create_elasticsearch_domain E context req st = (Raise e, st')) ∧
     (∀ response resp, r = Ok response → as_dict h response = Some resp →
           resp !! "DomainStatus" = None →
           create_elasticsearch_domain E context req st
           = (Raise (KeyError "DomainStatus"), st'))).
Proof.
  intros Hc. split.
  - intros name st h r Hcall st'. split.
    + intros e ->. unfold delete_elasticsearch_domain. rewrite Hc.
      erewrite bind_ok; [|apply lift_run].
      by erewrite bind_raise; [|by apply call_client_run].
    + intros response resp -> Hresp Hds.
      unfold delete_elasticsearch_domain. rewrite Hc.
      erewrite bind_ok; [|apply lift_run].
      erewrite bind_ok; [|by apply call_client_run].
      rewrite bind_run. unfold subscript. cbn [heap]. by rewrite Hresp, Hds.
  - intros req st st1 ev cc h r Hev Hcc Hcall st'.
    pose proof (translate_cluster_config_unchanged_outside
                  _instancetype_to_opensearch (elasticsearch_cluster_config req) st)
      as (_ & Hev1 & _).
    rewrite <- clusterconfig_to_opensearch_unfold, Hcc in Hev1. cbn [snd] in Hev1.
    unfold st'. rewrite <- Hev1. split.
    + intros e ->.
      rewrite (create_elasticsearch_domain_sends E context req st st1 c ev cc) by done.
      by erewrite bind_raise; [|by apply call_client_run].
    + intros response resp -> Hresp Hds.
      rewrite (create_elasticsearch_domain_sends E context req st st1 c ev cc) by done.
      erewrite bind_ok; [|by apply call_client_run].
      rewrite bind_run. unfold subscript. cbn [heap]. by rewrite Hresp, Hds.
Qed.


(** ** Describing domains *)

(** X13: when the client answers [describe_domain] with a status of the
    right shape, [describe_elasticsearch_domain] returns a new dict whose
    [DomainStatus] is that very status object, translated in place:
    [ElasticsearchVersion] holds the translated [EngineVersion],
    [ElasticsearchClusterConfig] what [ClusterConfig] held, the two current
    fields are gone and the other fields are as the client gave them. When
    the answer has [None] as [DomainStatus], so has the result. *)
Theorem describe_domain_translates_status (E : Env) (context : RequestContext)
    (name : string) (st : state) (c : client) (response : value)
    (h : gmap loc obj) (resp : gmap string value) :
  connect_to_service E "opensearch" (region context) = Ok c →
  invoke c "describe_domain" {["DomainName" := VStr name]} (heap st) = (Ok response, h) →
  as_dict h response = Some resp →
  (∀ ds d,
     resp !! "DomainStatus" = Some (VRef ds) →
     h !! ds = Some (ODict d) →
     domain_status_ok h (VRef ds) = true →
     ∃ st' r d' ev,
       describe_elasticsearch_domain E context name st = (Ok (VRef r), st') ∧
       h !! r = None ∧
       heap st' !! r = Some (ODict {["DomainStatus" := VRef ds]}) ∧
       heap st' !! ds = Some (ODict d') ∧
       _version_from_opensearch (default VNone (d !! "EngineVersion")) = Ok ev ∧
       d' !! "ElasticsearchVersion" = Some ev ∧
       d' !! "ElasticsearchClusterConfig" = Some (default VNone (d !! "ClusterConfig")) ∧
       d' !! "EngineVersion" = None ∧
       d' !! "ClusterConfig" = None ∧
       (∀ k, k ≠ "ElasticsearchVersion" → k ≠ "ElasticsearchClusterConfig" →
             k ≠ "EngineVersion" → k ≠ "ClusterConfig" → ¬ instance_type_field k →
             d' !! k = d !! k)) ∧
  (resp !! "DomainStatus" = Some VNone →
   ∃ st' r,
     describe_elasticsearch_domain E context name st = (Ok (VRef r), st') ∧
     heap st' !! r = Some (ODict {["DomainStatus" := VNone]})).
Proof.
  intros Hc Hcall Hresp.
  set (st1 := {| heap := h;
                 calls := calls st ++ [Call (region context) "describe_domain"
                                         {["DomainName" := VStr name]}];
                 events := events st |}).
  assert (∀ ds, resp !! "DomainStatus" = Some ds →
    describe_elasticsearch_domain E context name st
    = (status ← _domainstatus_from_opensearch ds;
       alloc (ODict {["DomainStatus" := status]})) st1) as Hstart.
  { intros ds Hds. unfold describe_elasticsearch_domain. rewrite Hc.
    erewrite bind_ok; [|apply lift_run].
    erewrite bind_ok; [|by apply call_client_run].
    by erewrite bind_ok; [|by eapply subscript_run]. }
  split.
  - intros ds d Hds Hd Hok.
    destruct (domainstatus_translation_parts st1 ds d Hd Hok)
      as (st2 & d' & ev & Hrun & Hd' & Hev & H1 & H2 & H3 & H4 & H5 & Hgrow).
    destruct (alloc_fresh (ODict {["DomainStatus" := VRef ds]}) st2)
      as (r & Hr & Hr_new).
    eexists _, r, d', ev. split.
    { rewrite (Hstart _ Hds). erewrite bind_ok; [|exact Hrun]. exact Hr. }
    cbn [heap set_heap]. split.
    { destruct (h !! r) as [o|] eqn:Ho; [|done].
      destruct (Hgrow r) as [o' Ho']; [by eexists|]. congruence. }
    split; [apply lookup_insert_eq|]. split; [|done].
    rewrite lookup_insert_ne; [done|]. intros ->. congruence.
  - intros Hds. destruct (alloc_fresh (ODict {["DomainStatus" := VNone]}) st1)
      as (r & Hr & _).
    eexists _, r. split.
    { rewrite (Hstart _ Hds). erewrite bind_ok; [|reflexivity]. exact Hr. }
    apply lookup_insert_eq.
Qed.

Global Instance shape_kept_refl : Reflexive shape_kept.
Proof. intros st l Hl. repeat split; auto. Qed.

Global Instance shape_kept_trans : Transitive shape_kept.
Proof.
  intros s1 s2 s3 H12 H23 l Hl.
  destruct (H12 l Hl) as (Hd & Hcur & Hit & Hleg).
  destruct (H23 l Hd) as (Hd' & Hcur' & Hit' & Hleg').
  split; [done|]. split; [|split].
  - intros k Hk. destruct (Hcur' k Hk) as [-> | ->]; [|by right]. by apply Hcur.
  - intros k Hk. destruct (Hit' k Hk) as [->|?]; [|by right]. by apply Hit.
  - intros k Hk Hs. apply Hleg'; [done|]. by apply Hleg.
Qed.

Lemma is_opt_str_None : is_opt_str None = true.
Proof. done. Qed.

Lemma dict_set_shape_kept (v : value) (k : string) (x : value) :
  k ≠ "EngineVersion" → k ≠ "ClusterConfig" →
  (instance_type_field k → is_opt_str (Some x) = true) →
  respects shape_kept (dict_set v k x).
Proof.
  intros Hev Hcc Hx st. unfold dict_set. destruct v as [| | | |l]; try done.
  destruct (heap st !! l) as [[d|]|] eqn:Hl; try done.
  intros l' Hl'. cbn [snd heap set_heap]. unfold field. rewrite as_dict_insert.
  case_decide as Hll; [subst l'|by repeat split; auto].
  rewrite (proj2 (as_dict_ref _ _ _) Hl). cbn.
  split; [by eexists|]. split; [|split].
  - intros k' [->| ->]; left; by rewrite lookup_insert_ne.
  - intros k' Hk'. destruct (decide (k = k')) as [<-|Hne].
    + right. rewrite lookup_insert_eq. auto.
    + left. by rewrite lookup_insert_ne.
  - intros k' _ Hs. destruct (decide (k = k')) as [<-|Hne].
    + rewrite lookup_insert_eq. by eexists.
    + by rewrite lookup_insert_ne.
Qed.

Lemma dict_pop_shape_kept (v : value) (k : string) :
  k = "EngineVersion" ∨ k = "ClusterConfig" →
  respects shape_kept (dict_pop v k).
Proof.
  intros Hk st. unfold dict_pop. destruct v as [| | | |l]; try done.
  destruct (heap st !! l) as [[d|]|] eqn:Hl; try done.
  intros l' Hl'. cbn [snd heap set_heap]. unfold field. rewrite as_dict_insert.
  case_decide as Hll; [subst l'|by repeat split; auto].
  rewrite (proj2 (as_dict_ref _ _ _) Hl). cbn.
  split; [by eexists|]. split; [|split].
  - intros k' Hk'. destruct (decide (k = k')) as [<-|Hne].
    + right. apply lookup_delete_eq.
    + left. by rewrite lookup_delete_ne.
  - intros k' Hk'. left. rewrite lookup_delete_ne; [done|].
    intros <-. destruct Hk as [->| ->], Hk' as [?|[?|?]]; done.
  - intros k' Hk' Hs. rewrite lookup_delete_ne; [done|].
    intros <-. destruct Hk as [->| ->], Hk' as [?|?]; done.
Qed.

Lemma respects_lift_bind {A B} (R : state → state → Prop) `{!Reflexive R}
    (r : result A) (g : A → M B) :
  (∀ a, r = Ok a → respects R (g a)) → respects R (lift r ≫= g).
Proof.
  intros Hg st. rewrite bind_run, lift_run. destruct r as [a|e]; [|done].
  by apply Hg.
Qed.

Lemma instancetype_from_gives_opt_str (x y : value) :
  _instancetype_from_opensearch x = Ok y → is_opt_str (Some y) = true.
Proof. destruct x; try done; by intros [= <-]. Qed.

Lemma clusterconfig_from_shape_kept (v : value) :
  respects shape_kept (_clusterconfig_from_opensearch v).
Proof.
  unfold _clusterconfig_from_opensearch, cast. destruct v; [apply respects_ret|..].
  all: repeat first
    [ apply respects_ret
    | apply respects_bind; [apply respects_dict_get|intros ?]
    | apply respects_lift_bind; [apply _|intros ? ?%instancetype_from_gives_opt_str]
    | apply respects_bind; [by apply dict_set_shape_kept|intros ?] ].
Qed.

Lemma domainstatus_shape_kept (v : value) :
  respects shape_kept (_domainstatus_from_opensearch v).
Proof.
  unfold _domainstatus_from_opensearch, cast. destruct v; [apply respects_ret|..].
  all: repeat (apply respects_bind; [|intros ?]);
    first [ apply respects_dict_get | apply respects_lift | apply respects_ret
          | apply clusterconfig_from_shape_kept
          | apply dict_set_shape_kept; [done|done|intros [?|[?|?]]; done]
          | apply dict_pop_shape_kept; auto ].
Qed.

Lemma cluster_config_ok_shape_kept (st st' : state) (v : value) :
  shape_kept st st' →
  cluster_config_ok (heap st) v = true → cluster_config_ok (heap st') v = true.
Proof.
  intros Hkeep. destruct v as [| | | |l]; try done. unfold cluster_config_ok.
  destruct (as_dict (heap st) (VRef l)) as [d|] eqn:Hd; [|done].
  destruct (Hkeep l) as ([d' Hd'] & _ & Hit & _); [by rewrite Hd|].
  rewrite Hd'. unfold field in Hit. rewrite Hd, Hd' in Hit. cbn in Hit.
  intros [[H1 H2]%andb_true_iff H3]%andb_true_iff.
  assert (∀ k, instance_type_field k → is_opt_str (d !! k) = true →
               is_opt_str (d' !! k) = true) as Hk.
  { intros k Hk Hok. by destruct (Hit k Hk) as [->|?]. }
  rewrite !Hk; unfold instance_type_field; auto.
Qed.

Lemma domain_status_ok_shape_kept (st st' : state) (v : value) :
  shape_kept st st' →
  domain_status_ok (heap st) v = true → domain_status_ok (heap st') v = true.
Proof.
  intros Hkeep. unfold domain_status_ok.
  destruct (as_dict (heap st) v) as [d|] eqn:Hd; [|done].
  destruct (as_dict_inv _ _ _ Hd) as (l & -> & _).
  destruct (Hkeep l) as ([d' Hd'] & Hcur & _); [by rewrite Hd|].
  rewrite Hd'. unfold field in Hcur. rewrite Hd, Hd' in Hcur. cbn in Hcur.
  intros [Hev Hcc]%andb_true_iff. apply andb_true_iff. split.
  - by destruct (Hcur "EngineVersion") as [-> | ->]; auto.
  - destruct (Hcur "ClusterConfig") as [-> | ->]; auto.
    by eapply cluster_config_ok_shape_kept.
Qed.

Lemma translated_status_shape_kept (st st' : state) (v : value) :
  shape_kept st st' →
  translated_status (heap st) v → translated_status (heap st') v.
Proof.
  intros Hkeep (l & -> & Hesv & Hecc & Hev & Hcc).
  assert (is_Some (as_dict (heap st) (VRef l))) as Hd.
  { unfold field in Hesv. destruct (as_dict (heap st) (VRef l)); [by eexists|].
    by destruct Hesv. }
  destruct (Hkeep l Hd) as (_ & Hcur & _ & Hleg).
  exists l. split; [done|]. split; [by apply Hleg; auto|].
  split; [by apply Hleg; auto|]. split.
  - destruct (Hcur "EngineVersion") as [-> | ->]; auto.
  - destruct (Hcur "ClusterConfig") as [-> | ->]; auto.
Qed.

Lemma field_mono (h h' : gmap loc obj) (l : loc) (k : string) :
  h ⊆ h' → is_Some (as_dict h (VRef l)) → field h' l k = field h l k.
Proof.
  intros Hsub [d Hd]. unfold field.
  by rewrite Hd, (as_dict_mono _ _ _ _ Hsub Hd).
Qed.

Lemma translated_status_mono (h h' : gmap loc obj) (v : value) :
  h ⊆ h' → translated_status h v → translated_status h' v.
Proof.
  intros Hsub (l & -> & Hesv & Hecc & Hev & Hcc).
  assert (is_Some (as_dict h (VRef l))) as Hd.
  { unfold field in Hesv. destruct (as_dict h (VRef l)); [by eexists|].
    by destruct Hesv. }
  exists l. by rewrite !(field_mono h h') by done.
Qed.

(** A list of well-shaped statuses is translated one by one, each in
    place. *)
Lemma mapM_domainstatus (xs : list value) (st : state) :
  forallb (domain_status_ok (heap st)) xs = true →
  ∃ st',
    mapM _domainstatus_from_opensearch xs st = (Ok xs, st') ∧
    shape_kept st st' ∧
    (∀ l, is_Some (heap st !! l) → is_Some (heap st' !! l)) ∧
    Forall (translated_status (heap st')) xs.
Proof.
  revert st. induction xs as [|x xs IH]; intros st Hok.
  - exists st. split; [done|]. split; [done|]. split; [done|constructor].
  - cbn [forallb] in Hok. apply andb_true_iff in Hok as [Hx Hxs].
    assert (∃ l d, x = VRef l ∧ heap st !! l = Some (ODict d)) as (l & d & -> & Hl).
    { unfold domain_status_ok in Hx.
      destruct (as_dict (heap st) x) as [d|] eqn:Hd; [|done].
      destruct (as_dict_inv _ _ _ Hd) as (l & -> & Hl). eauto. }
    destruct (domainstatus_translation_parts st l d Hl Hx)
      as (st1 & d' & ev & Hrun & Hd' & _ & Hesv & Hecc & Hev & Hcc & _ & Hgrow1).
    pose proof (domainstatus_shape_kept (VRef l) st) as Hkeep1.
    rewrite Hrun in Hkeep1. cbn [snd] in Hkeep1.
    destruct (IH st1) as (st2 & Hrest & Hkeep2 & Hgrow2 & Hall).
    { apply forallb_forall. intros y Hy.
      eapply domain_status_ok_shape_kept; [exact Hkeep1|].
      by eapply forallb_forall in Hxs. }
    exists st2. split.
    { cbn [mapM]. erewrite bind_ok; [|exact Hrun].
      by erewrite bind_ok; [|exact Hrest]. }
    split; [by etrans|]. split; [by auto|].
    constructor; [|done].
    eapply translated_status_shape_kept; [exact Hkeep2|].
    exists l. unfold field. rewrite (proj2 (as_dict_ref _ _ _) Hd'). cbn.
    rewrite Hesv, Hecc. by repeat split.
Qed.

(** X14: when the client answers [describe_domains] with a list of
    statuses of the right shape, [describe_elasticsearch_domains] returns a
    new list that holds the very status objects of the answer, in the same
    order; each of them has been translated in place: its legacy fields are
    set and its [EngineVersion] and [ClusterConfig] are gone. *)
Theorem describe_domains_translates_each (E : Env) (context : RequestContext)
    (names : value) (st : state) (c : client) (response sl : value)
    (h : gmap loc obj) (resp : gmap string value) (xs : list value) :
  connect_to_service E "opensearch" (region context) = Ok c →
  invoke c "describe_domains" {["DomainNames" := names]} (heap st) = (Ok response, h) →
  as_dict h response = Some resp →
  resp !! "DomainStatusList" = Some sl →
  as_list h sl = Some xs →
  forallb (domain_status_ok h) xs = true →
  ∃ st' r lst,
    describe_elasticsearch_domains E context names st = (Ok (VRef r), st') ∧
    heap st' !! r = Some (ODict {["DomainStatusList" := VRef lst]}) ∧
    h !! lst = None ∧
    heap st' !! lst = Some (OList xs) ∧
    Forall (translated_status (heap st')) xs.
Proof.
  intros Hc Hcall Hresp Hsl Hxs Hok.
  set (st1 := {| heap := h;
                 calls := calls st ++ [Call (region context) "describe_domains"
                                         {["DomainNames" := names]}];
                 events := events st |}).
  destruct (mapM_domainstatus xs st1 Hok) as (st2 & Hrun & _ & Hgrow & Hall).
  destruct (alloc_fresh (OList xs) st2) as (lst & Hlst & Hlst_new).
  set (st3 := set_heap (<[lst := OList xs]> (heap st2)) st2) in *.
  destruct (alloc_fresh (ODict {["DomainStatusList" := VRef lst]}) st3)
    as (r & Hr & Hr_new).
  assert (r ≠ lst) as Hne.
  { intros ->. unfold st3 in Hr_new. cbn in Hr_new.
    by rewrite lookup_insert_eq in Hr_new. }
  eexists _, r, lst. split.
  { unfold describe_elasticsearch_domains. rewrite Hc.
    erewrite bind_ok; [|apply lift_run].
    erewrite bind_ok; [|by apply call_client_run].
    erewrite bind_ok; [|by eapply subscript_run].
    erewrite bind_ok; [|by apply iterate_run].
    erewrite bind_ok; [|exact Hrun].
    erewrite bind_ok; [|exact Hlst]. exact Hr. }
  cbn [heap set_heap st3]. split; [apply lookup_insert_eq|]. split.
  { destruct (h !! lst) as [o|] eqn:Ho; [|done].
    destruct (Hgrow lst) as [o' Ho']; [by eexists|]. congruence. }
  split; [rewrite lookup_insert_ne by done; apply lookup_insert_eq|].
  eapply Forall_impl; [exact Hall|]. intros x Hx.
  eapply translated_status_mono; [|exact Hx].
  etrans; [by apply insert_subseteq|]. apply insert_subseteq.
  unfold st3 in Hr_new. exact Hr_new.
Qed.


(** ** Domain config, versions and tags *)

Lemma instancetype_from_not_opt_str (o : option value) :
  is_opt_str o = false →
  _instancetype_from_opensearch (default VNone o) = Raise AttributeError.
Proof. by destruct o as [[]|]. Qed.

(** A value that is not a cluster config of the right shape is not
    translated: where it is not a dict, or an instance type is set to
    something that is not a string, the translator raises
    [AttributeError]. *)
Lemma clusterconfig_from_opensearch_ill_shaped (v : value) (st : state) :
  cluster_config_ok (heap st) v = false →
  (_clusterconfig_from_opensearch v st).1 = Raise AttributeError.
Proof.
  intros Hok. rewrite clusterconfig_from_opensearch_unfold.
  unfold cluster_config_ok in Hok.
  destruct (as_dict (heap st) v) as [d|] eqn:Hd.
  - apply as_dict_inv in Hd as (l & -> & Hl).
    unfold translate_cluster_config.
    erewrite bind_ok; [|by apply dict_get_run, as_dict_ref].
    destruct (is_opt_str (d !! "InstanceType")) eqn:Hit;
      [|rewrite (instancetype_from_not_opt_str _ Hit);
        by erewrite bind_raise; [|apply lift_run]].
    destruct (instancetype_from_opt_str _ Hit) as [it Hit']. rewrite Hit'.
    erewrite bind_ok; [|apply lift_run].
    erewrite bind_ok; [|by apply dict_set_run].
    erewrite bind_ok;
      [|apply dict_get_run, as_dict_ref; cbn [heap set_heap]; apply lookup_insert_eq].
    rewrite lookup_insert_ne by done.
    destruct (is_opt_str (d !! "DedicatedMasterType")) eqn:Hdm;
      [|rewrite (instancetype_from_not_opt_str _ Hdm);
        by erewrite bind_raise; [|apply lift_run]].
    destruct (instancetype_from_opt_str _ Hdm) as [dm Hdm']. rewrite Hdm'.
    erewrite bind_ok; [|apply lift_run].
    erewrite bind_ok;
      [|apply dict_set_run; cbn [heap set_heap]; apply lookup_insert_eq].
    erewrite bind_ok;
      [|apply dict_get_run, as_dict_ref; cbn [heap set_heap]; apply lookup_insert_eq].
    rewrite !lookup_insert_ne by done.
    cbn [andb] in Hok. rewrite (instancetype_from_not_opt_str _ Hok).
    by erewrite bind_raise; [|apply lift_run].
  - destruct v; [done|..]; unfold translate_cluster_config;
      rewrite bind_run; unfold dict_get; by rewrite Hd.
Qed.

(** Writing a field that is no instance type changes the shape of no
    cluster config. *)
Lemma cluster_config_ok_insert_other (h : gmap loc obj) (l : loc)
    (d : gmap string value) (k : string) (x v : value) :
  h !! l = Some (ODict d) → ¬ instance_type_field k →
  cluster_config_ok (<[l := ODict (<[k := x]> d)]> h) v = cluster_config_ok h v.
Proof.
  intros Hl Hk. destruct v as [| | | |c]; try done.
  unfold cluster_config_ok. rewrite as_dict_insert. case_decide as Hc; [|done].
  subst c. rewrite (proj2 (as_dict_ref _ _ _) Hl).
  rewrite !lookup_insert_ne; [done|..]; intros ->; apply Hk;
    unfold instance_type_field; auto.
Qed.

(** A domain status or config whose version is fine and whose
    [ClusterConfig] is not of the right shape makes the translator raise
    [AttributeError]. *)
Lemma domainstatus_ill_shaped_cluster_config (st : state) (l : loc)
    (d : gmap string value) :
  heap st !! l = Some (ODict d) →
  is_opt_str (d !! "EngineVersion") = true →
  cluster_config_ok (heap st) (default VNone (d !! "ClusterConfig")) = false →
  (_domainstatus_from_opensearch (VRef l) st).1 = Raise AttributeError.
Proof.
  intros Hl Hev Hcc.
  destruct (version_from_opt_str _ Hev) as [ev Hev'].
  unfold _domainstatus_from_opensearch, cast.
  erewrite bind_ok; [|by apply dict_get_run, as_dict_ref].
  rewrite Hev'. erewrite bind_ok; [|apply lift_run].
  erewrite bind_ok; [|by apply dict_set_run].
  erewrite bind_ok;
    [|apply dict_get_run, as_dict_ref; cbn [heap set_heap]; apply lookup_insert_eq].
  rewrite lookup_insert_ne by done.
  set (cc := default VNone (d !! "ClusterConfig")) in *.
  set (st1 := set_heap _ st).
  assert (cluster_config_ok (heap st1) cc = false) as Hcc1.
  { unfold st1. cbn [heap set_heap].
    rewrite cluster_config_ok_insert_other; [exact Hcc|exact Hl|].
    intros [?|[?|?]]; done. }
  pose proof (clusterconfig_from_opensearch_ill_shaped cc st1 Hcc1) as Hraise.
  rewrite bind_run.
  destruct (_clusterconfig_from_opensearch cc st1) as [[x|e] st2]; [done|].
  exact Hraise.
Qed.

(** X15: what [describe_elasticsearch_domain_config] makes of the answer.
    Without a [DomainConfig] (missing or [None]) it returns a dict with
    [DomainConfig] bound to [None]. With a config whose [EngineVersion] is
    set to something that is not a string, such as the dict with [Options]
    and [Status] that a domain config holds there, it raises
    [AttributeError] right after the call. With a config whose version is
    fine and whose [ClusterConfig] is set to something that is not a cluster
    config of the right shape, it raises [AttributeError] as well. Only with
    a config of the right shape, version and cluster config, does it return
    that config object, translated in place like a domain status. *)
Theorem describe_domain_config_outcomes (E : Env) (context : RequestContext)
    (name : string) (st : state) (c : client) (response : value)
    (h : gmap loc obj) (resp : gmap string value) :
  connect_to_service E "opensearch" (region context) = Ok c →
  invoke c "describe_domain_config" {["DomainName" := VStr name]} (heap st)
  = (Ok response, h) →
  as_dict h response = Some resp →
  let st1 := {| heap := h;
                calls := calls st ++ [Call (region context) "describe_domain_config"
                                        {["DomainName" := VStr name]}];
                events := events st |} in
  (absent (resp !! "DomainConfig") →
   ∃ st' r,
     describe_elasticsearch_domain_config E context name st = (Ok (VRef r), st') ∧
     heap st' !! r = Some (ODict {["DomainConfig" := VNone]})) ∧
  (∀ cfg d,
     resp !! "DomainConfig" = Some (VRef cfg) →
     h !! cfg = Some (ODict d) →
     is_opt_str (d !! "EngineVersion") = false →
     describe_elasticsearch_domain_config E context name st
     = (Raise AttributeError, st1)) ∧
  (∀ cfg d,
     resp !! "DomainConfig" = Some (VRef cfg) →
     h !! cfg = Some (ODict d) →
     is_opt_str (d !! "EngineVersion") = true →
     cluster_config_ok h (default VNone (d !! "ClusterConfig")) = false →
     (describe_elasticsearch_domain_config E context name st).1
     = Raise AttributeError) ∧
  (∀ cfg d,
     resp !! "DomainConfig" = Some (VRef cfg) →
     h !! cfg = Some (ODict d) →
     domain_status_ok h (VRef cfg) = true →
     ∃ st' r d' ev,
       describe_elasticsearch_domain_config E context name st = (Ok (VRef r), st') ∧
       heap st' !! r = Some (ODict {["DomainConfig" := VRef cfg]}) ∧
       heap st' !! cfg = Some (ODict d') ∧
       _version_from_opensearch (default VNone (d !! "EngineVersion")) = Ok ev ∧
       d' !! "ElasticsearchVersion" = Some ev ∧
       d' !! "ElasticsearchClusterConfig" = Some (default VNone (d !! "ClusterConfig")) ∧
       d' !! "EngineVersion" = None ∧
       d' !! "ClusterConfig" = None).
Proof.
  intros Hc Hcall Hresp st1.
  assert (describe_elasticsearch_domain_config E context name st
          = (translated ← _domainstatus_from_opensearch (default VNone (resp !! "DomainConfig"));
             alloc (ODict {["DomainConfig" := translated]})) st1) as Hstart.
  { unfold describe_elasticsearch_domain_config. rewrite Hc.
    erewrite bind_ok; [|apply lift_run].
    erewrite bind_ok; [|by apply call_client_run].
    by erewrite bind_ok; [|by apply dict_get_run]. }
  rewrite Hstart. split; [|split; [|split]].
  - intros Habs.
    assert (default VNone (resp !! "DomainConfig") = VNone) as ->
      by by destruct Habs as [-> | ->].
    destruct (alloc_fresh (ODict {["DomainConfig" := VNone]}) st1) as (r & Hr & _).
    eexists _, r. split; [erewrite bind_ok; [exact Hr|reflexivity]|].
    apply lookup_insert_eq.
  - intros cfg d Hcfg Hd Hbad. rewrite Hcfg. cbn [default].
    erewrite bind_raise; [done|]. by apply (domainstatus_bad_version st1 cfg d).
  - intros cfg d Hcfg Hd Hev Hbad. rewrite Hcfg.
    change (default VNone (Some (VRef cfg))) with (VRef cfg).
    pose proof (domainstatus_ill_shaped_cluster_config st1 cfg d Hd Hev Hbad)
      as Hraise.
    rewrite bind_run.
    destruct (_domainstatus_from_opensearch (VRef cfg) st1) as [[x|e] st2];
      [done|exact Hraise].
  - intros cfg d Hcfg Hd Hok. rewrite Hcfg. cbn [default].
    destruct (domainstatus_translation_parts st1 cfg d Hd Hok)
      as (st2 & d' & ev & Hrun & Hd' & Hev & H1 & H2 & H3 & H4 & _).
    destruct (alloc_fresh (ODict {["DomainConfig" := VRef cfg]}) st2)
      as (r & Hr & Hr_new).
    eexists _, r, d', ev. split; [erewrite bind_ok; [exact Hr|exact Hrun]|].
    cbn [heap set_heap]. split; [apply lookup_insert_eq|]. split; [|done].
    rewrite lookup_insert_ne; [done|]. intros ->. congruence.
Qed.

(** X16: when the client answers [list_versions] with a list of versions,
    [list_elasticsearch_versions] returns a new list with each version
    translated, in the same order. Its [NextToken] is what the answer holds
    under the key that is the value of the request's [next_token]: [None]
    when the request has no token. An answer without [Versions] raises
    [KeyError]. *)
Theorem list_versions_translates_in_order (E : Env) (context : RequestContext)
    (max_results next_token : value) (st : state) (c : client)
    (response : value) (h : gmap loc obj) (resp : gmap string value) :
  connect_to_service E "opensearch" (region context) = Ok c →
  invoke c "list_versions"
    (drop_none (list_to_map [("MaxResults", max_results); ("NextToken", next_token)]))
    (heap st) = (Ok response, h) →
  as_dict h response = Some resp →
  (∀ vl xs,
     resp !! "Versions" = Some vl →
     as_list h vl = Some xs →
     forallb (λ x, is_opt_str (Some x)) xs = true →
     (∀ l, next_token ≠ VRef l) →
     ∃ lv r st' ys token,
       list_elasticsearch_versions E context max_results next_token st
       = (Ok (VRef r), st') ∧
       heap st' !! r
       = Some (ODict (<["ElasticsearchVersions" := VRef lv]>
                        (<["NextToken" := token]> ∅))) ∧
       heap st' !! lv = Some (OList ys) ∧
       Forall2 translates_version xs ys ∧
       (next_token = VNone → token = VNone) ∧
       (∀ t, next_token = VStr t → token = default VNone (resp !! t))) ∧
  (resp !! "Versions" = None →
   (list_elasticsearch_versions E context max_results next_token st).1
   = Raise (KeyError "Versions")).
Proof.
  intros Hc Hcall Hresp. split.
  - intros vl xs Hvl Hxs Hok Htoken.
    destruct (versions_translate xs Hok) as [ys Hys].
    assert (∃ o, lookup_key resp next_token = Ok o ∧
                 (next_token = VNone → o = None) ∧
                 (∀ t, next_token = VStr t → o = resp !! t)) as (o & Ho & Hn & Ht).
    { destruct next_token as [| | |t|l]; try (eexists; by repeat split).
      - exists (resp !! t). repeat split; [done|]. by intros ? [= ->].
      - by destruct (Htoken l). }
    destruct (list_elasticsearch_versions_run E context max_results next_token st c
                response vl h resp xs ys o Hc Hcall Hresp Hvl Hxs Hys Ho)
      as (lv & r & st' & Hrun & Hr & Hlv).
    exists lv, r, st', ys, (default VNone o). repeat (split; [done|]). split.
    + intros Hnone. by rewrite (Hn Hnone).
    + intros t Hnt. by rewrite (Ht t Hnt).
  - intros Hvl. unfold list_elasticsearch_versions. rewrite Hc.
    erewrite bind_ok; [|apply lift_run].
    erewrite bind_ok; [|by apply call_client_run].
    rewrite bind_run. unfold subscript. cbn [heap]. by rewrite Hresp, Hvl.
Qed.

(** X17: what [get_compatible_elasticsearch_versions] makes of the answer.
    Without [CompatibleVersions] (missing or [None]) it returns a dict with
    [CompatibleElasticsearchVersions] bound to [None]; with a list of the
    right shape it returns a new list with one translated entry per entry,
    in the same order. *)
Theorem get_compatible_versions_outcomes (E : Env) (context : RequestContext)
    (name : value) (st : state) (c : client) (response : value)
    (h : gmap loc obj) (resp : gmap string value) :
  connect_to_service E "opensearch" (region context) = Ok c →
  invoke c "get_compatible_versions"
    (if truthy (heap st) name then {["DomainName" := name]} else ∅) (heap st)
  = (Ok response, h) →
  as_dict h response = Some resp →
  (absent (resp !! "CompatibleVersions") →
   ∃ st' r,
     get_compatible_elasticsearch_versions E context name st = (Ok (VRef r), st') ∧
     heap st' !! r = Some (ODict {["CompatibleElasticsearchVersions" := VNone]})) ∧
  (∀ v maps,
     resp !! "CompatibleVersions" = Some v →
     as_list h v = Some maps →
     compatible_versions_ok h v = true →
     ∃ st' r lst outs,
       get_compatible_elasticsearch_versions E context name st = (Ok (VRef r), st') ∧
       heap st' !! r = Some (ODict {["CompatibleElasticsearchVersions" := VRef lst]}) ∧
       h !! lst = None ∧
       heap st' !! lst = Some (OList outs) ∧
       Forall2 (translates_version_map h (heap st')) maps outs).
Proof.
  intros Hc Hcall Hresp.
  set (st1 := {| heap := h;
                 calls := calls st ++ [Call (region context) "get_compatible_versions"
                                         (if truthy (heap st) name
                                          then {["DomainName" := name]} else ∅)];
                 events := events st |}).
  assert (get_compatible_elasticsearch_versions E context name st
          = (translated ← _compatible_version_list_from_opensearch
                            (default VNone (resp !! "CompatibleVersions"));
             alloc (ODict {["CompatibleElasticsearchVersions" := translated]})) st1)
    as Hstart.
  { unfold get_compatible_elasticsearch_versions. rewrite Hc.
    erewrite bind_ok; [|apply lift_run].
    erewrite bind_ok; [|apply kwargs_if_set_run].
    erewrite bind_ok; [|by apply call_client_run].
    by erewrite bind_ok; [|by apply dict_get_run]. }
  rewrite Hstart. split.
  - intros Habs.
    assert (default VNone (resp !! "CompatibleVersions") = VNone) as ->
      by by destruct Habs as [-> | ->].
    destruct (alloc_fresh (ODict {["CompatibleElasticsearchVersions" := VNone]}) st1)
      as (r & Hr & _).
    eexists _, r. split; [erewrite bind_ok; [exact Hr|reflexivity]|].
    apply lookup_insert_eq.
  - intros v maps Hv Hmaps Hok. rewrite Hv. cbn [default].
    destruct (compatible_version_list_run st1 v maps Hmaps Hok)
      as (st2 & lst & outs & Hrun & Hnew & Hlst & Hall & _ & Hgrow).
    destruct (alloc_fresh (ODict {["CompatibleElasticsearchVersions" := VRef lst]}) st2)
      as (r & Hr & Hr_new).
    eexists _, r, lst, outs. split; [erewrite bind_ok; [exact Hr|exact Hrun]|].
    cbn [heap set_heap]. split; [apply lookup_insert_eq|]. split; [done|].
    split; [rewrite lookup_insert_ne; [done|]; intros ->; congruence|].
    eapply Forall2_impl; [exact Hall|].
    intros m o (sv & tvs & sv' & tvs' & H1 & H2 & H3 & H4).
    exists sv, tvs, sv', tvs'. repeat split; try done.
    eapply version_map_at_mono; [|exact H2]. by apply insert_subseteq.
Qed.

(** X18: the operations that translate nothing. [list_domain_names] returns
    the [DomainNames] of the answer as it is and raises [KeyError] when the
    answer has none; [list_tags] returns the [TagList] of the answer, or
    [None] when the answer has none; [add_tags] and [remove_tags] return
    [None] whatever the client answers. An exception of the client is raised
    unchanged by all four. *)
Theorem untranslated_operations (E : Env) (context : RequestContext)
    (st : state) (c : client) :
  connect_to_service E "opensearch" (region context) = Ok c →
  (∀ engine_type r h,
     invoke c "list_domain_names"
       (if truthy (heap st) engine_type then {["EngineType" := engine_type]} else ∅)
       (heap st) = (r, h) →
     (∀ e, r = Raise e → (list_domain_names E context engine_type st).1 = Raise e) ∧
     (∀ response resp, r = Ok response → as_dict h response = Some resp →
        match resp !! "DomainNames" with
        | Some names =>
            ∃ st' l, list_domain_names E context engine_type st = (Ok (VRef l), st') ∧
                     heap st' !! l = Some (ODict {["DomainNames" := names]})
        | None =>
            (list_domain_names E context engine_type st).1
            = Raise (KeyError "DomainNames")
        end)) ∧
  (∀ arn r h,
     invoke c "list_tags" {["ARN" := arn]} (heap st) = (r, h) →
     (∀ e, r = Raise e → (list_tags E context arn st).1 = Raise e) ∧
     (∀ response resp, r = Ok response → as_dict h response = Some resp →
        ∃ st' l, list_tags E context arn st = (Ok (VRef l), st') ∧
                 heap st' !! l
                 = Some (ODict {["TagList" := default VNone (resp !! "TagList")]}))) ∧
  (∀ arn tags r h,
     invoke c "add_tags" (<["ARN" := arn]> (<["TagList" := tags]> ∅)) (heap st) = (r, h) →
     (add_tags E context arn tags st).1
     = match r with Ok _ => Ok VNone | Raise e => Raise e end) ∧
  (∀ arn keys r h,
     invoke c "remove_tags" (<["ARN" := arn]> (<["TagKeys" := keys]> ∅)) (heap st) = (r, h) →
     (remove_tags E context arn keys st).1
     = match r with Ok _ => Ok VNone | Raise e => Raise e end).
Proof.
  intros Hc. split; [|split; [|split]].
  - intros engine_type r h Hcall. split.
    + intros e ->. unfold list_domain_names. rewrite Hc.
      erewrite bind_ok; [|apply lift_run].
      erewrite bind_ok; [|apply kwargs_if_set_run].
      by erewrite bind_raise; [|by apply call_client_run].
    + intros response resp -> Hresp.
      assert (list_domain_names E context engine_type st
              = (domain_names ← subscript response "DomainNames";
                 alloc (ODict {["DomainNames" := cast domain_names]}))
                  {| heap := h;
                     calls := calls st ++ [Call (region context) "list_domain_names"
                                (if truthy (heap st) engine_type
                                 then {["EngineType" := engine_type]} else ∅)];
                     events := events st |}) as ->.
      { unfold list_domain_names. rewrite Hc.
        erewrite bind_ok; [|apply lift_run].
        erewrite bind_ok; [|apply kwargs_if_set_run].
        by erewrite bind_ok; [|by apply call_client_run]. }
      destruct (resp !! "DomainNames") as [names|] eqn:Hnames.
      * erewrite bind_ok; [|by eapply subscript_run].
        destruct (alloc_fresh (ODict {["DomainNames" := names]})
                    {| heap := h;
                       calls := calls st ++ [Call (region context) "list_domain_names"
                                  (if truthy (heap st) engine_type
                                   then {["EngineType" := engine_type]} else ∅)];
                       events := events st |}) as (l & Hl & _).
        eexists _, l. split; [exact Hl|]. apply lookup_insert_eq.
      * rewrite bind_run. unfold subscript. cbn [heap]. by rewrite Hresp, Hnames.
  - intros arn r h Hcall. split.
    + intros e ->. unfold list_tags. rewrite Hc.
      erewrite bind_ok; [|apply lift_run].
      by erewrite bind_raise; [|by apply call_client_run].
    + intros response resp -> Hresp. unfold list_tags. rewrite Hc.
      erewrite bind_ok; [|apply lift_run].
      erewrite bind_ok; [|by apply call_client_run].
      erewrite bind_ok; [|by apply dict_get_run].
      match goal with |- context [alloc ?o ?s] =>
        destruct (alloc_fresh o s) as (l & Hl & _) end.
      eexists _, l. split; [exact Hl|]. apply lookup_insert_eq.
  - intros arn tags r h Hcall. unfold add_tags. rewrite Hc.
    erewrite bind_ok; [|apply lift_run].
    rewrite bind_run. erewrite call_client_run by done. by destruct r.
  - intros arn keys r h Hcall. unfold remove_tags. rewrite Hc.
    erewrite bind_ok; [|apply lift_run].
    rewrite bind_run. erewrite call_client_run by done. by destruct r.
Qed.


(** ** Cluster configs there and back, and inside a status *)

Section ClusterConfigRoundTrip.
Import PyStrMore.

(** X19: a cluster config translated to the current dialect and back. The
    translators return the dict both times; afterwards an instance type of
    the form [p + "elasticsearch"], with no "search" in [p], is what it was,
    an instance-type field that was absent is bound to [None], and every
    other field is as it was. *)
Theorem clusterconfig_there_and_back (st : state) (l : loc)
    (d : gmap string value) :
  heap st !! l = Some (ODict d) →
  cluster_config_ok (heap st) (VRef l) = true →
  ∃ st' d',
    (_ ← _clusterconfig_to_opensearch (VRef l);
     _clusterconfig_from_opensearch (VRef l)) st = (Ok (VRef l), st') ∧
    heap st' !! l = Some (ODict d') ∧
    (∀ k p, instance_type_field k →
            d !! k = Some (VStr (p +:+ "elasticsearch")) →
            occursb "search" p = false →
            d' !! k = Some (VStr (p +:+ "elasticsearch"))) ∧
    (∀ k, instance_type_field k → absent (d !! k) → d' !! k = Some VNone) ∧
    (∀ k, ¬ instance_type_field k → d' !! k = d !! k).
Proof.
  intros Hl Hok.
  destruct (translate_cluster_config_parts _instancetype_to_opensearch st l d
              instancetype_to_opt_str Hl Hok) as (st1 & d1 & Hrun1 & -> & Hit1 & Hrest1).
  set (st1 := set_heap _ st) in *.
  assert (heap st1 !! l = Some (ODict d1)) as Hl1 by apply lookup_insert_eq.
  assert (cluster_config_ok (heap st1) (VRef l) = true) as Hok1.
  { unfold cluster_config_ok. rewrite (proj2 (as_dict_ref _ _ _) Hl1).
    assert (∀ k, instance_type_field k → is_opt_str (d1 !! k) = true) as Hk.
    { intros k Hk. destruct (Hit1 k Hk) as (y & Hy & ->).
      destruct (default VNone (d !! k)); try done; by injection Hy as <-. }
    rewrite !Hk; unfold instance_type_field; auto. }
  destruct (translate_cluster_config_parts _instancetype_from_opensearch st1 l d1
              instancetype_from_opt_str Hl1 Hok1) as (st2 & d2 & Hrun2 & -> & Hit2 & Hrest2).
  eexists. exists d2. split.
  { erewrite bind_ok; [exact Hrun2|exact Hrun1]. }
  cbn [heap set_heap]. split; [apply lookup_insert_eq|]. split; [|split].
  - intros k p Hk Hd Hp.
    destruct (Hit1 k Hk) as (y1 & Hy1 & Hd1), (Hit2 k Hk) as (y2 & Hy2 & ->).
    destruct (instancetype_roundtrip_parts p Hp) as [Hto Hfrom].
    rewrite Hd in Hy1.
    change (_instancetype_to_opensearch (VStr (p +:+ "elasticsearch")) = Ok y1) in Hy1.
    rewrite Hto in Hy1. injection Hy1 as <-. rewrite Hd1 in Hy2.
    change (_instancetype_from_opensearch (VStr (p +:+ "search")) = Ok y2) in Hy2.
    rewrite Hfrom in Hy2. by injection Hy2 as <-.
  - intros k Hk Habs.
    destruct (Hit1 k Hk) as (y1 & Hy1 & Hd1), (Hit2 k Hk) as (y2 & Hy2 & ->).
    assert (default VNone (d !! k) = VNone) as Hnone by by destruct Habs as [-> | ->].
    rewrite Hnone in Hy1. change (Ok VNone = Ok y1) in Hy1. injection Hy1 as <-.
    rewrite Hd1 in Hy2. change (Ok VNone = Ok y2) in Hy2. by injection Hy2 as <-.
  - intros k Hk. by rewrite Hrest2, Hrest1.
Qed.

End ClusterConfigRoundTrip.

Lemma clusterconfig_there_and_back_witness :
  ∃ st' d',
    (_ ← _clusterconfig_to_opensearch (VRef 3);
     _clusterconfig_from_opensearch (VRef 3)) Sample.start = (Ok (VRef 3), st') ∧
    heap st' !! 3%positive = Some (ODict d') ∧
    d' !! "InstanceType" = Some (VStr ("m5.large." +:+ "elasticsearch")) ∧
    d' !! "WarmType" = Some VNone ∧
    d' !! "InstanceCount" = Some (VInt 1).
Proof.
  destruct (clusterconfig_there_and_back Sample.start 3%positive
              (<["InstanceType" := VStr "m5.large.elasticsearch"]>
                 (<["InstanceCount" := VInt 1]> ∅)))
    as (st' & d' & Hrun & Hd' & Htype & Habs & Hrest); [reflexivity|reflexivity|].
  exists st', d'. split; [exact Hrun|]. split; [exact Hd'|]. split; [|split].
  - apply Htype; [by left|reflexivity|reflexivity].
  - apply Habs; [right; by right|by left].
  - rewrite Hrest; [reflexivity|]. intros [?|[?|?]]; discriminate.
Defined.

(** The run of the status translator when the cluster config is another
    dict. *)
Lemma domainstatus_run_nested (st : state) (l c : loc)
    (d dc : gmap string value) :
  heap st !! l = Some (ODict d) →
  d !! "ClusterConfig" = Some (VRef c) →
  c ≠ l →
  heap st !! c = Some (ODict dc) →
  domain_status_ok (heap st) (VRef l) = true →
  ∃ st' dc',
    _domainstatus_from_opensearch (VRef l) st = (Ok (VRef l), st') ∧
    heap st' !! c = Some (ODict dc') ∧
    (∀ k, instance_type_field k →
          ∃ y, _instancetype_from_opensearch (default VNone (dc !! k)) = Ok y ∧
               dc' !! k = Some y) ∧
    (∀ k, ¬ instance_type_field k → dc' !! k = dc !! k).
Proof.
  intros Hl Hcc Hne Hc Hok.
  pose proof Hok as Hok'. unfold domain_status_ok in Hok'.
  rewrite (proj2 (as_dict_ref _ _ _) Hl), Hcc in Hok'.
  apply andb_true_iff in Hok' as [Hev Hccok].
  change (cluster_config_ok (heap st) (VRef c) = true) in Hccok.
  destruct (version_from_opt_str _ Hev) as [ev Hev'].
  set (st1 := set_heap (<[l := ODict (<["ElasticsearchVersion" := ev]> d)]> (heap st)) st).
  assert (heap st1 !! c = Some (ODict dc)) as Hc1
    by (cbn; by rewrite lookup_insert_ne).
  assert (cluster_config_ok (heap st1) (VRef c) = true) as Hccok1.
  { unfold cluster_config_ok in *. rewrite (proj2 (as_dict_ref _ _ _) Hc1).
    by rewrite (proj2 (as_dict_ref _ _ _) Hc) in Hccok. }
  destruct (translate_cluster_config_parts _instancetype_from_opensearch st1 c dc
              instancetype_from_opt_str Hc1 Hccok1) as (st2 & dc' & Hrun & Hst2 & H1 & H2).
  assert (heap st2 !! l = Some (ODict (<["ElasticsearchVersion" := ev]> d))) as Hl2.
  { rewrite Hst2. cbn. rewrite lookup_insert_ne by done. apply lookup_insert_eq. }
  eexists. exists dc'. split.
  { unfold _domainstatus_from_opensearch, cast.
    erewrite bind_ok; [|by apply dict_get_run, as_dict_ref].
    rewrite Hev'. erewrite bind_ok; [|apply lift_run].
    erewrite bind_ok; [|by apply dict_set_run]. fold st1.
    erewrite bind_ok;
      [|apply dict_get_run, as_dict_ref; cbn [heap set_heap st1]; apply lookup_insert_eq].
    rewrite lookup_insert_ne, Hcc by done. cbn [default].
    rewrite clusterconfig_from_opensearch_unfold.
    erewrite bind_ok; [|exact Hrun].
    erewrite bind_ok; [|by apply dict_set_run].
    erewrite bind_ok;
      [|apply dict_pop_run; cbn [heap set_heap]; apply lookup_insert_eq].
    erewrite bind_ok;
      [|apply dict_pop_run; cbn [heap set_heap]; apply lookup_insert_eq].
    reflexivity. }
  split; [|done]. cbn [heap set_heap].
  rewrite !lookup_insert_ne by done. rewrite Hst2. cbn. apply lookup_insert_eq.
Qed.

(** X20: when a domain status (or config) of the right shape refers to a
    cluster config that is another dict, the translation also rewrites that
    dict in place: each instance-type field then holds the legacy form of
    what it held, every other field of it is as it was. *)
Theorem domainstatus_translates_nested_clusterconfig (st : state) (l c : loc)
    (d dc : gmap string value) :
  heap st !! l = Some (ODict d) →
  d !! "ClusterConfig" = Some (VRef c) →
  c ≠ l →
  heap st !! c = Some (ODict dc) →
  domain_status_ok (heap st) (VRef l) = true →
  ∃ st' dc',
    _domainstatus_from_opensearch (VRef l) st = (Ok (VRef l), st') ∧
    _domainconfig_from_opensearch (VRef l) st = (Ok (VRef l), st') ∧
    field (heap st') l "ElasticsearchClusterConfig" = Some (VRef c) ∧
    heap st' !! c = Some (ODict dc') ∧
    (∀ k, instance_type_field k →
          ∃ y, _instancetype_from_opensearch (default VNone (dc !! k)) = Ok y ∧
               dc' !! k = Some y) ∧
    (∀ k, ¬ instance_type_field k → dc' !! k = dc !! k).
Proof.
  intros Hl Hcc Hne Hc Hok.
  destruct (domainstatus_run_nested st l c d dc Hl Hcc Hne Hc Hok)
    as (st' & dc' & Hrun & Hc' & H1 & H2).
  exists st', dc'. split; [done|]. split; [done|]. split; [|done].
  destruct (domainstatus_from_opensearch_run st l d Hl Hok)
    as (st'' & d' & ev & Hrun' & _ & _ & Hd' & _ & _ & Hecc & _).
  rewrite Hrun in Hrun'. injection Hrun' as <-.
  unfold field. rewrite (proj2 (as_dict_ref _ _ _) Hd'). cbn. by rewrite Hecc, Hcc.
Qed.


(** ** The further properties on sample data *)

Lemma domainstatus_translation_failures_witness :
  _domainconfig_from_opensearch (VRef 2) MoreSamples.start
  = (Raise AttributeError, MoreSamples.start) ∧
  ∃ ev st', _domainstatus_from_opensearch (VRef 3) MoreSamples.start
            = (Raise AttributeError, st') ∧
            field (heap st') 3 "ElasticsearchVersion" = Some ev ∧
            field (heap st') 3 "EngineVersion" = Some (VStr "Elasticsearch_7.10").
Proof.
  split.
  - destruct (domainstatus_translation_failures MoreSamples.start 2%positive
                (<["EngineVersion" := VRef 1]> ∅)) as [H _]; [reflexivity|].
    apply H. reflexivity.
  - destruct (domainstatus_translation_failures MoreSamples.start 3%positive
                (<["EngineVersion" := VStr "Elasticsearch_7.10"]>
                   (<["ClusterConfig" := VStr "m5.large.search"]> ∅)))
      as [_ H]; [reflexivity|].
    destruct (H (VStr "m5.large.search")) as (ev & _ & Hrun);
      [reflexivity|reflexivity|discriminate|reflexivity|].
    exists ev. eexists. split; [exact Hrun|].
    unfold field. cbn [heap set_heap].
    rewrite as_dict_insert, decide_True by done. cbn. split.
    + apply lookup_insert_eq.
    + rewrite lookup_insert_ne by done. apply lookup_insert_eq.
Defined.

Lemma compatible_versions_translated_in_order_witness :
  ∃ st' r outs,
    _compatible_version_list_from_opensearch (VRef 6) MoreSamples.start
    = (Ok (VRef r), st') ∧
    heap st' !! r = Some (OList outs) ∧
    length outs = 1.
Proof.
  destruct (compatible_versions_translated_in_order MoreSamples.start (VRef 6) [VRef 5])
    as (st' & r & outs & H1 & _ & H2 & _ & H3 & _); [reflexivity|reflexivity|].
  exists st', r, outs. split; [exact H1|]. split; [exact H2|exact H3].
Defined.

Lemma compatible_versions_missing_key_witness :
  ∃ st', _compatible_version_list_from_opensearch (VRef 8) MoreSamples.start
         = (Raise (KeyError "SourceVersion"), st') ∧
         only_allocates MoreSamples.start st'.
Proof.
  destruct (compatible_versions_missing_key MoreSamples.start (VRef 8) (VRef 7)
              [VRef 5] [] (<["TargetVersions" := VRef 4]> ∅)) as [H _];
    [reflexivity|reflexivity|reflexivity|].
  apply H. reflexivity.
Defined.

Lemma every_operation_makes_one_call_witness :
  calls (list_domain_names (MoreSamples.env_of MoreSamples.backend) Sample.context
           (VStr "") MoreSamples.start).2
  = [Call "us-east-1" "list_domain_names" ∅] ∧
  calls (list_elasticsearch_versions (MoreSamples.env_of MoreSamples.backend)
           Sample.context VNone (VStr "") MoreSamples.start).2
  = [Call "us-east-1" "list_versions" {["NextToken" := VStr ""]}].
Proof.
  destruct (every_operation_makes_one_call (MoreSamples.env_of MoreSamples.backend)
              Sample.context MoreSamples.start) as [H _].
  destruct (H MoreSamples.backend eq_refl)
    as (_ & _ & _ & _ & Hnames & _ & Hversions & _).
  split.
  - apply (Hnames (VStr "")).
  - apply (Hversions VNone (VStr "")).
Defined.

Lemma backend_failure_fires_no_event_witness :
  delete_elasticsearch_domain (MoreSamples.env_of MoreSamples.backend_down)
    Sample.context "logs" MoreSamples.start
  = (Raise (External "EndpointConnectionError"),
     {| heap := MoreSamples.objects;
        calls := [Call "us-east-1" "delete_domain" {["DomainName" := VStr "logs"]}];
        events := [] |}).
Proof.
  destruct (backend_failure_fires_no_event (MoreSamples.env_of MoreSamples.backend_down)
              Sample.context MoreSamples.backend_down eq_refl) as [H _].
  destruct (H "logs" MoreSamples.start MoreSamples.objects
              (Raise (External "EndpointConnectionError")) eq_refl) as [Hraise _].
  apply Hraise. reflexivity.
Defined.

Lemma describe_domain_translates_status_witness :
  ∃ st' r ds d',
    describe_elasticsearch_domain (MoreSamples.env_of MoreSamples.backend)
      Sample.context "logs" MoreSamples.start = (Ok (VRef r), st') ∧
    heap st' !! r = Some (ODict {["DomainStatus" := VRef ds]}) ∧
    heap st' !! ds = Some (ODict d') ∧
    d' !! "ElasticsearchVersion" = Some (VStr "7.10") ∧
    d' !! "EngineVersion" = None ∧
    d' !! "DomainName" = Some (VStr "logs").
Proof.
  edestruct (describe_domain_translates_status (MoreSamples.env_of MoreSamples.backend)
               Sample.context "logs" MoreSamples.start MoreSamples.backend)
    as [H _]; [reflexivity|reflexivity|reflexivity|].
  edestruct H as (st' & r & d' & ev & H1 & _ & H2 & H3 & H4 & H5 & _ & H6 & _ & H7);
    [reflexivity|reflexivity|reflexivity|].
  exists st', r. eexists. exists d'.
  split; [exact H1|]. split; [exact H2|]. split; [exact H3|].
  injection H4 as <-. split; [exact H5|]. split; [exact H6|].
  rewrite H7; [reflexivity|discriminate..|]. intros [?|[?|?]]; discriminate.
Defined.

Lemma describe_domains_translates_each_witness :
  ∃ st' r lst xs,
    describe_elasticsearch_domains (MoreSamples.env_of MoreSamples.backend)
      Sample.context VNone MoreSamples.start = (Ok (VRef r), st') ∧
    heap st' !! lst = Some (OList xs) ∧
    length xs = 2 ∧
    Forall (translated_status (heap st')) xs.
Proof.
  edestruct (describe_domains_translates_each (MoreSamples.env_of MoreSamples.backend)
               Sample.context VNone MoreSamples.start MoreSamples.backend)
    as (st' & r & lst & H1 & _ & _ & H2 & H3);
    [reflexivity|reflexivity|reflexivity|reflexivity|reflexivity|reflexivity|].
  exists st', r, lst. eexists.
  split; [exact H1|]. split; [exact H2|]. split; [reflexivity|exact H3].
Defined.

Lemma describe_domain_config_outcomes_witness :
  (describe_elasticsearch_domain_config (MoreSamples.env_of MoreSamples.backend)
     Sample.context "logs" MoreSamples.start).1 = Raise AttributeError.
Proof.
  edestruct (describe_domain_config_outcomes (MoreSamples.env_of MoreSamples.backend)
               Sample.context "logs" MoreSamples.start MoreSamples.backend)
    as (_ & H & _); [reflexivity|reflexivity|reflexivity|].
  erewrite H; reflexivity.
Defined.

Lemma list_versions_translates_in_order_witness :
  ∃ lv r st' ys,
    list_elasticsearch_versions (MoreSamples.env_of MoreSamples.backend)
      Sample.context VNone VNone MoreSamples.start = (Ok (VRef r), st') ∧
    heap st' !! r = Some (ODict (<["ElasticsearchVersions" := VRef lv]>
                                   (<["NextToken" := VNone]> ∅))) ∧
    heap st' !! lv = Some (OList ys) ∧
    Forall2 translates_version [VStr "Elasticsearch_7.10"; VStr "OpenSearch_1.0"] ys.
Proof.
  edestruct (list_versions_translates_in_order (MoreSamples.env_of MoreSamples.backend)
               Sample.context VNone VNone MoreSamples.start MoreSamples.backend)
    as [H _]; [reflexivity|reflexivity|reflexivity|].
  edestruct H as (lv & r & st' & ys & token & H1 & H2 & H3 & H4 & H5 & _);
    [reflexivity|reflexivity|reflexivity|discriminate|].
  exists lv, r, st', ys. split; [exact H1|]. rewrite (H5 eq_refl) in H2.
  split; [exact H2|]. split; [exact H3|exact H4].
Defined.

Lemma get_compatible_versions_outcomes_witness :
  ∃ st' r lst outs,
    get_compatible_elasticsearch_versions (MoreSamples.env_of MoreSamples.backend)
      Sample.context (VStr "logs") MoreSamples.start = (Ok (VRef r), st') ∧
    heap st' !! r = Some (ODict {["CompatibleElasticsearchVersions" := VRef lst]}) ∧
    heap st' !! lst = Some (OList outs) ∧
    length outs = 1.
Proof.
  edestruct (get_compatible_versions_outcomes (MoreSamples.env_of MoreSamples.backend)
               Sample.context (VStr "logs") MoreSamples.start MoreSamples.backend)
    as [_ H]; [reflexivity|reflexivity|reflexivity|].
  edestruct H as (st' & r & lst & outs & H1 & H2 & _ & H3 & H4);
    [reflexivity|reflexivity|reflexivity|].
  exists st', r, lst, outs. split; [exact H1|]. split; [exact H2|]. split; [exact H3|].
  symmetry. exact (Forall2_length _ _ _ H4).
Defined.

Lemma untranslated_operations_witness :
  (add_tags (MoreSamples.env_of MoreSamples.backend) Sample.context
     (VStr "arn:aws:es:us-east-1:000000000000:domain/logs") VNone MoreSamples.start).1
  = Ok VNone ∧
  (list_tags (MoreSamples.env_of MoreSamples.backend_down) Sample.context
     (VStr "arn:aws:es:us-east-1:000000000000:domain/logs") MoreSamples.start).1
  = Raise (External "EndpointConnectionError").
Proof.
  split.
  - destruct (untranslated_operations (MoreSamples.env_of MoreSamples.backend)
                Sample.context MoreSamples.start MoreSamples.backend eq_refl)
      as (_ & _ & H & _).
    epose proof (H (VStr "arn:aws:es:us-east-1:000000000000:domain/logs") VNone _ _
                   ltac:(reflexivity)) as Hrun.
    exact Hrun.
  - destruct (untranslated_operations (MoreSamples.env_of MoreSamples.backend_down)
                Sample.context MoreSamples.start MoreSamples.backend_down eq_refl)
      as (_ & H & _).
    edestruct H as [Hraise _]; [reflexivity|]. apply Hraise. reflexivity.
Defined.

Lemma domainstatus_translates_nested_clusterconfig_witness :
  ∃ st' dc',
    _domainstatus_from_opensearch (VRef 10) MoreSamples.start = (Ok (VRef 10), st') ∧
    field (heap st') 10 "ElasticsearchClusterConfig" = Some (VRef 9) ∧
    heap st' !! 9%positive = Some (ODict dc') ∧
    dc' !! "InstanceType" = Some (VStr "m5.large.elasticsearch") ∧
    dc' !! "InstanceCount" = Some (VInt 2).
Proof.
  destruct (domainstatus_translates_nested_clusterconfig MoreSamples.start
              10%positive 9%positive
              (<["EngineVersion" := VStr "Elasticsearch_7.10"]>
                 (<["ClusterConfig" := VRef 9]> ∅))
              (<["InstanceType" := VStr "m5.large.search"]>
                 (<["InstanceCount" := VInt 2]> ∅)))
    as (st' & dc' & H1 & _ & H2 & H3 & H4 & H5);
    [reflexivity|reflexivity|discriminate|reflexivity|reflexivity|].
  exists st', dc'. split; [exact H1|]. split; [exact H2|]. split; [exact H3|]. split.
  - destruct (H4 "InstanceType") as (y & Hy & ->); [by left|].
    injection Hy as <-. reflexivity.
  - rewrite H5; [reflexivity|]. intros [?|[?|?]]; discriminate.
Defined.
